(** * DSS server browser: protocol client, server store, discovery service

    A shallow embedding of the discovery engine of the DSS server browser:
    - [backend/dss_query.py]: the wire-protocol client,
    - [backend/storage/servers.py]: the sqlite-backed server store,
    - [backend/network/dynamic_servers.py]: the validation service,
    followed by the properties of these functions. *)

From Stdlib Require Import ZArith List Bool Lia.
From Stdlib Require Strings.String.
Import String.StringSyntax.
Delimit Scope string_scope with string.
From Stdlib Require Import Strings.Ascii.
From Stdlib Require Import Sorting.Permutation Sorting.Sorted.
From coqutil Require Import Byte Word.LittleEndianList.
Import ListNotations.

Local Open Scope Z_scope.
Local Open Scope list_scope.

(* ===================================================================== *)
(** * Python values used by the program *)
(* ===================================================================== *)

Module Py.

(** [bytes]: a sequence of 8-bit values. *)
Definition bytes := list byte.

(** [str]: a sequence of Unicode code points. *)
Definition codepoint := Z.
Definition str := list codepoint.

(** A [str] literal written with ASCII characters. *)
Definition lit (s : String.string) : str :=
  List.map (fun a => Z.of_N (N_of_ascii a)) (String.list_ascii_of_string s).
Arguments lit s%_string.

Definition str_eqb (a b : str) : bool :=
  if list_eq_dec Z.eq_dec a b then true else false.

(** The exceptions the modelled code can raise. *)
Inductive exn : Type :=
| ConnectionError (msg : String.string)
| ValueError (msg : String.string)
| IndexError
| struct_error
| UnicodeDecodeError
| UnicodeEncodeError
| OperationalError (msg : String.string)
| SSLError (msg : String.string).

(** A computation that returns a value or raises. *)
Inductive result (A : Type) : Type :=
| Ok (a : A)
| Raise (e : exn).
Arguments Ok {A} a.
Arguments Raise {A} e.

Definition bind {A B} (m : result A) (k : A -> result B) : result B :=
  match m with
  | Ok a => k a
  | Raise e => Raise e
  end.

Definition is_ok {A} (m : result A) : bool :=
  match m with Ok _ => true | Raise _ => false end.

(** [s[i]] on bytes: the value of the byte, [IndexError] out of range. *)
Definition index (s : bytes) (i : nat) : result Z :=
  match nth_error s i with
  | Some b => Ok (byte.unsigned b)
  | None => Raise IndexError
  end.

(** [s[i:]] and [s[i:j]] for non-negative bounds; slices never raise. *)
Definition slice_from {A} (s : list A) (i : nat) : list A := skipn i s.
Definition slice {A} (s : list A) (i j : nat) : list A :=
  firstn (j - i) (skipn i s).

(** [s.index(0, off)]: position of the first zero byte at or after
    [off]; [ValueError] when there is none. *)
Fixpoint find_zero (s : bytes) (pos : nat) : option nat :=
  match s with
  | [] => None
  | b :: s' => if byte.unsigned b =? 0 then Some pos else find_zero s' (S pos)
  end.

Definition index_zero (s : bytes) (off : nat) : result nat :=
  match find_zero (skipn off s) off with
  | Some e => Ok e
  | None => Raise (ValueError "subsection not found"%string)
  end.

(** ** [struct] with little-endian formats *)

(** [struct.pack("<I", v)]: four bytes; [struct.error] out of range. *)
Definition pack_I (v : Z) : result bytes :=
  if (0 <=? v) && (v <? 2 ^ 32) then Ok (le_split 4 v) else Raise struct_error.

(** [struct.unpack_from("<I", buf, off)[0]]. *)
Definition unpack_from_I (buf : bytes) (off : nat) : result Z :=
  if (off + 4 <=? length buf)%nat
  then Ok (le_combine (firstn 4 (skipn off buf)))
  else Raise struct_error.

(** [struct.unpack_from("<HH", buf, off)]. *)
Definition unpack_from_HH (buf : bytes) (off : nat) : result (Z * Z) :=
  if (off + 4 <=? length buf)%nat
  then Ok (le_combine (firstn 2 (skipn off buf)),
           le_combine (firstn 2 (skipn (off + 2) buf)))
  else Raise struct_error.

(** ** The UTF-8 codec *)

Inductive errors_mode : Type := strict | ignore.

Definition is_continuation (c : Z) : bool := (0x80 <=? c) && (c <? 0xC0).

Definition cons_ok (c : codepoint) (r : result str) : result str :=
  bind r (fun t => Ok (c :: t)).

(** [s.decode("utf-8", errors)]. An ill-formed sequence is an error
    that covers its maximal valid prefix (one byte for a bad start byte
    or a bad second byte, two or three bytes for a later bad
    continuation byte, everything left for a truncated sequence at the
    end of the input); [strict] raises there and [ignore] drops the
    covered bytes and goes on behind them. *)
Fixpoint utf8_decode (errors : errors_mode) (s : bytes) : result str :=
  let on_error (rest : result str) :=
    match errors with
    | strict => Raise UnicodeDecodeError
    | ignore => rest
    end in
  match s with
  | [] => Ok []
  | b1 :: s1 =>
    let ch := byte.unsigned b1 in
    if ch <? 0x80 then cons_ok ch (utf8_decode errors s1)
    else if ch <? 0xC2 then on_error (utf8_decode errors s1)
    else if ch <? 0xE0 then
      match s1 with
      | [] => on_error (Ok [])
      | b2 :: s2 =>
        let ch2 := byte.unsigned b2 in
        if negb (is_continuation ch2) then on_error (utf8_decode errors s1)
        else cons_ok ((ch - 0xC0) * 64 + (ch2 - 0x80)) (utf8_decode errors s2)
      end
    else if ch <? 0xF0 then
      match s1 with
      | [] => on_error (Ok [])
      | b2 :: s2 =>
        let ch2 := byte.unsigned b2 in
        if negb (is_continuation ch2)
           || (if ch2 <? 0xA0 then ch =? 0xE0 else ch =? 0xED)
        then on_error (utf8_decode errors s1)
        else
          match s2 with
          | [] => on_error (Ok [])
          | b3 :: s3 =>
            let ch3 := byte.unsigned b3 in
            if negb (is_continuation ch3) then on_error (utf8_decode errors s2)
            else cons_ok ((ch - 0xE0) * 4096 + (ch2 - 0x80) * 64 + (ch3 - 0x80))
                         (utf8_decode errors s3)
          end
      end
    else if ch <? 0xF5 then
      match s1 with
      | [] => on_error (Ok [])
      | b2 :: s2 =>
        let ch2 := byte.unsigned b2 in
        if negb (is_continuation ch2)
           || (if ch2 <? 0x90 then ch =? 0xF0 else ch =? 0xF4)
        then on_error (utf8_decode errors s1)
        else
          match s2 with
          | [] => on_error (Ok [])
          | b3 :: s3 =>
            let ch3 := byte.unsigned b3 in
            if negb (is_continuation ch3) then on_error (utf8_decode errors s2)
            else
              match s3 with
              | [] => on_error (Ok [])
              | b4 :: s4 =>
                let ch4 := byte.unsigned b4 in
                if negb (is_continuation ch4)
                then on_error (utf8_decode errors s3)
                else cons_ok ((ch - 0xF0) * 262144 + (ch2 - 0x80) * 4096
                              + (ch3 - 0x80) * 64 + (ch4 - 0x80))
                             (utf8_decode errors s4)
              end
          end
      end
    else on_error (utf8_decode errors s1)
  end.

(** The UTF-8 encoding of one code point; surrogates, and values that
    are no code points at all, have none. *)
Definition utf8_encode_char (c : codepoint) : result bytes :=
  if c <? 0 then Raise UnicodeEncodeError
  else if c <? 0x80 then Ok [byte.of_Z c]
  else if c <? 0x800 then
    Ok [byte.of_Z (0xC0 + c / 64); byte.of_Z (0x80 + c mod 64)]
  else if c <? 0x10000 then
    if (0xD800 <=? c) && (c <? 0xE000) then Raise UnicodeEncodeError
    else Ok [byte.of_Z (0xE0 + c / 4096);
             byte.of_Z (0x80 + (c / 64) mod 64);
             byte.of_Z (0x80 + c mod 64)]
  else if c <? 0x110000 then
    Ok [byte.of_Z (0xF0 + c / 262144);
        byte.of_Z (0x80 + (c / 4096) mod 64);
        byte.of_Z (0x80 + (c / 64) mod 64);
        byte.of_Z (0x80 + c mod 64)]
  else Raise UnicodeEncodeError.

(** [s.encode()]: UTF-8, strict. *)
Fixpoint utf8_encode (s : str) : result bytes :=
  match s with
  | [] => Ok []
  | c :: s' =>
    bind (utf8_encode_char c) (fun bs =>
    bind (utf8_encode s') (fun rest => Ok (bs ++ rest)))
  end.

(** [data.startswith(prefix)] on bytes. *)
Fixpoint startswith (data prefix : bytes) : bool :=
  match prefix, data with
  | [], _ => true
  | _ :: _, [] => false
  | p :: prefix', d :: data' =>
    (byte.unsigned d =? byte.unsigned p) && startswith data' prefix'
  end.

(** The text of [s.decode(errors="ignore")], which never raises. *)
Definition decoded (s : bytes) : str :=
  match utf8_decode ignore s with
  | Ok t => t
  | Raise _ => []
  end.

(** The code points a [str] that was decoded holds: the Unicode scalar
    values. *)
Definition scalar_value (c : codepoint) : Prop :=
  0 <= c < 0xD800 \/ 0xE000 <= c < 0x110000.

End Py.

Import Py.

Declare Scope py_scope.
Delimit Scope py_scope with py.
Notation "x <- m ;; k" := (Py.bind m (fun x => k))
  (at level 61, m at next level, right associativity) : py_scope.
Notation "' p <- m ;; k" := (Py.bind m (fun p => k))
  (at level 61, p pattern, m at next level, right associativity) : py_scope.

Local Open Scope py_scope.

(* ===================================================================== *)
(** * backend/dss_query.py *)
(* ===================================================================== *)

(** The dictionary a query returns and the store consumes. Each field is
    what [d.get(key)] gives: [None] when the key is absent. *)
Module ServerInfo.
Record t : Type := mk {
  name : option str;
  info : option str;
  news : option str;
  players : option Z;
  max_players : option Z;
  icon : option bytes
}.
End ServerInfo.

Module DssQuery.

Definition LISTING_USERNAME : str := lit "__dsslist".

Definition NET_MSG_LISTING : Z := 0.
Definition NET_SVM_WHATS_UP : Z := 1.
Definition NET_SVM_LIST_SERVER : Z := 2.
Definition NET_SI_USE_SSL : Z := 1.

(** A connected socket: [incoming] is everything the client can still
    read before the peer closes the connection, [sent] what the client
    has written so far, [tls] whether the connection was upgraded to
    TLS. On an upgraded connection both streams are the application
    data that the TLS records carry. *)
Record socket : Type := mk_socket {
  incoming : bytes;
  sent : bytes;
  tls : bool
}.

(** A socket operation: the socket afterwards and the outcome. *)
Definition io (A : Type) : Type := socket -> socket * result A.

(** [recv_exact]: the loop reads until [n] bytes are there and raises
    when the peer closes first; for [n <= 0] the loop body never runs. *)
Definition recv_exact (n : Z) : io bytes := fun sock =>
  if n <=? 0 then (sock, Ok [])
  else if n <=? Z.of_nat (length (incoming sock))
  then (mk_socket (skipn (Z.to_nat n) (incoming sock)) (sent sock) (tls sock),
        Ok (firstn (Z.to_nat n) (incoming sock)))
  else (mk_socket [] (sent sock) (tls sock),
        Raise (ConnectionError "Connection closed"%string)).

Definition recv_packet : io bytes := fun sock =>
  match recv_exact 4 sock with
  | (sock1, Raise e) => (sock1, Raise e)
  | (sock1, Ok header) =>
    match unpack_from_I header 0 with
    | Raise e => (sock1, Raise e)
    | Ok size =>
      match recv_exact (size - 4) sock1 with
      | (sock2, Raise e) => (sock2, Raise e)
      | (sock2, Ok body) => (sock2, Ok (header ++ body))
      end
    end
  end.

Definition sendall (data : bytes) : io unit := fun sock =>
  (mk_socket (incoming sock) (sent sock ++ data) (tls sock), Ok tt).

Definition parse_whats_up (pkt : bytes) : result (Z * Z * str) :=
  let msg := slice_from pkt 4 in
  m0 <- index msg 0 ;;
  if negb (m0 =? NET_SVM_WHATS_UP)
  then Raise (ValueError "Expected WHATS_UP"%string)
  else
    flags <- index msg 1 ;;
    version <- unpack_from_I msg 2 ;;
    netver <- utf8_decode ignore (slice_from msg 6) ;;
    Ok (flags, version, netver).

Definition build_listing_request (version : Z) (netver : str) : result bytes :=
  v <- pack_I version ;;
  nv <- utf8_encode netver ;;
  user <- utf8_encode LISTING_USERNAME ;;
  let payload :=
    [byte.of_Z NET_MSG_LISTING] ++ v ++ (nv ++ [Byte.x00])
    ++ [byte.of_Z 1] ++ user in
  size <- pack_I (4 + Z.of_nat (length payload)) ;;
  Ok (size ++ payload).

Definition read_cstring (buf : bytes) (off : nat) : result (str * nat) :=
  e <- index_zero buf off ;;
  s <- utf8_decode ignore (slice buf off e) ;;
  Ok (s, S e).

Definition parse_list_server (pkt : bytes) : result ServerInfo.t :=
  let buf := slice_from pkt 5 in
  let off := 0%nat in
  '(name, off) <- read_cstring buf off ;;
  '(info, off) <- read_cstring buf off ;;
  '(news, off) <- read_cstring buf off ;;
  icon_size <- unpack_from_I buf off ;;
  let off := (off + 4)%nat in
  let icon := slice buf off (off + Z.to_nat icon_size) in
  let off := (off + Z.to_nat icon_size)%nat in
  '(players, max_players) <- unpack_from_HH buf off ;;
  Ok (ServerInfo.mk (Some name) (Some info) (Some news)
                    (Some players) (Some max_players) (Some icon)).

Section Tls.
(** [ctx.wrap_socket(sock, server_hostname=host)], for the host of the
    query: the TLS handshake on the connection, which is the work of the
    [ssl] module and of the peer. It gives the socket to go on with, or
    it raises, as it does with [ssl.SSLError] when the peer closes the
    connection or goes on in clear; the socket it leaves then is the
    connection after the failed handshake. *)
Variable wrap_socket : io unit.

(** [query_dss] on the connection [socket.create_connection] returned.
    An error of the handshake ends the query before anything is sent. *)
Definition query_dss : io ServerInfo.t := fun sock =>
  match recv_packet sock with
  | (sock, Raise e) => (sock, Raise e)
  | (sock, Ok pkt) =>
    match parse_whats_up pkt with
    | Raise e => (sock, Raise e)
    | Ok (flags, version, netver) =>
      match (if negb (Z.land flags NET_SI_USE_SSL =? 0)
             then wrap_socket sock else (sock, Ok tt)) with
      | (sock, Raise e) => (sock, Raise e)
      | (sock, Ok _) =>
        match build_listing_request version netver with
        | Raise e => (sock, Raise e)
        | Ok req =>
          let sock := fst (sendall req sock) in
          match recv_packet sock with
          | (sock, Raise e) => (sock, Raise e)
          | (sock, Ok pkt) => (sock, parse_list_server pkt)
          end
        end
      end
    end
  end.

End Tls.

Definition detect_icon_ext (data : bytes) : str :=
  if startswith data [Byte.x89; Byte.x50; Byte.x4e; Byte.x47] then lit "png"
  else if startswith data [Byte.xff; Byte.xd8] then lit "jpg"
  else lit "bin".

End DssQuery.

(* ===================================================================== *)
(** * The SQL operators the store's statements use *)
(* ===================================================================== *)

Module Sql.

(** ASCII case folding: only [A]..[Z] change. *)
Definition ascii_lower (c : codepoint) : codepoint :=
  if (65 <=? c) && (c <=? 90) then c + 32 else c.

Definition char_eq_nocase (a b : codepoint) : bool :=
  ascii_lower a =? ascii_lower b.

Definition percent : codepoint := 37.
Definition underscore : codepoint := 95.

(** The matcher of LIKE with sqlite's defaults, on the characters of a
    pattern and of a text: [%] stands for any run of characters, [_] for
    exactly one, every other character for itself up to ASCII case;
    there is no escape character. *)
Fixpoint pattern_compare (pattern text : str) : bool :=
  match pattern with
  | [] => match text with [] => true | _ :: _ => false end
  | c :: pattern' =>
    if c =? percent then
      (fix any_suffix (t : str) : bool :=
         pattern_compare pattern' t
         || match t with [] => false | _ :: t' => any_suffix t' end) text
    else
      match text with
      | [] => false
      | c2 :: text' =>
        if (c =? underscore) || char_eq_nocase c c2
        then pattern_compare pattern' text' else false
      end
  end.

(** sqlite reads the operands of LIKE as NUL-terminated strings: of a
    pattern and of a text it sees what stands before the first NUL. *)
Fixpoint c_text (s : str) : str :=
  match s with
  | [] => []
  | c :: s' => if c =? 0 then [] else c :: c_text s'
  end.

(** The longest pattern LIKE accepts, in bytes
    ([SQLITE_MAX_LIKE_PATTERN_LENGTH]). *)
Definition LIKE_PATTERN_LENGTH : Z := 50000.

(** The length check of LIKE on its pattern: all the bytes of the
    value in UTF-8 count, those behind a NUL as well. *)
Definition check_pattern (pattern : str) : result unit :=
  p <- utf8_encode pattern ;;
  if LIKE_PATTERN_LENGTH <? Z.of_nat (length p)
  then Raise (OperationalError "LIKE or GLOB pattern too complex"%string)
  else Ok tt.

(** [text LIKE pattern] on two texts. *)
Definition like (pattern text : str) : result bool :=
  _ <- check_pattern pattern ;;
  Ok (pattern_compare (c_text pattern) (c_text text)).

(** SQL's three truth values: [None] is NULL. *)
Definition tv := option bool.

Definition or3 (a b : tv) : tv :=
  match a, b with
  | Some true, _ | _, Some true => Some true
  | Some false, Some false => Some false
  | _, _ => None
  end.

(** [column LIKE ?] on a nullable column. The pattern is checked before
    the column is looked at: a pattern that is too long is refused on a
    NULL as well. *)
Definition like3 (column : option str) (pattern : str) : result tv :=
  match column with
  | Some text => b <- like pattern text ;; Ok (Some b)
  | None => _ <- check_pattern pattern ;; Ok None
  end.

(** A [WHERE] clause keeps a row only when its condition is true. *)
Definition holds (c : tv) : bool :=
  match c with Some true => true | _ => false end.

(** [SELECT ... WHERE cond] with a condition that can fail: the
    statement fails with the first row whose condition does. *)
Fixpoint select_where {A} (cond : A -> result bool) (rows : list A)
    : result (list A) :=
  match rows with
  | [] => Ok []
  | r :: rows' =>
    keep <- cond r ;;
    rest <- select_where cond rows' ;;
    Ok (if keep then r :: rest else rest)
  end.

(** [a >= b] as [ORDER BY ... DESC] ranks nullable integers: NULL is
    below every number. *)
Definition desc_ge (a b : option Z) : bool :=
  match a, b with
  | Some x, Some y => y <=? x
  | Some _, None => true
  | None, Some _ => false
  | None, None => true
  end.

(** [ORDER BY]: a stable insertion sort; rows that tie keep the order
    of the table. *)
Section OrderBy.
Context {A : Type} (before : A -> A -> bool).

Fixpoint insert (x : A) (l : list A) : list A :=
  match l with
  | [] => [x]
  | y :: l' => if before x y then x :: l else y :: insert x l'
  end.

Fixpoint order_by (l : list A) : list A :=
  match l with
  | [] => []
  | x :: l' => insert x (order_by l')
  end.
End OrderBy.

End Sql.

(* ===================================================================== *)
(** * backend/storage/servers.py *)
(* ===================================================================== *)

Module ServerManager.

Definition timestamp := Z.

(** A row of the table [servers]; a nullable column is an [option].
    Integers are unbounded: the counters stay far below the 64-bit range
    of an sqlite INTEGER. *)
Record Row : Type := mkRow {
  id : Z;
  ip : str;
  port : Z;
  name : option str;
  info : option str;
  news : option str;
  players : option Z;
  max_players : option Z;
  icon : option bytes;
  website : option str;
  source : str;
  trusted : bool;
  important : bool;
  last_seen : option timestamp;
  last_queried : option timestamp;
  query_failures : Z;
  added_date : timestamp
}.

(** The table, in rowid order. *)
Definition DB := list Row.

(** [WHERE ip = ? AND port = ?]. *)
Definition is_key (ip0 : str) (port0 : Z) (r : Row) : bool :=
  str_eqb (ip r) ip0 && (port r =? port0).

Definition key (r : Row) : str * Z := (ip r, port r).

(** [UNIQUE(ip, port)]. *)
Definition unique_keys (db : list Row) : Prop := NoDup (map key db).

(** [UPDATE servers SET ... WHERE cond]. *)
Definition update_where (cond : Row -> bool) (set : Row -> Row) (db : DB) : DB :=
  map (fun r => if cond r then set r else r) db.

(** The [CASE] of the upsert. *)
Definition merge_source (excluded_source servers_source : str) : str :=
  if str_eqb excluded_source (lit "favorite") then lit "favorite"
  else if str_eqb servers_source (lit "favorite") then lit "favorite"
  else excluded_source.

(** [COALESCE(a, b)]. *)
Definition coalesce {A} (a b : option A) : option A :=
  match a with Some _ => a | None => b end.

(** The [DO UPDATE SET] of the upsert, on the conflicting row. *)
Definition on_conflict (now : timestamp) (source0 : str)
    (trusted0 important0 : bool) (website0 : option str) (r : Row) : Row :=
  mkRow (id r) (ip r) (port r) (name r) (info r) (news r) (players r)
        (max_players r) (icon r)
        (coalesce website0 (website r))
        (merge_source source0 (source r))
        trusted0 important0 (Some now)
        (last_queried r) (query_failures r) (added_date r).

(** [add_server]. [now] is [datetime.now()]; [new_id] and
    [current_timestamp] are the rowid and the [CURRENT_TIMESTAMP] the
    database gives a row it inserts. Returns the table and the id. *)
Definition add_server (new_id : Z) (now current_timestamp : timestamp)
    (ip0 : str) (port0 : Z) (source0 : str) (trusted0 important0 : bool)
    (website0 : option str) (db : DB) : DB * Z :=
  match find (is_key ip0 port0) db with
  | Some r =>
    (update_where (is_key ip0 port0)
       (on_conflict now source0 trusted0 important0 website0) db, id r)
  | None =>
    (db ++ [mkRow new_id ip0 port0 None None None None None None
                  website0 source0 trusted0 important0 (Some now)
                  None 0 current_timestamp], new_id)
  end.

Definition update_server_info (now : timestamp) (ip0 : str) (port0 : Z)
    (server_info : ServerInfo.t) (db : DB) : DB :=
  update_where (is_key ip0 port0)
    (fun r =>
       mkRow (id r) (ip r) (port r)
             (ServerInfo.name server_info) (ServerInfo.info server_info)
             (ServerInfo.news server_info) (ServerInfo.players server_info)
             (ServerInfo.max_players server_info) (ServerInfo.icon server_info)
             (website r) (source r) (trusted r) (important r) (last_seen r)
             (Some now) 0 (added_date r))
    db.

Definition mark_query_failure (now : timestamp) (ip0 : str) (port0 : Z)
    (db : DB) : DB :=
  update_where (is_key ip0 port0)
    (fun r =>
       mkRow (id r) (ip r) (port r) (name r) (info r) (news r) (players r)
             (max_players r) (icon r) (website r) (source r) (trusted r)
             (important r) (last_seen r)
             (Some now) (query_failures r + 1) (added_date r))
    db.

Definition get_server (ip0 : str) (port0 : Z) (db : DB) : option Row :=
  find (is_key ip0 port0) db.

(** [ORDER BY important DESC, trusted DESC, players DESC]. *)
Definition listing_before (a b : Row) : bool :=
  if Bool.eqb (important a) (important b) then
    if Bool.eqb (trusted a) (trusted b)
    then Sql.desc_ge (players a) (players b)
    else trusted a
  else important a.

Definition get_all_servers (source_filter : option str) (db : DB) : list Row :=
  match source_filter with
  | Some (c :: f) =>
    Sql.order_by listing_before
      (filter (fun r => str_eqb (source r) (c :: f)) db)
  | Some [] | None => Sql.order_by listing_before db
  end.

Definition remove_server (ip0 : str) (port0 : Z) (db : DB) : DB :=
  filter (fun r => negb (is_key ip0 port0 r)) db.

(** [WHERE source = 'dynamic' AND query_failures >= ?]. *)
Definition is_failed (max_failures : Z) (r : Row) : bool :=
  str_eqb (source r) (lit "dynamic") && (max_failures <=? query_failures r).

(** [cleanup_failed_servers]: the table left and the [(ip, port)]
    pairs of the deleted rows. *)
Definition cleanup_failed_servers (max_failures : Z) (db : DB)
    : DB * list (str * Z) :=
  (filter (fun r => negb (is_failed max_failures r)) db,
   map key (filter (is_failed max_failures) db)).

Definition set_favorite (ip0 : str) (port0 : Z) (is_favorite : bool)
    (db : DB) : DB :=
  let set_source (s : str) (r : Row) :=
    mkRow (id r) (ip r) (port r) (name r) (info r) (news r) (players r)
          (max_players r) (icon r) (website r) s (trusted r) (important r)
          (last_seen r) (last_queried r) (query_failures r) (added_date r) in
  if is_favorite
  then update_where (is_key ip0 port0) (set_source (lit "favorite")) db
  else update_where
         (fun r => is_key ip0 port0 r && str_eqb (source r) (lit "favorite"))
         (set_source (lit "manual")) db.

(** [WHERE name LIKE ? OR info LIKE ? OR ip LIKE ?]. The three operators
    get the same pattern, so they fail together: that sqlite skips the
    operands behind a true one does not show. *)
Definition search_matches (search_pattern : str) (r : Row) : result bool :=
  a <- Sql.like3 (name r) search_pattern ;;
  b <- Sql.like3 (info r) search_pattern ;;
  c <- Sql.like3 (Some (ip r)) search_pattern ;;
  Ok (Sql.holds (Sql.or3 (Sql.or3 a b) c)).

(** [search_servers]: the rows found, or the error of the statement.
    Binding the pattern encodes it as UTF-8, which a [str] with a
    surrogate in it refuses before the statement runs. *)
Definition search_servers (query : str) (db : DB) : result (list Row) :=
  let search_pattern := [Sql.percent] ++ query ++ [Sql.percent] in
  _ <- utf8_encode search_pattern ;;
  rows <- Sql.select_where (search_matches search_pattern) db ;;
  Ok (Sql.order_by listing_before rows).

End ServerManager.

(* ===================================================================== *)
(** * backend/network/dynamic_servers.py *)
(* ===================================================================== *)

Module DynamicServerLoader.

Import ServerManager.

(** What [_trigger_callback] hands to the registered callbacks. *)
Inductive event : Type :=
| on_server_validated (ip0 : str) (port0 : Z) (server_info : ServerInfo.t)
| on_server_failed (ip0 : str) (port0 : Z) (error : exn).

Section Loader.
(** [self.query_function(ip, port, timeout=timeout)]. *)
Variable query_function : str -> Z -> Z -> result ServerInfo.t.

(** [validate_and_add_server]: the table afterwards, the events
    raised, and the return value. [now1] and [now2] are the clock
    readings of the first and the second store call; [new_id] and
    [current_timestamp] are as for [add_server]. *)
Definition validate_and_add_server (new_id : Z)
    (now1 now2 current_timestamp : timestamp)
    (ip0 : str) (port0 : Z) (trusted0 important0 : bool)
    (website0 : option str) (timeout : Z) (db : DB)
    : DB * list event * bool :=
  match query_function ip0 port0 timeout with
  | Ok server_info =>
    let '(db1, server_id) :=
      add_server new_id now1 current_timestamp ip0 port0 (lit "dynamic")
                 trusted0 important0 website0 db in
    let db2 := update_server_info now2 ip0 port0 server_info db1 in
    (db2, [on_server_validated ip0 port0 server_info], true)
  | Raise e =>
    let existing := get_server ip0 port0 db in
    let db1 :=
      match existing with
      | Some _ => mark_query_failure now1 ip0 port0 db
      | None => db
      end in
    (db1, [on_server_failed ip0 port0 e], false)
  end.
(** [cleanup_failed_servers]: the store's cleanup, passed on. *)
Definition cleanup_failed_servers (max_failures : Z) (db : DB)
    : DB * list (str * Z) :=
  ServerManager.cleanup_failed_servers max_failures db.

(** The loop of [revalidate_all_servers] over the rows still to visit:
    [clock k] is the clock reading of the [k]-th store call. *)
Fixpoint revalidate_loop (clock : nat -> timestamp) (timeout : Z) (k : nat)
    (servers : list Row) (db : DB) (success_count failed_count : Z)
    : DB * (Z * Z) :=
  match servers with
  | [] => (db, (success_count, failed_count))
  | server :: servers' =>
    match query_function (ip server) (port server) timeout with
    | Ok server_info =>
      revalidate_loop clock timeout (S k) servers'
        (update_server_info (clock k) (ip server) (port server) server_info db)
        (success_count + 1) failed_count
    | Raise e =>
      revalidate_loop clock timeout (S k) servers'
        (mark_query_failure (clock k) (ip server) (port server) db)
        success_count (failed_count + 1)
    end
  end.

(** [revalidate_all_servers]: the table afterwards and the pair
    [(success_count, failed_count)]. *)
Definition revalidate_all_servers (clock : nat -> timestamp) (timeout : Z)
    (db : DB) : DB * (Z * Z) :=
  let servers := get_all_servers None db in
  revalidate_loop clock timeout 0 servers db 0 0.

End Loader.

End DynamicServerLoader.

(* ===================================================================== *)
(** * backend/dssb_manager.py *)
(* ===================================================================== *)

Module DSSBManager.

Import ServerManager.

(** What [_trigger_ui_callback] hands to the callbacks of the UI. *)
Inductive ui_event : Type :=
| server_list_updated
| server_info_updated (ip0 : str) (port0 : Z) (info0 : ServerInfo.t).

Section Manager.
(** [socket.create_connection((host, port), timeout=timeout)]: the
    connection to the peer, or the error of the attempt. *)
Variable create_connection : str -> Z -> Z -> result DssQuery.socket.
(** [ctx.wrap_socket(sock, server_hostname=host)]: the TLS handshake
    with the peer known as [host]. *)
Variable wrap_socket : str -> DssQuery.io unit.

(** [query_dss(host, port, timeout)], from the connection on. *)
Definition query_dss (host : str) (port0 timeout : Z) : result ServerInfo.t :=
  match create_connection host port0 timeout with
  | Ok sock => snd (DssQuery.query_dss (wrap_socket host) sock)
  | Raise e => Raise e
  end.

(** [add_manual_server]: the table afterwards, the events raised and the
    return value. The dictionary [query_dss] returns is never empty, so
    [if server_info:] tells whether the server was queried. *)
Definition add_manual_server (new_id : Z) (now1 now2 current_timestamp : timestamp)
    (ip0 : str) (port0 : Z) (website0 : option str) (validate : bool)
    (timeout : Z) (db : DB) : DB * list ui_event * bool :=
  let queried :=
    if validate then
      match query_dss ip0 port0 timeout with
      | Ok server_info => Ok (Some server_info)
      | Raise e => Raise e
      end
    else Ok None in
  match queried with
  | Raise e => (db, [], false)
  | Ok server_info =>
    let db1 :=
      fst (add_server new_id now1 current_timestamp ip0 port0 (lit "manual")
             false false website0 db) in
    let db2 :=
      match server_info with
      | Some si => update_server_info now2 ip0 port0 si db1
      | None => db1
      end in
    (db2, [server_list_updated], true)
  end.

(** [toggle_favorite]: the table afterwards, the events raised and the
    new status. *)
Definition toggle_favorite (ip0 : str) (port0 : Z) (db : DB)
    : DB * list ui_event * bool :=
  match get_server ip0 port0 db with
  | None => (db, [], false)
  | Some server =>
    let is_favorite := str_eqb (source server) (lit "favorite") in
    (set_favorite ip0 port0 (negb is_favorite) db, [server_list_updated],
     negb is_favorite)
  end.

(** [query_server]: the table afterwards, the events raised and the
    dictionary returned ([None] when the query failed). *)
Definition query_server (now : timestamp) (ip0 : str) (port0 timeout : Z)
    (db : DB) : DB * list ui_event * option ServerInfo.t :=
  match query_dss ip0 port0 timeout with
  | Ok info0 =>
    match get_server ip0 port0 db with
    | Some _ =>
      (update_server_info now ip0 port0 info0 db,
       [server_info_updated ip0 port0 info0], Some info0)
    | None => (db, [], Some info0)
    end
  | Raise e =>
    match get_server ip0 port0 db with
    | Some _ => (mark_query_failure now ip0 port0 db, [], None)
    | None => (db, [], None)
    end
  end.

End Manager.

End DSSBManager.

(* ===================================================================== *)
(** * The frames of the protocol, as the peers put them on the wire *)
(* ===================================================================== *)

Module Frames.
Import DssQuery.

Definition ascii_bytes (s : String.string) : bytes :=
  String.list_byte_of_string s.
Arguments ascii_bytes s%_string.

(** A frame: the 4-byte little-endian total length, header included,
    then the payload. *)
Definition frame (payload : bytes) : bytes :=
  le_split 4 (4 + Z.of_nat (length payload)) ++ payload.

(** The server's greeting: message type, flags, the four bytes of the
    protocol version, the network version up to the end of the frame. *)
Definition greeting (msg_type flags : byte) (version netver : bytes) : bytes :=
  frame ([msg_type; flags] ++ version ++ netver).

(** The client's listing request that echoes [version] and [netver]. *)
Definition listing_request (version netver : bytes) : bytes :=
  frame ([Byte.x00] ++ version ++ netver ++ [Byte.x00] ++ [Byte.x01]
         ++ ascii_bytes "__dsslist").

(** The server's listing response. *)
Definition list_server (msg_type : byte) (name info news icon : bytes)
    (players max_players : Z) : bytes :=
  frame ([msg_type] ++ name ++ [Byte.x00] ++ info ++ [Byte.x00]
         ++ news ++ [Byte.x00]
         ++ le_split 4 (Z.of_nat (length icon)) ++ icon
         ++ le_split 2 players ++ le_split 2 max_players).

End Frames.

(* ===================================================================== *)
(** * Substring search, stated on its own *)
(* ===================================================================== *)

(** What "the text contains the query as a substring" means, for a
    given comparison of characters; the search of the store is compared
    with it below. *)
Module Substring.

Fixpoint starts_with (eqc : codepoint -> codepoint -> bool) (q s : str) : bool :=
  match q, s with
  | [], _ => true
  | _ :: _, [] => false
  | c :: q', d :: s' => eqc c d && starts_with eqc q' s'
  end.

Fixpoint contains_by (eqc : codepoint -> codepoint -> bool) (q s : str) : bool :=
  starts_with eqc q s
  || match s with
     | [] => false
     | _ :: s' => contains_by eqc q s'
     end.

(** Case-sensitive: [q in s]. *)
Definition contains : str -> str -> bool := contains_by Z.eqb.

(** Up to the case of ASCII letters. *)
Definition contains_nocase : str -> str -> bool :=
  contains_by Sql.char_eq_nocase.

(** On a nullable column: NULL contains nothing. *)
Definition column_contains (f : str -> str -> bool) (q : str)
    (column : option str) : bool :=
  match column with
  | Some s => f q s
  | None => false
  end.

(** A query with no LIKE wildcard in it. *)
Definition wildcard_free (q : str) : Prop :=
  Forall (fun c => c <> Sql.percent /\ c <> Sql.underscore) q.

End Substring.

(* ===================================================================== *)
(** * Example data *)
(* ===================================================================== *)

Module Examples.
Import ServerManager.

Definition ip1 : str := lit "10.0.0.1".
Definition ip2 : str := lit "10.0.0.2".
Definition ip3 : str := lit "10.0.0.3".

(** A favorite that was queried once, with a website. *)
Definition fav_row : Row :=
  mkRow 1 ip1 7777 (Some (lit "Test")) (Some (lit "Hi")) (Some [])
        (Some 5) (Some 20) (Some []) (Some (lit "http://a"))
        (lit "favorite") true false (Some 100) (Some 101) 2 90.

(** A dynamic row that failed five times. *)
Definition dyn_row : Row :=
  mkRow 2 ip2 7777 None None None None None None None
        (lit "dynamic") false false (Some 100) (Some 105) 5 91.

(** A manual row that failed nine times. *)
Definition man_row : Row :=
  mkRow 3 ip3 7778 None None None None None None None
        (lit "manual") false true (Some 100) (Some 109) 9 92.

Definition db0 : DB := [fav_row; dyn_row; man_row].

Definition snapshot : ServerInfo.t :=
  ServerInfo.mk (Some (lit "New")) (Some (lit "Info")) (Some (lit "News"))
                (Some 7) (Some 32) (Some [Byte.x89]).

(** The exchange of a query: a greeting with version 3 and network
    version "1.0", and a listing response whose message type is
    [msg_type]. *)
Definition greeting_3 : bytes :=
  Frames.greeting Byte.x01 Byte.x00 (le_split 4 3) (Frames.ascii_bytes "1.0").

Definition png : bytes := Byte.x89 :: Frames.ascii_bytes "PNG".

Definition response (msg_type : byte) : bytes :=
  Frames.list_server msg_type (Frames.ascii_bytes "Test")
    (Frames.ascii_bytes "Hi") [] png 5 20.

Definition peer (msg_type : byte) : DssQuery.socket :=
  DssQuery.mk_socket (greeting_3 ++ response msg_type) [] false.

(** A greeting whose network version starts with a byte that is not
    UTF-8. *)
Definition netver_ff : bytes := Byte.xff :: Frames.ascii_bytes "1.0".

Definition peer_ff : DssQuery.socket :=
  DssQuery.mk_socket
    (Frames.greeting Byte.x01 Byte.x00 (le_split 4 3) netver_ff) [] false.

(** A query function whose every query fails. *)
Definition unreachable (host : str) (port0 timeout : Z)
    : result ServerInfo.t :=
  Raise (ConnectionError "Connection closed"%string).

(** A query function that reaches [ip1] only. *)
Definition only_ip1 (host : str) (port0 timeout : Z) : result ServerInfo.t :=
  if str_eqb host ip1 then Ok snapshot
  else Raise (ConnectionError "Connection closed"%string).

(** A clock: the [k]-th reading. *)
Definition clock (k : nat) : Z := 300 + Z.of_nat k.

(** Connections: one whose peer is [peer 02], one that is refused. *)
Definition connect_peer (host : str) (port0 timeout : Z)
    : result DssQuery.socket :=
  Ok (peer Byte.x02).

Definition connect_refused (host : str) (port0 timeout : Z)
    : result DssQuery.socket :=
  Raise (ConnectionError "Connection refused"%string).

(** Two outcomes of a TLS handshake: one that succeeds, after which the
    peer sends as application data what [incoming] held, and one that
    fails because the peer closes the connection instead. *)
Definition tls_accepted : DssQuery.io unit := fun sock =>
  (DssQuery.mk_socket (DssQuery.incoming sock) (DssQuery.sent sock) true,
   Ok tt).

Definition tls_closed : DssQuery.io unit := fun sock =>
  (DssQuery.mk_socket [] (DssQuery.sent sock) (DssQuery.tls sock),
   Raise (SSLError "TLS/SSL connection has been closed (EOF)"%string)).

End Examples.

(* ===================================================================== *)
(** * Properties of the server store *)
(* ===================================================================== *)

Section StoreFacts.
Import ServerManager.

Lemma str_eqb_eq (a b : str) : str_eqb a b = true <-> a = b.
Proof.
  unfold str_eqb. destruct (list_eq_dec Z.eq_dec a b); split; congruence.
Qed.

Lemma str_eqb_neq (a b : str) : str_eqb a b = false <-> a <> b.
Proof.
  unfold str_eqb. destruct (list_eq_dec Z.eq_dec a b); split; congruence.
Qed.

Lemma is_key_spec ip0 port0 r :
  is_key ip0 port0 r = true <-> key r = (ip0, port0).
Proof.
  unfold is_key, key. rewrite andb_true_iff, str_eqb_eq, Z.eqb_eq.
  split; [intros [-> ->]; reflexivity | intros H; inversion H; auto].
Qed.

Lemma is_key_same_key ip0 port0 r r' :
  key r' = key r -> is_key ip0 port0 r' = is_key ip0 port0 r.
Proof. unfold is_key, key. intros H. inversion H. reflexivity. Qed.

(** An [UPDATE] that leaves the key columns alone updates the row a
    lookup finds. *)
Lemma find_update_where ip0 port0 set db :
  (forall r, key (set r) = key r) ->
  find (is_key ip0 port0) (update_where (is_key ip0 port0) set db)
  = option_map set (find (is_key ip0 port0) db).
Proof.
  intros Hkey. induction db as [|a db IH]; simpl; [reflexivity|].
  destruct (is_key ip0 port0 a) eqn:Ha.
  - rewrite (is_key_same_key _ _ _ _ (Hkey a)), Ha. reflexivity.
  - rewrite Ha. exact IH.
Qed.

Lemma map_key_update_where cond set db :
  (forall r, key (set r) = key r) ->
  map key (update_where cond set db) = map key db.
Proof.
  intros Hkey. unfold update_where. rewrite map_map. apply map_ext.
  intros r. destruct (cond r); auto.
Qed.

Lemma update_where_none cond set db :
  (forall r, In r db -> cond r = false) -> update_where cond set db = db.
Proof.
  intros H. unfold update_where. rewrite <- (map_id db) at 2.
  apply map_ext_in. intros r Hr. rewrite (H r Hr). reflexivity.
Qed.

Lemma get_server_none ip0 port0 db :
  get_server ip0 port0 db = None ->
  forall r, In r db -> is_key ip0 port0 r = false.
Proof. unfold get_server. intros H r Hr. exact (find_none _ _ H r Hr). Qed.

(** What an upsert does to the table when the key is taken. *)
Lemma add_server_existing new_id now ct ip0 port0 src tr im web db r :
  get_server ip0 port0 db = Some r ->
  get_server ip0 port0
    (fst (add_server new_id now ct ip0 port0 src tr im web db))
  = Some (on_conflict now src tr im web r)
  /\ snd (add_server new_id now ct ip0 port0 src tr im web db) = id r.
Proof.
  unfold get_server, add_server. intros H. rewrite H. simpl. split; auto.
  rewrite find_update_where by reflexivity. rewrite H. reflexivity.
Qed.

Lemma merge_source_favorite src old :
  src = lit "favorite" \/ old = lit "favorite" ->
  merge_source src old = lit "favorite".
Proof.
  unfold merge_source. intros [-> | ->].
  - reflexivity.
  - destruct (str_eqb src (lit "favorite")); reflexivity.
Qed.

Lemma merge_source_other src old :
  src <> lit "favorite" -> old <> lit "favorite" ->
  merge_source src old = src.
Proof.
  unfold merge_source. intros H1 H2.
  apply str_eqb_neq in H1. apply str_eqb_neq in H2.
  rewrite H1, H2. reflexivity.
Qed.

End StoreFacts.

Import ServerManager.

(** C1. On a key that is taken, [add_server] leaves a favorite a favorite
    whatever the new source is (so also for 'dynamic' and 'manual'): the
    merged source is 'favorite' as soon as the stored or the new source
    is, and the new source otherwise. *)
Theorem add_server_favorite_sticky :
  forall new_id now ct ip0 port0 src tr im web db r,
    get_server ip0 port0 db = Some r ->
    exists r',
      get_server ip0 port0
        (fst (add_server new_id now ct ip0 port0 src tr im web db)) = Some r'
      /\ (source r = lit "favorite" ->
          src = lit "dynamic" \/ src = lit "manual" ->
          source r' = lit "favorite")
      /\ (source r = lit "favorite" \/ src = lit "favorite" ->
          source r' = lit "favorite")
      /\ (source r <> lit "favorite" -> src <> lit "favorite" ->
          source r' = src).
Proof.
  intros new_id now ct ip0 port0 src tr im web db r Hget.
  destruct (add_server_existing new_id now ct ip0 port0 src tr im web db r Hget)
    as [Hfind _].
  exists (on_conflict now src tr im web r). split; [exact Hfind|].
  simpl. repeat split.
  - intros Hfav _. apply merge_source_favorite. now right.
  - intros [Hfav | Hfav]; apply merge_source_favorite; [now right | now left].
  - intros Hold Hnew. now apply merge_source_other.
Qed.

Lemma add_server_favorite_sticky_witness :
  get_server Examples.ip1 7777 Examples.db0 = Some Examples.fav_row
  /\ exists r',
      get_server Examples.ip1 7777
        (fst (add_server 4 200 200 Examples.ip1 7777 (lit "dynamic")
                false false None Examples.db0)) = Some r'
      /\ (source Examples.fav_row = lit "favorite" ->
          lit "dynamic" = lit "dynamic" \/ lit "dynamic" = lit "manual" ->
          source r' = lit "favorite")
      /\ (source Examples.fav_row = lit "favorite"
          \/ lit "dynamic" = lit "favorite" ->
          source r' = lit "favorite")
      /\ (source Examples.fav_row <> lit "favorite" ->
          lit "dynamic" <> lit "favorite" ->
          source r' = lit "dynamic").
Proof.
  split; [reflexivity|].
  apply (add_server_favorite_sticky 4 200 200 Examples.ip1 7777 (lit "dynamic")
           false false None Examples.db0 Examples.fav_row).
  reflexivity.
Defined.

(** C4, as the code has it. On a key that is taken, [add_server] keeps
    the stored website exactly when the new value is absent ([None]);
    every new value that is present replaces it, the empty string too. *)
Theorem add_server_website_coalesce :
  forall new_id now ct ip0 port0 src tr im web db r,
    get_server ip0 port0 db = Some r ->
    exists r',
      get_server ip0 port0
        (fst (add_server new_id now ct ip0 port0 src tr im web db)) = Some r'
      /\ (web = None -> website r' = website r)
      /\ (forall w, web = Some w -> website r' = Some w).
Proof.
  intros new_id now ct ip0 port0 src tr im web db r Hget.
  destruct (add_server_existing new_id now ct ip0 port0 src tr im web db r Hget)
    as [Hfind _].
  exists (on_conflict now src tr im web r). split; [exact Hfind|].
  simpl. split.
  - intros ->. reflexivity.
  - intros w ->. reflexivity.
Qed.

Lemma add_server_website_coalesce_witness :
  get_server Examples.ip1 7777 Examples.db0 = Some Examples.fav_row
  /\ exists r',
      get_server Examples.ip1 7777
        (fst (add_server 4 200 200 Examples.ip1 7777 (lit "manual")
                false false (Some (lit "http://b")) Examples.db0)) = Some r'
      /\ (Some (lit "http://b") = None -> website r' = website Examples.fav_row)
      /\ (forall w, Some (lit "http://b") = Some w -> website r' = Some w).
Proof.
  split; [reflexivity|].
  apply (add_server_website_coalesce 4 200 200 Examples.ip1 7777 (lit "manual")
           false false (Some (lit "http://b")) Examples.db0 Examples.fav_row).
  reflexivity.
Defined.

(** C4 as stated fails: the stored website of [fav_row] is "http://a";
    an upsert whose new website is the empty string does not keep it,
    the row ends with the empty string. *)
Lemma add_server_empty_website_overwrites :
  option_map website (get_server Examples.ip1 7777 Examples.db0)
  = Some (Some (lit "http://a"))
  /\ option_map website
       (get_server Examples.ip1 7777
          (fst (add_server 4 200 200 Examples.ip1 7777 (lit "manual")
                  false false (Some []) Examples.db0)))
     = Some (Some [])
  /\ Some [] <> Some (lit "http://a").
Proof. split; [reflexivity | split; [reflexivity | discriminate]]. Qed.

(** C9. On a key that is taken, [add_server] leaves name, info, news,
    players, max_players, icon, query_failures and added_date as they
    were (and id, ip, port and last_queried too): only source, trusted,
    important, website and last_seen can change. *)
Theorem add_server_frame :
  forall new_id now ct ip0 port0 src tr im web db r,
    get_server ip0 port0 db = Some r ->
    exists r',
      get_server ip0 port0
        (fst (add_server new_id now ct ip0 port0 src tr im web db)) = Some r'
      /\ name r' = name r /\ info r' = info r /\ news r' = news r
      /\ players r' = players r /\ max_players r' = max_players r
      /\ icon r' = icon r /\ query_failures r' = query_failures r
      /\ added_date r' = added_date r
      /\ id r' = id r /\ key r' = key r /\ last_queried r' = last_queried r.
Proof.
  intros new_id now ct ip0 port0 src tr im web db r Hget.
  destruct (add_server_existing new_id now ct ip0 port0 src tr im web db r Hget)
    as [Hfind _].
  exists (on_conflict now src tr im web r). split; [exact Hfind|].
  simpl. repeat split.
Qed.

Lemma add_server_frame_witness :
  get_server Examples.ip1 7777 Examples.db0 = Some Examples.fav_row
  /\ exists r',
      get_server Examples.ip1 7777
        (fst (add_server 4 200 200 Examples.ip1 7777 (lit "dynamic")
                false true (Some (lit "http://b")) Examples.db0)) = Some r'
      /\ name r' = name Examples.fav_row /\ info r' = info Examples.fav_row
      /\ news r' = news Examples.fav_row
      /\ players r' = players Examples.fav_row
      /\ max_players r' = max_players Examples.fav_row
      /\ icon r' = icon Examples.fav_row
      /\ query_failures r' = query_failures Examples.fav_row
      /\ added_date r' = added_date Examples.fav_row
      /\ id r' = id Examples.fav_row /\ key r' = key Examples.fav_row
      /\ last_queried r' = last_queried Examples.fav_row.
Proof.
  split; [reflexivity|].
  apply (add_server_frame 4 200 200 Examples.ip1 7777 (lit "dynamic")
           false true (Some (lit "http://b")) Examples.db0 Examples.fav_row).
  reflexivity.
Defined.

(** An [UPDATE] addressed to one key leaves the lookups of all other
    keys as they were. *)
Lemma find_update_where_other ip0 port0 ip1 port1 set db :
  (forall r, key (set r) = key r) ->
  (ip1, port1) <> (ip0, port0) ->
  find (is_key ip1 port1) (update_where (is_key ip0 port0) set db)
  = find (is_key ip1 port1) db.
Proof.
  intros Hkey Hne. induction db as [|a db IH]; simpl; [reflexivity|].
  destruct (is_key ip0 port0 a) eqn:Ha.
  - rewrite (is_key_same_key ip1 port1 a (set a)) by apply Hkey.
    destruct (is_key ip1 port1 a) eqn:Hb; [|exact IH].
    apply is_key_spec in Ha. apply is_key_spec in Hb. congruence.
  - destruct (is_key ip1 port1 a); [reflexivity | exact IH].
Qed.

(** The rows an upsert does not address are left alone, and a free key
    gets a new row at the end of the table. *)
Lemma add_server_other_rows new_id now ct ip0 port0 src tr im web db ip1 port1 :
  (ip1, port1) <> (ip0, port0) ->
  get_server ip1 port1
    (fst (add_server new_id now ct ip0 port0 src tr im web db))
  = get_server ip1 port1 db.
Proof.
  intros Hne. unfold get_server, add_server.
  destruct (find (is_key ip0 port0) db) eqn:Hf; simpl.
  - now apply find_update_where_other.
  - clear Hf. induction db as [|a db IH]; simpl.
    + destruct (is_key ip1 port1 _) eqn:Hb; [|reflexivity].
      apply is_key_spec in Hb. unfold key in Hb. simpl in Hb. congruence.
    + destruct (is_key ip1 port1 a); [reflexivity | exact IH].
Qed.

(** C6. [update_server_info] on a stored key sets query_failures to 0
    whatever it was, stores the snapshot's name, info, news, players,
    max_players and icon, and refreshes last_queried;
    [mark_query_failure] adds exactly 1 to query_failures and refreshes
    last_queried; on a key with no row [mark_query_failure] leaves the
    table as it is. *)
Theorem update_and_failure_marks :
  forall now ip0 port0 server_info db,
    match get_server ip0 port0 db with
    | Some r =>
      (exists r',
          get_server ip0 port0 (update_server_info now ip0 port0 server_info db)
          = Some r'
          /\ query_failures r' = 0
          /\ name r' = ServerInfo.name server_info
          /\ info r' = ServerInfo.info server_info
          /\ news r' = ServerInfo.news server_info
          /\ players r' = ServerInfo.players server_info
          /\ max_players r' = ServerInfo.max_players server_info
          /\ icon r' = ServerInfo.icon server_info
          /\ last_queried r' = Some now)
      /\ (exists r',
             get_server ip0 port0 (mark_query_failure now ip0 port0 db) = Some r'
             /\ query_failures r' = query_failures r + 1
             /\ last_queried r' = Some now)
    | None => mark_query_failure now ip0 port0 db = db
    end.
Proof.
  intros now ip0 port0 server_info db.
  destruct (get_server ip0 port0 db) as [r|] eqn:Hget.
  - unfold get_server, update_server_info, mark_query_failure in *.
    rewrite !find_update_where by reflexivity. rewrite Hget. simpl.
    split; eexists; (split; [reflexivity|]); simpl; repeat split.
  - apply update_where_none. now apply get_server_none.
Qed.

Lemma update_and_failure_marks_example :
  option_map query_failures
    (get_server Examples.ip1 7777
       (update_server_info 300 Examples.ip1 7777 Examples.snapshot Examples.db0))
  = Some 0
  /\ option_map query_failures
       (get_server Examples.ip1 7777
          (mark_query_failure 300 Examples.ip1 7777 Examples.db0))
     = Some 3.
Proof. split; reflexivity. Qed.

(** C10. [update_server_info], [mark_query_failure] and [set_favorite]
    (with either flag) keep the keys of the table, row by row: none adds
    a row and none deletes one; on a key with no row each of them leaves
    the table as it is. *)
Theorem store_updates_keep_keys :
  forall now ip0 port0 server_info is_favorite db,
    map key (update_server_info now ip0 port0 server_info db) = map key db
    /\ map key (mark_query_failure now ip0 port0 db) = map key db
    /\ map key (set_favorite ip0 port0 is_favorite db) = map key db
    /\ (get_server ip0 port0 db = None ->
        update_server_info now ip0 port0 server_info db = db
        /\ mark_query_failure now ip0 port0 db = db
        /\ set_favorite ip0 port0 is_favorite db = db).
Proof.
  intros now ip0 port0 server_info is_favorite db.
  split; [|split; [|split]].
  - apply map_key_update_where. reflexivity.
  - apply map_key_update_where. reflexivity.
  - unfold set_favorite. destruct is_favorite;
      apply map_key_update_where; reflexivity.
  - intros Hnone. pose proof (get_server_none _ _ _ Hnone) as Hno.
    split; [|split].
    + now apply update_where_none.
    + now apply update_where_none.
    + unfold set_favorite. destruct is_favorite; apply update_where_none.
      * exact Hno.
      * intros r Hr. rewrite (Hno r Hr). reflexivity.
Qed.

Lemma store_updates_keep_keys_witness :
  get_server Examples.ip3 7777 Examples.db0 = None
  /\ update_server_info 300 Examples.ip3 7777 Examples.snapshot Examples.db0
     = Examples.db0
  /\ mark_query_failure 300 Examples.ip3 7777 Examples.db0 = Examples.db0
  /\ set_favorite Examples.ip3 7777 false Examples.db0 = Examples.db0.
Proof.
  split; [reflexivity|].
  apply (store_updates_keep_keys 300 Examples.ip3 7777 Examples.snapshot false
           Examples.db0).
  reflexivity.
Defined.

(** C2. [cleanup_failed_servers] with threshold [max_failures] deletes
    the rows with source 'dynamic' and at least [max_failures] failures
    and no others, returns the (ip, port) of each deleted row, and keeps
    every 'manual' and every 'favorite' row. *)
Theorem cleanup_failed_servers_spec :
  forall max_failures db,
    let db' := fst (cleanup_failed_servers max_failures db) in
    let removed := snd (cleanup_failed_servers max_failures db) in
    (forall r, In r db' <->
               In r db /\ ~ (source r = lit "dynamic"
                             /\ max_failures <= query_failures r))
    /\ (forall k, In k removed <->
                  exists r, In r db /\ key r = k /\ source r = lit "dynamic"
                            /\ max_failures <= query_failures r)
    /\ length db = (length db' + length removed)%nat
    /\ (forall r, In r db ->
                  source r = lit "manual" \/ source r = lit "favorite" ->
                  In r db').
Proof.
  intros max_failures db db' removed. subst db' removed. simpl.
  assert (Hspec : forall r, is_failed max_failures r = true <->
                            source r = lit "dynamic"
                            /\ max_failures <= query_failures r).
  { intros r. unfold is_failed.
    rewrite andb_true_iff, str_eqb_eq, Z.leb_le. reflexivity. }
  split; [|split; [|split]].
  - intros r. rewrite filter_In, negb_true_iff, <- Hspec.
    destruct (is_failed max_failures r); intuition congruence.
  - intros k. rewrite in_map_iff. split.
    + intros [r [Hk Hr]]. apply filter_In in Hr. destruct Hr as [Hin Hf].
      apply Hspec in Hf. exists r. tauto.
    + intros [r [Hin [Hk Hf]]]. exists r. split; [exact Hk|].
      apply filter_In. split; [exact Hin|]. now apply Hspec.
  - rewrite length_map. induction db as [|a db IH]; simpl; [reflexivity|].
    destruct (is_failed max_failures a); simpl; lia.
  - intros r Hin Hsrc. apply filter_In. split; [exact Hin|].
    apply negb_true_iff. destruct (is_failed max_failures r) eqn:Hf; [|reflexivity].
    apply Hspec in Hf. destruct Hf as [Hdyn _]. rewrite Hdyn in Hsrc.
    destruct Hsrc as [H | H]; vm_compute in H; discriminate.
Qed.

Lemma cleanup_failed_servers_example :
  cleanup_failed_servers 5 Examples.db0
  = ([Examples.fav_row; Examples.man_row], [(Examples.ip2, 7777)]).
Proof. reflexivity. Qed.

(** Failure marks add up, and a 'dynamic' row that was marked as often
    as the threshold says is deleted by the cleanup. *)
Lemma mark_query_failure_repeated (times : list timestamp) ip0 port0 db r :
  get_server ip0 port0 db = Some r ->
  exists r',
    get_server ip0 port0
      (fold_left (fun d t => mark_query_failure t ip0 port0 d) times db)
    = Some r'
    /\ query_failures r' = query_failures r + Z.of_nat (length times)
    /\ source r' = source r.
Proof.
  revert db r. induction times as [|t times IH]; intros db r Hget.
  - exists r. simpl. repeat split; [exact Hget | lia].
  - cbn [fold_left].
    assert (Hstep : get_server ip0 port0 (mark_query_failure t ip0 port0 db)
                    = Some (mkRow (id r) (ip r) (port r) (name r) (info r)
                              (news r) (players r) (max_players r) (icon r)
                              (website r) (source r) (trusted r) (important r)
                              (last_seen r) (Some t) (query_failures r + 1)
                              (added_date r))).
    { unfold get_server, mark_query_failure in *.
      rewrite find_update_where by reflexivity. rewrite Hget. reflexivity. }
    destruct (IH _ _ Hstep) as (r' & Hr' & Hq & Hs).
    exists r'. split; [exact Hr'|]. simpl in Hq, Hs. split; [|exact Hs].
    rewrite Hq. cbn [length]. lia.
Qed.

Lemma failures_then_cleanup (times : list timestamp) ip0 port0 db r :
  get_server ip0 port0 db = Some r ->
  source r = lit "dynamic" ->
  0 <= query_failures r ->
  In (ip0, port0)
     (snd (cleanup_failed_servers (Z.of_nat (length times))
             (fold_left (fun d t => mark_query_failure t ip0 port0 d) times db))).
Proof.
  intros Hget Hdyn Hq.
  destruct (mark_query_failure_repeated times ip0 port0 db r Hget)
    as (r' & Hr' & Hq' & Hs').
  unfold get_server in Hr'. apply find_some in Hr'. destruct Hr' as [Hin Hk].
  apply is_key_spec in Hk. simpl. apply in_map_iff. exists r'.
  split; [exact Hk|]. apply filter_In. split; [exact Hin|].
  unfold is_failed. rewrite Hs', Hdyn. apply andb_true_iff. split.
  - now apply str_eqb_eq.
  - apply Z.leb_le. lia.
Qed.

(** C7. When the query fails, [validate_and_add_server] returns false;
    with no row for the key beforehand the table is left exactly as it
    was, and with a row the table changes by the [mark_query_failure] on
    that key alone: every other key reads as before. *)
Theorem validate_failure_store :
  forall query_function new_id now1 now2 ct ip0 port0 tr im web timeout db e,
    query_function ip0 port0 timeout = Raise e ->
    let out :=
      DynamicServerLoader.validate_and_add_server query_function new_id
        now1 now2 ct ip0 port0 tr im web timeout db in
    snd out = false
    /\ match get_server ip0 port0 db with
       | None => fst (fst out) = db
       | Some r =>
         fst (fst out) = mark_query_failure now1 ip0 port0 db
         /\ map key (fst (fst out)) = map key db
         /\ forall ip1 port1,
             (ip1, port1) <> (ip0, port0) ->
             get_server ip1 port1 (fst (fst out)) = get_server ip1 port1 db
       end.
Proof.
  intros query_function new_id now1 now2 ct ip0 port0 tr im web timeout db e Hq.
  unfold DynamicServerLoader.validate_and_add_server. rewrite Hq.
  destruct (get_server ip0 port0 db) as [r|]; simpl.
  - split; [reflexivity|]. split; [reflexivity|]. split.
    + apply map_key_update_where. reflexivity.
    + intros ip1 port1 Hne. unfold get_server, mark_query_failure.
      now apply find_update_where_other.
  - split; reflexivity.
Qed.

Lemma validate_failure_store_witness :
  Examples.unreachable Examples.ip3 7777 3
  = Raise (ConnectionError "Connection closed"%string)
  /\ let out :=
       DynamicServerLoader.validate_and_add_server Examples.unreachable
         4 300 301 300 Examples.ip3 7777 false false None 3 Examples.db0 in
     snd out = false
     /\ match get_server Examples.ip3 7777 Examples.db0 with
        | None => fst (fst out) = Examples.db0
        | Some r =>
          fst (fst out) = mark_query_failure 300 Examples.ip3 7777 Examples.db0
          /\ map key (fst (fst out)) = map key Examples.db0
          /\ forall ip1 port1,
              (ip1, port1) <> (Examples.ip3, 7777) ->
              get_server ip1 port1 (fst (fst out))
              = get_server ip1 port1 Examples.db0
        end.
Proof.
  split; [reflexivity|].
  apply (validate_failure_store Examples.unreachable
           4 300 301 300 Examples.ip3 7777 false false None 3 Examples.db0
           (ConnectionError "Connection closed"%string)).
  reflexivity.
Defined.

(** ** The key constraint of the table *)

Section UniqueKeys.

Lemma not_in_keys ip0 port0 db :
  get_server ip0 port0 db = None -> ~ In (ip0, port0) (map key db).
Proof.
  intros Hnone Hin. apply in_map_iff in Hin. destruct Hin as [r [Hk Hr]].
  pose proof (get_server_none _ _ _ Hnone r Hr) as Hf.
  apply is_key_spec in Hk. congruence.
Qed.

Lemma unique_keys_filter (f : Row -> bool) db :
  unique_keys db -> unique_keys (filter f db).
Proof.
  unfold unique_keys. induction db as [|a db IH]; simpl; intros Hu; [exact Hu|].
  inversion Hu as [|k ks Hnotin Hrest]; subst.
  destruct (f a); simpl; [|now apply IH].
  constructor; [|now apply IH].
  intros Hin. apply Hnotin. apply in_map_iff in Hin.
  destruct Hin as [r [Hk Hr]]. apply filter_In in Hr.
  apply in_map_iff. exists r. tauto.
Qed.

(** Under the key constraint a lookup by the key of a stored row finds
    that row. *)
Lemma get_server_of_row db r :
  unique_keys db -> In r db -> get_server (ip r) (port r) db = Some r.
Proof.
  unfold unique_keys, get_server.
  induction db as [|a db IH]; simpl; intros Hu Hin; [contradiction|].
  inversion Hu as [|k ks Hnotin Hrest]; subst.
  destruct Hin as [-> | Hin].
  - assert (Hk : is_key (ip r) (port r) r = true)
      by (apply is_key_spec; reflexivity).
    rewrite Hk. reflexivity.
  - destruct (is_key (ip r) (port r) a) eqn:Hk; [|now apply IH].
    apply is_key_spec in Hk. exfalso. apply Hnotin.
    apply in_map_iff. exists r. split; [|exact Hin].
    unfold key in *. congruence.
Qed.

(** Every operation of the store keeps the key constraint. *)
Lemma unique_keys_preserved :
  forall new_id now ct ip0 port0 src tr im web server_info fav n db,
    unique_keys db ->
    unique_keys (fst (add_server new_id now ct ip0 port0 src tr im web db))
    /\ unique_keys (update_server_info now ip0 port0 server_info db)
    /\ unique_keys (mark_query_failure now ip0 port0 db)
    /\ unique_keys (set_favorite ip0 port0 fav db)
    /\ unique_keys (remove_server ip0 port0 db)
    /\ unique_keys (fst (cleanup_failed_servers n db)).
Proof.
  intros new_id now ct ip0 port0 src tr im web server_info fav n db Hu.
  repeat split.
  - unfold add_server.
    destruct (find (is_key ip0 port0) db) eqn:Hf; simpl.
    + unfold unique_keys. rewrite map_key_update_where by reflexivity. exact Hu.
    + unfold unique_keys. rewrite map_app. simpl.
      apply NoDup_app_remove_l with (l := []). simpl.
      apply Permutation_NoDup with (l := (ip0, port0) :: map key db).
      * apply Permutation_cons_append.
      * constructor; [now apply not_in_keys | exact Hu].
  - unfold unique_keys, update_server_info.
    rewrite map_key_update_where by reflexivity. exact Hu.
  - unfold unique_keys, mark_query_failure.
    rewrite map_key_update_where by reflexivity. exact Hu.
  - unfold unique_keys, set_favorite.
    destruct fav; rewrite map_key_update_where by reflexivity; exact Hu.
  - now apply unique_keys_filter.
  - simpl. now apply unique_keys_filter.
Qed.

End UniqueKeys.

(* ===================================================================== *)
(** * Properties of the protocol client *)
(* ===================================================================== *)

Section Utf8Facts.

Lemma is_ok_cons_ok c r : is_ok (cons_ok c r) = is_ok r.
Proof. destruct r; reflexivity. Qed.

Lemma encode_char_1 c :
  0 <= c < 0x80 -> utf8_encode_char c = Ok [byte.of_Z c].
Proof.
  intros H. unfold utf8_encode_char.
  destruct (Z.ltb_spec c 0); [lia|].
  destruct (Z.ltb_spec c 0x80); [reflexivity|lia].
Qed.

Lemma encode_char_2 c1 c2 :
  0xC2 <= c1 < 0xE0 -> 0x80 <= c2 < 0xC0 ->
  utf8_encode_char ((c1 - 0xC0) * 64 + (c2 - 0x80))
  = Ok [byte.of_Z c1; byte.of_Z c2].
Proof.
  intros H1 H2. unfold utf8_encode_char.
  set (c := (c1 - 0xC0) * 64 + (c2 - 0x80)).
  assert (Hq : c / 64 = c1 - 0xC0) by (subst c; Z.div_mod_to_equations; lia).
  assert (Hr : c mod 64 = c2 - 0x80) by (subst c; Z.div_mod_to_equations; lia).
  destruct (Z.ltb_spec c 0); [lia|].
  destruct (Z.ltb_spec c 0x80); [lia|].
  destruct (Z.ltb_spec c 0x800); [|lia].
  rewrite Hq, Hr. repeat f_equal; lia.
Qed.

Lemma encode_char_3 c1 c2 c3 :
  0xE0 <= c1 < 0xF0 -> 0x80 <= c2 < 0xC0 -> 0x80 <= c3 < 0xC0 ->
  (c1 = 0xE0 -> 0xA0 <= c2) -> (c1 = 0xED -> c2 < 0xA0) ->
  utf8_encode_char ((c1 - 0xE0) * 4096 + (c2 - 0x80) * 64 + (c3 - 0x80))
  = Ok [byte.of_Z c1; byte.of_Z c2; byte.of_Z c3].
Proof.
  intros H1 H2 H3 Hlow Hsur. unfold utf8_encode_char.
  set (c := (c1 - 0xE0) * 4096 + (c2 - 0x80) * 64 + (c3 - 0x80)).
  assert (Hq : c / 4096 = c1 - 0xE0) by (subst c; Z.div_mod_to_equations; lia).
  assert (Hm : (c / 64) mod 64 = c2 - 0x80)
    by (subst c; Z.div_mod_to_equations; lia).
  assert (Hr : c mod 64 = c3 - 0x80) by (subst c; Z.div_mod_to_equations; lia).
  assert (Hlo : 0x800 <= c) by (subst c; lia).
  assert (Hhi : c < 0x10000) by (subst c; lia).
  assert (Hns : ~ (0xD800 <= c < 0xE000)) by (subst c; lia).
  destruct (Z.ltb_spec c 0); [lia|].
  destruct (Z.ltb_spec c 0x80); [lia|].
  destruct (Z.ltb_spec c 0x800); [lia|].
  destruct (Z.ltb_spec c 0x10000); [|lia].
  destruct (Z.leb_spec 0xD800 c); destruct (Z.ltb_spec c 0xE000);
    cbn [andb]; try lia; rewrite Hq, Hm, Hr; repeat f_equal; lia.
Qed.

Lemma encode_char_4 c1 c2 c3 c4 :
  0xF0 <= c1 < 0xF5 -> 0x80 <= c2 < 0xC0 -> 0x80 <= c3 < 0xC0 ->
  0x80 <= c4 < 0xC0 ->
  (c1 = 0xF0 -> 0x90 <= c2) -> (c1 = 0xF4 -> c2 < 0x90) ->
  utf8_encode_char ((c1 - 0xF0) * 262144 + (c2 - 0x80) * 4096
                    + (c3 - 0x80) * 64 + (c4 - 0x80))
  = Ok [byte.of_Z c1; byte.of_Z c2; byte.of_Z c3; byte.of_Z c4].
Proof.
  intros H1 H2 H3 H4 Hlow Hmax. unfold utf8_encode_char.
  set (c := (c1 - 0xF0) * 262144 + (c2 - 0x80) * 4096
            + (c3 - 0x80) * 64 + (c4 - 0x80)).
  assert (Hq : c / 262144 = c1 - 0xF0)
    by (subst c; Z.div_mod_to_equations; lia).
  assert (Hm2 : (c / 4096) mod 64 = c2 - 0x80)
    by (subst c; Z.div_mod_to_equations; lia).
  assert (Hm3 : (c / 64) mod 64 = c3 - 0x80)
    by (subst c; Z.div_mod_to_equations; lia).
  assert (Hr : c mod 64 = c4 - 0x80) by (subst c; Z.div_mod_to_equations; lia).
  assert (Hlo : 0x10000 <= c) by (subst c; lia).
  assert (Hhi : c < 0x110000) by (subst c; lia).
  destruct (Z.ltb_spec c 0); [lia|].
  destruct (Z.ltb_spec c 0x80); [lia|].
  destruct (Z.ltb_spec c 0x800); [lia|].
  destruct (Z.ltb_spec c 0x10000); [lia|].
  destruct (Z.ltb_spec c 0x110000); [|lia].
  rewrite Hq, Hm2, Hm3, Hr. repeat f_equal; lia.
Qed.

Lemma is_continuation_spec c :
  is_continuation c = true <-> 0x80 <= c < 0xC0.
Proof. unfold is_continuation. rewrite andb_true_iff, Z.leb_le, Z.ltb_lt. tauto. Qed.


Lemma utf8_roundtrip_aux :
  forall n s, (length s <= n)%nat ->
    exists t enc,
      utf8_decode ignore s = Ok t
      /\ utf8_encode t = Ok enc
      /\ (length enc <= length s)%nat
      /\ (is_ok (utf8_decode strict s) = true ->
          enc = s /\ utf8_decode strict s = Ok t).
Proof.
  induction n as [|n IH]; intros s Hlen.
  - destruct s; [|simpl in Hlen; lia].
    exists [], []. simpl. auto.
  - (* an ill-formed sequence: the covered bytes are dropped *)
    assert (Hskip : forall (s' : bytes) (x y : result str),
               (length s' < length s)%nat ->
               x = utf8_decode ignore s' ->
               y = Raise UnicodeDecodeError ->
               exists t enc,
                 x = Ok t /\ utf8_encode t = Ok enc
                 /\ (length enc <= length s)%nat
                 /\ (is_ok y = true -> enc = s /\ y = Ok t)).
    { intros s' x y Hl -> ->.
      destruct (IH s' ltac:(lia)) as (t & enc & Hd & He & Hle & _).
      exists t, enc. repeat split; auto; try lia; discriminate. }
    (* a well-formed sequence [bs] of the code point [c] *)
    assert (Hemit : forall (bs s' : bytes) (c : codepoint),
               s = bs ++ s' -> bs <> [] ->
               utf8_encode_char c = Ok bs ->
               exists t enc,
                 cons_ok c (utf8_decode ignore s') = Ok t
                 /\ utf8_encode t = Ok enc
                 /\ (length enc <= length s)%nat
                 /\ (is_ok (cons_ok c (utf8_decode strict s')) = true ->
                     enc = s /\ cons_ok c (utf8_decode strict s') = Ok t)).
    { intros bs s' c -> Hne Hc.
      assert (Hs' : (length s' <= n)%nat).
      { rewrite length_app in Hlen. destruct bs; [congruence|simpl in Hlen; lia]. }
      destruct (IH s' ltac:(lia)) as (t & enc & Hd & He & Hle & Hs).
      exists (c :: t), (bs ++ enc). rewrite Hd. cbn [utf8_encode].
      rewrite Hc, He. cbn [bind cons_ok].
      split; [reflexivity|]. split; [reflexivity|].
      split; [rewrite !length_app; lia|].
      intros Hok. rewrite is_ok_cons_ok in Hok.
      destruct (Hs Hok) as [-> ->]. split; reflexivity. }
    assert (Htrunc : exists t enc,
               @Ok str [] = Ok t /\ utf8_encode t = Ok enc
               /\ (length enc <= length s)%nat
               /\ (is_ok (@Raise str UnicodeDecodeError) = true ->
                   enc = s /\ @Raise str UnicodeDecodeError = Ok t)).
    { exists [], []. repeat split; simpl; try lia; discriminate. }
    destruct s as [|b1 s1].
    { exists [], []. simpl. auto. }
    cbn [utf8_decode].
    pose proof (byte.unsigned_range b1) as R1.
    pose proof (byte.of_Z_unsigned b1) as E1.
    set (c1 := byte.unsigned b1) in *.
    destruct (Z.ltb_spec c1 128).
    { apply (Hemit [b1] s1 c1); [reflexivity | discriminate |].
      rewrite encode_char_1, E1 by lia. reflexivity. }
    destruct (Z.ltb_spec c1 194).
    { apply (Hskip s1); [simpl; lia | reflexivity | reflexivity]. }
    destruct (Z.ltb_spec c1 224).
    { destruct s1 as [|b2 s2]; [exact Htrunc|].
      pose proof (byte.of_Z_unsigned b2) as E2.
      set (c2 := byte.unsigned b2) in *.
      destruct (is_continuation c2) eqn:K2; cbn [negb].
      - apply is_continuation_spec in K2.
        apply (Hemit [b1; b2] s2); [reflexivity | discriminate |].
        rewrite encode_char_2, E1, E2 by lia. reflexivity.
      - apply (Hskip (b2 :: s2)); [simpl; lia | reflexivity | reflexivity]. }
    destruct (Z.ltb_spec c1 240).
    { destruct s1 as [|b2 s2]; [exact Htrunc|].
      pose proof (byte.of_Z_unsigned b2) as E2.
      set (c2 := byte.unsigned b2) in *.
      destruct (is_continuation c2) eqn:K2; cbn [negb orb];
        [|apply (Hskip (b2 :: s2)); [simpl; lia | reflexivity | reflexivity]].
      apply is_continuation_spec in K2.
      destruct (if c2 <? 160 then c1 =? 224 else c1 =? 237) eqn:G2;
        [apply (Hskip (b2 :: s2)); [simpl; lia | reflexivity | reflexivity]|].
      destruct s2 as [|b3 s3]; [exact Htrunc|].
      pose proof (byte.of_Z_unsigned b3) as E3.
      set (c3 := byte.unsigned b3) in *.
      destruct (is_continuation c3) eqn:K3; cbn [negb];
        [|apply (Hskip (b3 :: s3)); [simpl; lia | reflexivity | reflexivity]].
      apply is_continuation_spec in K3.
      apply (Hemit [b1; b2; b3] s3); [reflexivity | discriminate |].
      rewrite encode_char_3, E1, E2, E3; try lia; try reflexivity.
      - intros ->. destruct (Z.ltb_spec c2 160); [discriminate | lia].
      - intros ->. destruct (Z.ltb_spec c2 160); [lia | discriminate]. }
    destruct (Z.ltb_spec c1 245).
    { destruct s1 as [|b2 s2]; [exact Htrunc|].
      pose proof (byte.of_Z_unsigned b2) as E2.
      set (c2 := byte.unsigned b2) in *.
      destruct (is_continuation c2) eqn:K2; cbn [negb orb];
        [|apply (Hskip (b2 :: s2)); [simpl; lia | reflexivity | reflexivity]].
      apply is_continuation_spec in K2.
      destruct (if c2 <? 144 then c1 =? 240 else c1 =? 244) eqn:G2;
        [apply (Hskip (b2 :: s2)); [simpl; lia | reflexivity | reflexivity]|].
      destruct s2 as [|b3 s3]; [exact Htrunc|].
      pose proof (byte.of_Z_unsigned b3) as E3.
      set (c3 := byte.unsigned b3) in *.
      destruct (is_continuation c3) eqn:K3; cbn [negb];
        [|apply (Hskip (b3 :: s3)); [simpl; lia | reflexivity | reflexivity]].
      apply is_continuation_spec in K3.
      destruct s3 as [|b4 s4]; [exact Htrunc|].
      pose proof (byte.of_Z_unsigned b4) as E4.
      set (c4 := byte.unsigned b4) in *.
      destruct (is_continuation c4) eqn:K4; cbn [negb];
        [|apply (Hskip (b4 :: s4)); [simpl; lia | reflexivity | reflexivity]].
      apply is_continuation_spec in K4.
      apply (Hemit [b1; b2; b3; b4] s4); [reflexivity | discriminate |].
      rewrite encode_char_4, E1, E2, E3, E4; try lia; try reflexivity.
      - intros ->. destruct (Z.ltb_spec c2 144); [discriminate | lia].
      - intros ->. destruct (Z.ltb_spec c2 144); [lia | discriminate]. }
    apply (Hskip s1); [simpl; lia | reflexivity | reflexivity].
Qed.
End Utf8Facts.

Section WireFacts.
Import DssQuery.

Lemma le_combine_le_split_4 v :
  0 <= v < 2 ^ 32 -> le_combine (le_split 4 v) = v.
Proof.
  intros H. rewrite le_combine_split. apply Z.mod_small. exact H.
Qed.

Lemma le_split_le_combine_4 (vb : bytes) :
  length vb = 4%nat -> le_split 4 (le_combine vb) = vb.
Proof. intros H. rewrite <- H. apply split_le_combine. Qed.

Lemma le_combine_bound_4 (vb : bytes) :
  length vb = 4%nat -> 0 <= le_combine vb < 2 ^ 32.
Proof. intros H. pose proof (le_combine_bound vb) as B. rewrite H in B. exact B. Qed.

Lemma unpack_from_I_at (pre vb post : bytes) :
  length vb = 4%nat ->
  unpack_from_I (pre ++ vb ++ post) (length pre) = Ok (le_combine vb).
Proof.
  intros H. unfold unpack_from_I.
  replace (length pre + 4 <=? length (pre ++ vb ++ post))%nat with true
    by (symmetry; apply Nat.leb_le; rewrite !length_app; lia).
  rewrite skipn_app, skipn_all, Nat.sub_diag. simpl skipn.
  cbn [app]. rewrite <- H, firstn_app, firstn_all, Nat.sub_diag. simpl.
  rewrite app_nil_r. reflexivity.
Qed.

Lemma recv_exact_app (a b out : bytes) (t : bool) :
  recv_exact (Z.of_nat (length a)) (mk_socket (a ++ b) out t)
  = (mk_socket b out t, Ok a).
Proof.
  unfold recv_exact. destruct a as [|x a].
  - reflexivity.
  - destruct (Z.leb_spec (Z.of_nat (length (x :: a))) 0) as [H|H];
      [simpl in H; lia|].
    cbn [incoming sent tls].
    destruct (Z.leb_spec (Z.of_nat (length (x :: a)))
                         (Z.of_nat (length ((x :: a) ++ b)))) as [H1|H1];
      [|rewrite length_app in H1; lia].
    rewrite Nat2Z.id, skipn_app, skipn_all, Nat.sub_diag.
    rewrite firstn_app, firstn_all, Nat.sub_diag. simpl.
    rewrite app_nil_r. reflexivity.
Qed.

(** A whole frame on the wire is read as one packet. *)
Lemma recv_packet_frame (payload rest out : bytes) (t : bool) :
  4 + Z.of_nat (length payload) < 2 ^ 32 ->
  recv_packet (mk_socket (Frames.frame payload ++ rest) out t)
  = (mk_socket rest out t, Ok (Frames.frame payload)).
Proof.
  intros Hlen. unfold recv_packet, Frames.frame.
  set (n := 4 + Z.of_nat (length payload)).
  rewrite <- app_assoc.
  change 4 with (Z.of_nat (length (le_split 4 n))) at 1.
  rewrite recv_exact_app.
  change (le_split 4 n) with ([] ++ le_split 4 n) at 1.
  rewrite <- (app_nil_r ([] ++ le_split 4 n)), <- app_assoc.
  change 0%nat with (length (@nil byte)).
  rewrite unpack_from_I_at by apply length_le_split.
  rewrite le_combine_le_split_4 by (subst n; lia).
  replace (n - 4) with (Z.of_nat (length payload)) by (subst n; lia).
  rewrite recv_exact_app. reflexivity.
Qed.

Lemma recv_exact_sent n sock : sent (fst (recv_exact n sock)) = sent sock.
Proof.
  unfold recv_exact. destruct (n <=? 0); [reflexivity|].
  destruct (n <=? _); reflexivity.
Qed.

Lemma recv_packet_sent sock : sent (fst (recv_packet sock)) = sent sock.
Proof.
  unfold recv_packet.
  pose proof (recv_exact_sent 4 sock) as H1.
  destruct (recv_exact 4 sock) as [sock1 [header|e]]; [|exact H1].
  destruct (unpack_from_I header 0) as [size|e]; [|exact H1].
  pose proof (recv_exact_sent (size - 4) sock1) as H2.
  destruct (recv_exact (size - 4) sock1) as [sock2 [body|e]];
    simpl in *; congruence.
Qed.

(** The greeting, parsed: a wrong message type is refused, a right one
    yields the flags, the version and the decoded network version. *)
Lemma parse_whats_up_frame (b0 flags : byte) (vb s : bytes) :
  length vb = 4%nat ->
  parse_whats_up (Frames.frame ([b0; flags] ++ vb ++ s))
  = if byte.unsigned b0 =? NET_SVM_WHATS_UP
    then bind (utf8_decode ignore s)
              (fun netver => Ok (byte.unsigned flags, le_combine vb, netver))
    else Raise (ValueError "Expected WHATS_UP"%string).
Proof.
  intros Hvb. unfold parse_whats_up, Frames.frame, slice_from.
  rewrite skipn_app, skipn_all2 by (rewrite length_le_split; lia).
  rewrite length_le_split. cbn [Nat.sub]. rewrite skipn_O.
  unfold index. cbn [app nth_error bind].
  destruct (byte.unsigned b0 =? NET_SVM_WHATS_UP); cbn [negb]; [|reflexivity].
  replace (skipn 6 (b0 :: flags :: vb ++ s)) with s.
  - change (b0 :: flags :: vb ++ s) with ([b0; flags] ++ vb ++ s).
    change 2%nat with (length [b0; flags]).
    rewrite unpack_from_I_at by exact Hvb. reflexivity.
  - change (skipn 6 (b0 :: flags :: vb ++ s)) with (skipn 4 (vb ++ s)).
    rewrite <- Hvb, skipn_app, skipn_all, Nat.sub_diag. reflexivity.
Qed.

End WireFacts.

Import DssQuery.

Lemma utf8_roundtrip (s : bytes) :
  exists t enc,
    utf8_decode ignore s = Ok t
    /\ utf8_encode t = Ok enc
    /\ (length enc <= length s)%nat
    /\ (is_ok (utf8_decode strict s) = true ->
        enc = s /\ utf8_decode strict s = Ok t).
Proof. apply (utf8_roundtrip_aux (length s)). apply Nat.le_refl. Qed.

Lemma build_listing_request_bytes (vb : bytes) (netver : str) (nv : bytes) :
  length vb = 4%nat ->
  utf8_encode netver = Ok nv ->
  Z.of_nat (length nv) + 20 < 2 ^ 32 ->
  build_listing_request (le_combine vb) netver = Ok (Frames.listing_request vb nv).
Proof.
  intros Hvb Henc Hlen. unfold build_listing_request, pack_I.
  pose proof (le_combine_bound_4 vb Hvb) as B.
  destruct (Z.leb_spec 0 (le_combine vb)); [|lia].
  destruct (Z.ltb_spec (le_combine vb) (2 ^ 32)); [|lia].
  cbn [andb bind]. rewrite Henc. cbn [bind].
  change (utf8_encode LISTING_USERNAME) with (Ok (Frames.ascii_bytes "__dsslist")).
  cbn [bind]. rewrite le_split_le_combine_4 by exact Hvb.
  set (payload := [byte.of_Z NET_MSG_LISTING] ++ vb ++ (nv ++ [Byte.x00])
                  ++ [byte.of_Z 1] ++ Frames.ascii_bytes "__dsslist").
  assert (Hp : Z.of_nat (length payload) = Z.of_nat (length nv) + 16).
  { subst payload. rewrite !length_app, Hvb. simpl length. lia. }
  destruct (Z.leb_spec 0 (4 + Z.of_nat (length payload))); [|lia].
  destruct (Z.ltb_spec (4 + Z.of_nat (length payload)) (2 ^ 32)); [|lia].
  cbn [andb bind]. unfold Frames.listing_request, Frames.frame.
  subst payload. rewrite <- !app_assoc. reflexivity.
Qed.

(** [query_dss] up to the listing request: behind a WHATS_UP greeting
    the client upgrades the connection when bit 0 of the flags is set,
    stops with the error of the handshake when that fails, and sends
    the request otherwise. *)
Lemma query_dss_greeting (wrap_socket : io unit) (flags : byte)
    (vb s rest out : bytes) (t : bool) (netver : str) (nv : bytes) :
  length vb = 4%nat ->
  Z.of_nat (length s) + 20 < 2 ^ 32 ->
  utf8_decode ignore s = Ok netver ->
  utf8_encode netver = Ok nv ->
  Z.of_nat (length nv) + 20 < 2 ^ 32 ->
  query_dss wrap_socket
    (mk_socket (Frames.greeting Byte.x01 flags vb s ++ rest) out t)
  = match (if negb (Z.land (byte.unsigned flags) NET_SI_USE_SSL =? 0)
           then wrap_socket (mk_socket rest out t)
           else (mk_socket rest out t, Ok tt)) with
    | (sock, Raise e) => (sock, Raise e)
    | (sock, Ok _) =>
      match recv_packet (fst (sendall (Frames.listing_request vb nv) sock)) with
      | (sock, Raise e) => (sock, Raise e)
      | (sock, Ok pkt) => (sock, parse_list_server pkt)
      end
    end.
Proof.
  intros Hvb Hlen Hdec Henc Hnv. unfold query_dss, Frames.greeting.
  rewrite recv_packet_frame
    by (rewrite !length_app, Hvb; simpl length; lia).
  rewrite parse_whats_up_frame by exact Hvb.
  change (byte.unsigned Byte.x01 =? NET_SVM_WHATS_UP) with true. cbv iota.
  rewrite Hdec. cbn [bind].
  rewrite (build_listing_request_bytes vb netver nv Hvb Henc) by exact Hnv.
  reflexivity.
Qed.

(** What has been sent once the request is out and the response is
    awaited. *)
Lemma sent_after_request (req : bytes) (sock : socket) :
  sent (fst (match recv_packet (fst (sendall req sock)) with
             | (sock', Raise e) => (sock', Raise e)
             | (sock', Ok pkt) => (sock', parse_list_server pkt)
             end))
  = sent sock ++ req.
Proof.
  pose proof (recv_packet_sent (fst (sendall req sock))) as H.
  destruct (recv_packet (fst (sendall req sock))) as [sock2 [pkt|e]];
    cbn [fst] in *; rewrite H; reflexivity.
Qed.

(** C8, as the code has it. For a greeting that carries the four
    version bytes [vb] and the network version [s], the listing request
    of [query_dss] has [vb] unchanged and [s] decoded with errors
    ignored and encoded again, then one NUL byte; that echo is [s]
    itself whenever [s] is well-formed UTF-8. The request is sent on
    the connection as it is when bit 0 of the flags is clear, and on
    the upgraded connection when the bit is set and the TLS handshake
    succeeds; when the handshake fails the query ends with its error
    and no request is sent. *)
Theorem listing_request_echo :
  forall (wrap_socket : io unit) (flags : byte) (vb s rest out : bytes)
         (t : bool),
    length vb = 4%nat ->
    Z.of_nat (length s) + 20 < 2 ^ 32 ->
    exists netver nv,
      utf8_decode ignore s = Ok netver
      /\ utf8_encode netver = Ok nv
      /\ (is_ok (utf8_decode strict s) = true -> nv = s)
      /\ (Z.land (byte.unsigned flags) NET_SI_USE_SSL = 0 ->
          sent (fst (query_dss wrap_socket
                       (mk_socket (Frames.greeting Byte.x01 flags vb s ++ rest)
                                  out t)))
          = out ++ Frames.listing_request vb nv)
      /\ (Z.land (byte.unsigned flags) NET_SI_USE_SSL <> 0 ->
          forall sock1,
            wrap_socket (mk_socket rest out t) = (sock1, Ok tt) ->
            sent (fst (query_dss wrap_socket
                         (mk_socket
                            (Frames.greeting Byte.x01 flags vb s ++ rest)
                            out t)))
            = sent sock1 ++ Frames.listing_request vb nv)
      /\ (Z.land (byte.unsigned flags) NET_SI_USE_SSL <> 0 ->
          forall sock1 e,
            wrap_socket (mk_socket rest out t) = (sock1, Raise e) ->
            query_dss wrap_socket
              (mk_socket (Frames.greeting Byte.x01 flags vb s ++ rest) out t)
            = (sock1, Raise e)).
Proof.
  intros wrap_socket flags vb s rest out t Hvb Hlen.
  destruct (utf8_roundtrip s) as (netver & nv & Hdec & Henc & Hle & Hstrict).
  exists netver, nv. split; [exact Hdec|]. split; [exact Henc|].
  split; [intros Hok; exact (proj1 (Hstrict Hok))|].
  rewrite (query_dss_greeting wrap_socket flags vb s rest out t netver nv
             Hvb Hlen Hdec Henc) by lia.
  split; [|split].
  - intros Hclear. rewrite Hclear. cbn [Z.eqb negb].
    apply sent_after_request.
  - intros Hset sock1 Hwrap. apply Z.eqb_neq in Hset. rewrite Hset.
    cbn [negb]. rewrite Hwrap. apply sent_after_request.
  - intros Hset sock1 e Hwrap. apply Z.eqb_neq in Hset. rewrite Hset.
    cbn [negb]. rewrite Hwrap. reflexivity.
Qed.

Lemma listing_request_echo_witness :
  length (le_split 4 3) = 4%nat
  /\ Z.of_nat (length (Frames.ascii_bytes "1.0")) + 20 < 2 ^ 32
  /\ exists netver nv,
      utf8_decode ignore (Frames.ascii_bytes "1.0") = Ok netver
      /\ utf8_encode netver = Ok nv
      /\ (is_ok (utf8_decode strict (Frames.ascii_bytes "1.0")) = true ->
          nv = Frames.ascii_bytes "1.0")
      /\ (Z.land (byte.unsigned Byte.x00) NET_SI_USE_SSL = 0 ->
          sent (fst (query_dss Examples.tls_closed
                       (mk_socket
                          (Frames.greeting Byte.x01 Byte.x00 (le_split 4 3)
                             (Frames.ascii_bytes "1.0")
                           ++ Examples.response Byte.x02) [] false)))
          = [] ++ Frames.listing_request (le_split 4 3) nv)
      /\ (Z.land (byte.unsigned Byte.x00) NET_SI_USE_SSL <> 0 ->
          forall sock1,
            Examples.tls_closed
              (mk_socket (Examples.response Byte.x02) [] false)
            = (sock1, Ok tt) ->
            sent (fst (query_dss Examples.tls_closed
                         (mk_socket
                            (Frames.greeting Byte.x01 Byte.x00 (le_split 4 3)
                               (Frames.ascii_bytes "1.0")
                             ++ Examples.response Byte.x02) [] false)))
            = sent sock1 ++ Frames.listing_request (le_split 4 3) nv)
      /\ (Z.land (byte.unsigned Byte.x00) NET_SI_USE_SSL <> 0 ->
          forall sock1 e,
            Examples.tls_closed
              (mk_socket (Examples.response Byte.x02) [] false)
            = (sock1, Raise e) ->
            query_dss Examples.tls_closed
              (mk_socket
                 (Frames.greeting Byte.x01 Byte.x00 (le_split 4 3)
                    (Frames.ascii_bytes "1.0")
                  ++ Examples.response Byte.x02) [] false)
            = (sock1, Raise e)).
Proof.
  split; [reflexivity|]. split; [vm_compute; reflexivity|].
  apply (listing_request_echo Examples.tls_closed Byte.x00 (le_split 4 3)
           (Frames.ascii_bytes "1.0") (Examples.response Byte.x02) [] false).
  - reflexivity.
  - vm_compute. reflexivity.
Defined.

(** C8 as stated fails: for the network version [ff 31 2e 30] the
    request that is sent echoes [31 2e 30], without the first byte. *)
Lemma listing_request_echo_drops_bytes :
  sent (fst (query_dss Examples.tls_closed Examples.peer_ff))
  = Frames.listing_request (le_split 4 3) (Frames.ascii_bytes "1.0")
  /\ sent (fst (query_dss Examples.tls_closed Examples.peer_ff))
     <> Frames.listing_request (le_split 4 3) Examples.netver_ff.
Proof.
  split; [vm_compute; reflexivity|].
  vm_compute. intros H. discriminate H.
Qed.

(** The greeting of [Examples.peer_ff] asks for no upgrade, so the
    request above is the same with every TLS layer. *)
Lemma peer_ff_request_any_tls (wrap_socket : io unit) :
  sent (fst (query_dss wrap_socket Examples.peer_ff))
  = Frames.listing_request (le_split 4 3) (Frames.ascii_bytes "1.0").
Proof. vm_compute. reflexivity. Qed.

(** With bit 0 of the flags set nothing is sent in clear: when the
    peer closes the connection instead of shaking hands, the query ends
    with the error of the handshake and the request is never sent. *)
Lemma query_dss_handshake_fails :
  query_dss Examples.tls_closed
    (mk_socket (Frames.greeting Byte.x01 Byte.x01 (le_split 4 3)
                  (Frames.ascii_bytes "1.0")) [] false)
  = (mk_socket [] [] false,
     Raise (SSLError "TLS/SSL connection has been closed (EOF)"%string)).
Proof. vm_compute. reflexivity. Qed.

(** Scenario A of the specification: the query of [Examples.peer] with
    the right message type. *)
Lemma query_dss_scenario (wrap_socket : io unit) :
  query_dss wrap_socket (Examples.peer Byte.x02)
  = (mk_socket [] (Frames.listing_request (le_split 4 3)
                     (Frames.ascii_bytes "1.0")) false,
     Ok (ServerInfo.mk (Some (lit "Test")) (Some (lit "Hi")) (Some [])
                       (Some 5) (Some 20) (Some Examples.png))).
Proof. vm_compute. reflexivity. Qed.

(** The half of C5 the code has: a greeting whose message type is not
    WHATS_UP is refused with the error of [parse_whats_up], and nothing
    is sent. *)
Lemma query_dss_refuses_wrong_greeting :
  forall (wrap_socket : io unit) (b0 : byte) (body rest out : bytes)
         (t : bool),
    Z.of_nat (length body) + 5 < 2 ^ 32 ->
    byte.unsigned b0 <> NET_SVM_WHATS_UP ->
    query_dss wrap_socket
      (mk_socket (Frames.frame (b0 :: body) ++ rest) out t)
    = (mk_socket rest out t, Raise (ValueError "Expected WHATS_UP"%string)).
Proof.
  intros wrap_socket b0 body rest out t Hlen Hne. unfold query_dss.
  rewrite recv_packet_frame by (simpl length; lia).
  unfold parse_whats_up, Frames.frame, slice_from.
  rewrite skipn_app, skipn_all2 by (rewrite length_le_split; lia).
  rewrite length_le_split. cbn [Nat.sub]. rewrite skipn_O.
  unfold index. cbn [app nth_error bind].
  apply Z.eqb_neq in Hne. rewrite Hne. reflexivity.
Qed.

(** C5 fails on the listing response: with the message type 7 in place
    of LIST_SERVER (2), [query_dss] does not fail; it returns the same
    result as for the well-typed response. *)
Theorem query_dss_accepts_wrong_list_server_type :
  forall wrap_socket : io unit,
    byte.unsigned Byte.x07 <> NET_SVM_LIST_SERVER
    /\ snd (query_dss wrap_socket (Examples.peer Byte.x07))
       = Ok (ServerInfo.mk (Some (lit "Test")) (Some (lit "Hi")) (Some [])
                           (Some 5) (Some 20) (Some Examples.png))
    /\ snd (query_dss wrap_socket (Examples.peer Byte.x07))
       = snd (query_dss wrap_socket (Examples.peer Byte.x02)).
Proof.
  intros wrap_socket.
  split; [vm_compute; discriminate|].
  split; vm_compute; reflexivity.
Qed.

(* ===================================================================== *)
(** * Properties of the search *)
(* ===================================================================== *)

Section SearchFacts.
Import Substring.

Lemma like_percent p s :
  Sql.pattern_compare (Sql.percent :: p) s
  = Sql.pattern_compare p s
    || match s with
       | [] => false
       | _ :: s' => Sql.pattern_compare (Sql.percent :: p) s'
       end.
Proof. destruct s; reflexivity. Qed.

Lemma like_only_percent s : Sql.pattern_compare [Sql.percent] s = true.
Proof.
  induction s as [|d s IH]; [reflexivity|].
  rewrite like_percent, IH. apply orb_true_r.
Qed.

(** A wildcard-free prefix of the pattern is matched character by
    character. *)
Lemma like_prefix q s :
  wildcard_free q ->
  Sql.pattern_compare (q ++ [Sql.percent]) s
  = starts_with Sql.char_eq_nocase q s.
Proof.
  intros Hq. revert s. induction Hq as [|c q [Hp Hu] Hq IH]; intros s.
  - apply like_only_percent.
  - cbn [app Sql.pattern_compare starts_with].
    apply Z.eqb_neq in Hp. apply Z.eqb_neq in Hu. rewrite Hp.
    destruct s as [|d s]; [reflexivity|].
    rewrite Hu. cbn [orb]. rewrite IH.
    destruct (Sql.char_eq_nocase c d); reflexivity.
Qed.

Lemma like_infix q s :
  wildcard_free q ->
  Sql.pattern_compare ([Sql.percent] ++ q ++ [Sql.percent]) s
  = contains_nocase q s.
Proof.
  intros Hq. unfold contains_nocase. cbn [app].
  induction s as [|d s IH].
  - rewrite like_percent, like_prefix by exact Hq. reflexivity.
  - rewrite like_percent, like_prefix by exact Hq. rewrite IH. reflexivity.
Qed.

(** A text with no NUL in it is read whole. *)
Lemma c_text_id (s : str) : ~ In 0 s -> Sql.c_text s = s.
Proof.
  induction s as [|c s IH]; intros H; [reflexivity|].
  cbn [Sql.c_text]. destruct (Z.eqb_spec c 0) as [->|_].
  - exfalso. apply H. left. reflexivity.
  - f_equal. apply IH. intros Hin. apply H. right. exact Hin.
Qed.

(** What is read of a text holds no NUL and is a prefix of the text. *)
Lemma c_text_prefix (s : str) :
  ~ In 0 (Sql.c_text s) /\ exists rest, s = Sql.c_text s ++ rest.
Proof.
  induction s as [|c s [IH1 [rest IH2]]]; cbn [Sql.c_text].
  - split; [intros []|exists []; reflexivity].
  - destruct (Z.eqb_spec c 0) as [->|Hc].
    + split; [intros []|exists (0 :: s); reflexivity].
    + split.
      * intros [H|H]; [congruence|exact (IH1 H)].
      * exists rest. cbn [app]. f_equal. exact IH2.
Qed.

Lemma c_text_search_pattern (q : str) :
  ~ In 0 q ->
  Sql.c_text ([Sql.percent] ++ q ++ [Sql.percent])
  = [Sql.percent] ++ q ++ [Sql.percent].
Proof.
  intros Hq. apply c_text_id. cbn [app]. intros [H|H]; [discriminate H|].
  apply in_app_or in H. destruct H as [H|[H|[]]]; [exact (Hq H)|discriminate H].
Qed.

Lemma utf8_encode_app (a b : str) :
  utf8_encode (a ++ b)
  = (x <- utf8_encode a ;; y <- utf8_encode b ;; Ok (x ++ y)).
Proof.
  induction a as [|c a IH]; cbn [app utf8_encode bind].
  - destruct (utf8_encode b); reflexivity.
  - destruct (utf8_encode_char c) as [bs|e]; cbn [bind]; [|reflexivity].
    rewrite IH. destruct (utf8_encode a) as [x|e]; cbn [bind]; [|reflexivity].
    destruct (utf8_encode b) as [y|e]; cbn [bind]; [|reflexivity].
    rewrite app_assoc. reflexivity.
Qed.

(** The pattern of the search, as it is bound: the bytes of the query
    between two [%]. *)
Lemma search_pattern_encode (q : str) b :
  utf8_encode q = Ok b ->
  utf8_encode ([Sql.percent] ++ q ++ [Sql.percent])
  = Ok ([Byte.x25] ++ b ++ [Byte.x25]).
Proof. intros H. rewrite !utf8_encode_app, H. reflexivity. Qed.

Lemma search_pattern_encode_error (q : str) e :
  utf8_encode q = Raise e ->
  utf8_encode ([Sql.percent] ++ q ++ [Sql.percent]) = Raise e.
Proof. intros H. rewrite !utf8_encode_app, H. reflexivity. Qed.

Lemma check_pattern_ok (q : str) b :
  utf8_encode q = Ok b ->
  Z.of_nat (length b) + 2 <= Sql.LIKE_PATTERN_LENGTH ->
  Sql.check_pattern ([Sql.percent] ++ q ++ [Sql.percent]) = Ok tt.
Proof.
  intros H L. unfold Sql.check_pattern.
  rewrite (search_pattern_encode q b H). cbn [bind].
  destruct (Z.ltb_spec Sql.LIKE_PATTERN_LENGTH
              (Z.of_nat (length ([Byte.x25] ++ b ++ [Byte.x25]))))
    as [Hlt|_]; [|reflexivity].
  rewrite !length_app in Hlt. simpl length in Hlt. lia.
Qed.

Lemma check_pattern_too_long (q : str) b :
  utf8_encode q = Ok b ->
  Sql.LIKE_PATTERN_LENGTH < Z.of_nat (length b) + 2 ->
  Sql.check_pattern ([Sql.percent] ++ q ++ [Sql.percent])
  = Raise (OperationalError "LIKE or GLOB pattern too complex"%string).
Proof.
  intros H L. unfold Sql.check_pattern.
  rewrite (search_pattern_encode q b H). cbn [bind].
  destruct (Z.ltb_spec Sql.LIKE_PATTERN_LENGTH
              (Z.of_nat (length ([Byte.x25] ++ b ++ [Byte.x25]))))
    as [_|Hge]; [reflexivity|].
  rewrite !length_app in Hge. simpl length in Hge. lia.
Qed.

(** A [WHERE] whose condition never fails is a filter; one whose
    condition fails on every row fails as soon as there is a row. *)
Lemma select_where_ok {A} (cond : A -> result bool) (f : A -> bool) l :
  (forall r, cond r = Ok (f r)) ->
  Sql.select_where cond l = Ok (filter f l).
Proof.
  intros H. induction l as [|r l IH]; [reflexivity|].
  cbn [Sql.select_where filter]. rewrite H, IH. cbn [bind].
  destruct (f r); reflexivity.
Qed.

Lemma select_where_raise {A} (cond : A -> result bool) e r l :
  cond r = Raise e ->
  Sql.select_where cond (r :: l) = Raise e.
Proof. intros H. cbn [Sql.select_where]. rewrite H. reflexivity. Qed.

(** [ORDER BY] only reorders. *)
Lemma insert_perm {A} (before : A -> A -> bool) x l :
  Permutation (Sql.insert before x l) (x :: l).
Proof.
  induction l as [|y l IH]; simpl; [reflexivity|].
  destruct (before x y); [reflexivity|].
  apply perm_trans with (y :: x :: l); [now constructor | apply perm_swap].
Qed.

Lemma order_by_perm {A} (before : A -> A -> bool) l :
  Permutation (Sql.order_by before l) l.
Proof.
  induction l as [|x l IH]; simpl; [reflexivity|].
  apply perm_trans with (x :: Sql.order_by before l);
    [apply insert_perm | now constructor].
Qed.

(** The condition of the search on one row, for a query that LIKE takes
    literally: a field matches when what sqlite reads of it contains the
    query up to ASCII case. *)
Lemma search_matches_spec (q : str) b r :
  wildcard_free q ->
  ~ In 0 q ->
  utf8_encode q = Ok b ->
  Z.of_nat (length b) + 2 <= Sql.LIKE_PATTERN_LENGTH ->
  search_matches ([Sql.percent] ++ q ++ [Sql.percent]) r
  = Ok (column_contains contains_nocase q (option_map Sql.c_text (name r))
        || column_contains contains_nocase q (option_map Sql.c_text (info r))
        || contains_nocase q (Sql.c_text (ip r))).
Proof.
  intros Hq H0 Hb Hlen.
  unfold search_matches, Sql.like3, Sql.like, column_contains.
  rewrite (check_pattern_ok q b Hb Hlen).
  destruct (name r) as [n|]; destruct (info r) as [i|];
    cbn [bind option_map]; rewrite !(c_text_search_pattern q H0);
    rewrite ?like_infix by exact Hq;
    repeat match goal with
           | |- context [contains_nocase q ?x] =>
             destruct (contains_nocase q x)
           end; reflexivity.
Qed.

Lemma search_matches_too_long (q : str) b r :
  utf8_encode q = Ok b ->
  Sql.LIKE_PATTERN_LENGTH < Z.of_nat (length b) + 2 ->
  search_matches ([Sql.percent] ++ q ++ [Sql.percent]) r
  = Raise (OperationalError "LIKE or GLOB pattern too complex"%string).
Proof.
  intros Hb Hlen. unfold search_matches, Sql.like3, Sql.like.
  rewrite (check_pattern_too_long q b Hb Hlen).
  destruct (name r); reflexivity.
Qed.

End SearchFacts.




(** Why the queries of C3 are taken without wildcards: [_] stands for
    any character, so the query "_" finds every row, though no field
    holds an underscore. *)
Lemma search_servers_underscore :
  search_servers (lit "_") Examples.db0
  = Ok [Examples.man_row; Examples.fav_row; Examples.dyn_row]
  /\ forall r, In r Examples.db0 ->
               Substring.contains (lit "_") (ip r) = false.
Proof.
  split; [vm_compute; reflexivity|].
  intros r [<- | [<- | [<- | []]]]; reflexivity.
Qed.

(** Why the queries of C3 are taken without NUL: the pattern ends at
    its first NUL. The query "st", NUL, "z" finds the row named "Test",
    as every text that ends in "st" would be found, and the query that
    is one NUL finds every row. *)
Lemma search_servers_nul :
  search_servers (lit "st" ++ [0] ++ lit "z") Examples.db0
  = Ok [Examples.fav_row]
  /\ Substring.column_contains Substring.contains_nocase
       (lit "st" ++ [0] ++ lit "z") (name Examples.fav_row) = false
  /\ search_servers [0] Examples.db0
     = Ok [Examples.man_row; Examples.fav_row; Examples.dyn_row]
  /\ forall r, In r Examples.db0 ->
               Substring.contains_nocase [0] (ip r) = false.
Proof.
  split; [vm_compute; reflexivity|].
  split; [reflexivity|].
  split; [vm_compute; reflexivity|].
  intros r [<- | [<- | [<- | []]]]; reflexivity.
Qed.

(** Why the queries of C3 are bounded: a pattern of more than 50000
    bytes is refused by the first LIKE that is evaluated, so the search
    fails on every table that has a row; on the empty table no LIKE is
    evaluated and the search returns nothing. *)
Lemma search_servers_pattern_too_long :
  forall (q : str) (b : bytes) r db,
    utf8_encode q = Ok b ->
    Sql.LIKE_PATTERN_LENGTH < Z.of_nat (length b) + 2 ->
    search_servers q (r :: db)
    = Raise (OperationalError "LIKE or GLOB pattern too complex"%string)
    /\ search_servers q [] = Ok [].
Proof.
  intros q b r db Hb Hlen. unfold search_servers. cbv zeta.
  rewrite (search_pattern_encode q b Hb). cbn [bind]. split; [|reflexivity].
  rewrite (select_where_raise _ _ r db (search_matches_too_long q b r Hb Hlen)).
  reflexivity.
Qed.

(** A query with a surrogate in it cannot be bound: the search fails
    with the error of the encoder, whatever the table holds. *)
Lemma search_servers_unencodable :
  forall (q : str) e db,
    utf8_encode q = Raise e -> search_servers q db = Raise e.
Proof.
  intros q e db H. unfold search_servers. cbv zeta.
  rewrite (search_pattern_encode_error q e H). reflexivity.
Qed.

(* ===================================================================== *)
(** * Further properties of the server store *)
(* ===================================================================== *)

Section StoreMore.

Lemma find_app {A} (f : A -> bool) (l l' : list A) :
  find f (l ++ l') = match find f l with Some x => Some x | None => find f l' end.
Proof.
  induction l as [|a l IH]; simpl; [reflexivity|].
  destruct (f a); [reflexivity | exact IH].
Qed.

(** An [UPDATE] that leaves the key columns alone, seen through a
    lookup: the row found is the old one, updated when it was selected. *)
Lemma find_update_where_cond ip0 port0 cond set db :
  (forall r, key (set r) = key r) ->
  find (is_key ip0 port0) (update_where cond set db)
  = option_map (fun r => if cond r then set r else r)
               (find (is_key ip0 port0) db).
Proof.
  intros Hkey. induction db as [|a db IH]; simpl; [reflexivity|].
  assert (Ha : is_key ip0 port0 (if cond a then set a else a)
               = is_key ip0 port0 a).
  { destruct (cond a); [apply is_key_same_key, Hkey | reflexivity]. }
  rewrite Ha. destruct (is_key ip0 port0 a); [reflexivity | exact IH].
Qed.

Lemma in_update_where cond set db r' :
  In r' (update_where cond set db) ->
  exists r, In r db /\ r' = (if cond r then set r else r).
Proof.
  unfold update_where. intros H. apply in_map_iff in H.
  destruct H as [r [Hr Hin]]. exists r. auto.
Qed.

Lemma get_server_key ip0 port0 db r :
  get_server ip0 port0 db = Some r -> In r db /\ key r = (ip0, port0).
Proof.
  unfold get_server. intros H. apply find_some in H.
  destruct H as [Hin Hk]. apply is_key_spec in Hk. auto.
Qed.

Lemma find_filter {A} (f g : A -> bool) (l : list A) :
  (forall x, In x l -> f x = true -> g x = true) ->
  find f (filter g l) = find f l.
Proof.
  induction l as [|a l IH]; simpl; intros H; [reflexivity|].
  destruct (f a) eqn:Hf.
  - rewrite (H a (or_introl eq_refl) Hf). simpl. rewrite Hf. reflexivity.
  - destruct (g a); simpl; [rewrite Hf|]; apply IH; intros x Hx; apply H; now right.
Qed.

Lemma remove_server_none ip0 port0 db :
  get_server ip0 port0 db = None -> remove_server ip0 port0 db = db.
Proof.
  unfold get_server, remove_server. intros Hnone.
  induction db as [|a db IH]; simpl; [reflexivity|].
  simpl in Hnone. destruct (is_key ip0 port0 a); [discriminate|].
  simpl. f_equal. exact (IH Hnone).
Qed.

(** The row a lookup finds after an upsert. *)
Lemma add_server_get new_id now ct ip0 port0 src tr im web db :
  get_server ip0 port0
    (fst (add_server new_id now ct ip0 port0 src tr im web db))
  = Some match get_server ip0 port0 db with
         | Some r => on_conflict now src tr im web r
         | None => mkRow new_id ip0 port0 None None None None None None web
                     src tr im (Some now) None 0 ct
         end.
Proof.
  destruct (get_server ip0 port0 db) as [r|] eqn:Hget.
  - exact (proj1 (add_server_existing new_id now ct ip0 port0 src tr im web
                    db r Hget)).
  - unfold get_server, add_server in *. rewrite Hget. simpl.
    rewrite find_app, Hget. simpl.
    assert (Hk : is_key ip0 port0
                   (mkRow new_id ip0 port0 None None None None None None web
                      src tr im (Some now) None 0 ct) = true)
      by (apply is_key_spec; reflexivity).
    rewrite Hk. reflexivity.
Qed.

(** The row a lookup finds after [set_favorite]. *)
Lemma set_favorite_get ip0 port0 is_favorite db r :
  get_server ip0 port0 db = Some r ->
  get_server ip0 port0 (set_favorite ip0 port0 is_favorite db)
  = Some (mkRow (id r) (ip r) (port r) (name r) (info r) (news r)
            (players r) (max_players r) (icon r) (website r)
            (if is_favorite then lit "favorite"
             else if str_eqb (source r) (lit "favorite") then lit "manual"
                  else source r)
            (trusted r) (important r) (last_seen r) (last_queried r)
            (query_failures r) (added_date r)).
Proof.
  intros Hget.
  pose proof (get_server_key _ _ _ _ Hget) as [_ Hk].
  apply is_key_spec in Hk.
  unfold get_server, set_favorite in *. destruct is_favorite.
  - rewrite find_update_where by reflexivity. rewrite Hget. reflexivity.
  - rewrite find_update_where_cond by reflexivity. rewrite Hget. simpl.
    rewrite Hk. simpl. destruct (str_eqb (source r) (lit "favorite"));
      [reflexivity | destruct r; reflexivity].
Qed.

End StoreMore.

(** X1. After [add_server] a lookup of the key always finds a row: it
    has that key, the id [add_server] returned, the new trusted and
    important flags and the new last_seen. *)
Theorem add_server_then_get :
  forall new_id now ct ip0 port0 src tr im web db,
  exists r',
    get_server ip0 port0
      (fst (add_server new_id now ct ip0 port0 src tr im web db)) = Some r'
    /\ id r' = snd (add_server new_id now ct ip0 port0 src tr im web db)
    /\ key r' = (ip0, port0)
    /\ trusted r' = tr /\ important r' = im /\ last_seen r' = Some now.
Proof.
  intros new_id now ct ip0 port0 src tr im web db.
  destruct (get_server ip0 port0 db) as [r|] eqn:Hget.
  - destruct (add_server_existing new_id now ct ip0 port0 src tr im web db r Hget)
      as [Hfind Hid].
    exists (on_conflict now src tr im web r). rewrite Hid.
    split; [exact Hfind|]. simpl. repeat split.
    exact (proj2 (get_server_key _ _ _ _ Hget)).
  - unfold get_server, add_server in *. rewrite Hget. simpl.
    rewrite find_app, Hget. simpl.
    assert (Hk : is_key ip0 port0
                   (mkRow new_id ip0 port0 None None None None None None web
                      src tr im (Some now) None 0 ct) = true)
      by (apply is_key_spec; reflexivity).
    rewrite Hk. eexists. split; [reflexivity|]. simpl. repeat split.
Qed.

(** X2. On a key with no row, [add_server] returns [new_id] and appends
    one row: the keys of the table grow by that key at the end, and the
    new row carries the given source and website, [current_timestamp]
    as added_date, no failures, and no name, info, news, players,
    max_players, icon or last_queried yet. *)
Theorem add_server_new_row :
  forall new_id now ct ip0 port0 src tr im web db,
    get_server ip0 port0 db = None ->
    snd (add_server new_id now ct ip0 port0 src tr im web db) = new_id
    /\ map key (fst (add_server new_id now ct ip0 port0 src tr im web db))
       = map key db ++ [(ip0, port0)]
    /\ exists r',
        get_server ip0 port0
          (fst (add_server new_id now ct ip0 port0 src tr im web db)) = Some r'
        /\ id r' = new_id /\ source r' = src /\ website r' = web
        /\ added_date r' = ct /\ query_failures r' = 0
        /\ name r' = None /\ info r' = None /\ news r' = None
        /\ players r' = None /\ max_players r' = None /\ icon r' = None
        /\ last_queried r' = None.
Proof.
  intros new_id now ct ip0 port0 src tr im web db Hget.
  unfold get_server, add_server in *. rewrite Hget. simpl.
  split; [reflexivity|]. split; [rewrite map_app; reflexivity|].
  rewrite find_app, Hget. simpl.
  assert (Hk : is_key ip0 port0
                 (mkRow new_id ip0 port0 None None None None None None web
                    src tr im (Some now) None 0 ct) = true)
    by (apply is_key_spec; reflexivity).
  rewrite Hk. eexists. split; [reflexivity|]. simpl. repeat split.
Qed.

Lemma add_server_new_row_witness :
  get_server Examples.ip3 7777 Examples.db0 = None
  /\ snd (add_server 4 200 201 Examples.ip3 7777 (lit "manual") false false
            None Examples.db0) = 4
  /\ map key (fst (add_server 4 200 201 Examples.ip3 7777 (lit "manual")
                     false false None Examples.db0))
     = map key Examples.db0 ++ [(Examples.ip3, 7777)]
  /\ exists r',
      get_server Examples.ip3 7777
        (fst (add_server 4 200 201 Examples.ip3 7777 (lit "manual") false false
                None Examples.db0)) = Some r'
      /\ id r' = 4 /\ source r' = lit "manual" /\ website r' = None
      /\ added_date r' = 201 /\ query_failures r' = 0
      /\ name r' = None /\ info r' = None /\ news r' = None
      /\ players r' = None /\ max_players r' = None /\ icon r' = None
      /\ last_queried r' = None.
Proof.
  split; [reflexivity|].
  apply (add_server_new_row 4 200 201 Examples.ip3 7777 (lit "manual")
           false false None Examples.db0).
  reflexivity.
Defined.

(** X3. [add_server] on one key leaves the lookup of every other key as
    it was. *)
Theorem add_server_keeps_other_keys :
  forall new_id now ct ip0 port0 src tr im web db ip1 port1,
    (ip1, port1) <> (ip0, port0) ->
    get_server ip1 port1
      (fst (add_server new_id now ct ip0 port0 src tr im web db))
    = get_server ip1 port1 db.
Proof.
  intros. now apply add_server_other_rows.
Qed.

Lemma add_server_keeps_other_keys_witness :
  (Examples.ip2, 7777) <> (Examples.ip1, 7777)
  /\ get_server Examples.ip2 7777
       (fst (add_server 4 200 201 Examples.ip1 7777 (lit "dynamic") true true
               None Examples.db0))
     = get_server Examples.ip2 7777 Examples.db0.
Proof.
  assert (H : (Examples.ip2, 7777) <> (Examples.ip1, 7777))
    by (vm_compute; intros E; discriminate E).
  split; [exact H|].
  exact (add_server_keeps_other_keys 4 200 201 Examples.ip1 7777 (lit "dynamic")
           true true None Examples.db0 Examples.ip2 7777 H).
Defined.

(** X4. [remove_server] deletes the key: a lookup of it finds nothing
    afterwards, the lookup of every other key is as before, the rows
    that stay are the rows of the other keys, and on a key with no row
    the table is left as it is. *)
Theorem remove_server_spec :
  forall ip0 port0 db,
    get_server ip0 port0 (remove_server ip0 port0 db) = None
    /\ (forall ip1 port1,
           (ip1, port1) <> (ip0, port0) ->
           get_server ip1 port1 (remove_server ip0 port0 db)
           = get_server ip1 port1 db)
    /\ (forall r, In r (remove_server ip0 port0 db) <->
                  In r db /\ key r <> (ip0, port0))
    /\ (get_server ip0 port0 db = None -> remove_server ip0 port0 db = db).
Proof.
  intros ip0 port0 db. unfold get_server, remove_server.
  split; [|split; [|split]].
  - induction db as [|a db IH]; simpl; [reflexivity|].
    destruct (is_key ip0 port0 a) eqn:Ha; simpl; [exact IH|].
    rewrite Ha. exact IH.
  - intros ip1 port1 Hne. induction db as [|a db IH]; simpl; [reflexivity|].
    destruct (is_key ip0 port0 a) eqn:Ha; simpl.
    + destruct (is_key ip1 port1 a) eqn:Hb; [|exact IH].
      apply is_key_spec in Ha. apply is_key_spec in Hb. congruence.
    + destruct (is_key ip1 port1 a); [reflexivity | exact IH].
  - intros r. rewrite filter_In, negb_true_iff.
    rewrite <- is_key_spec. destruct (is_key ip0 port0 r); intuition congruence.
  - apply remove_server_none.
Qed.

Lemma remove_server_spec_witness :
  get_server Examples.ip3 7777 Examples.db0 = None
  /\ remove_server Examples.ip3 7777 Examples.db0 = Examples.db0.
Proof.
  split; [reflexivity|].
  apply (remove_server_spec Examples.ip3 7777 Examples.db0). reflexivity.
Defined.

(** X5. Adding a server on a free key and removing it again gives the
    table back. *)
Theorem add_then_remove :
  forall new_id now ct ip0 port0 src tr im web db,
    get_server ip0 port0 db = None ->
    remove_server ip0 port0
      (fst (add_server new_id now ct ip0 port0 src tr im web db)) = db.
Proof.
  intros new_id now ct ip0 port0 src tr im web db Hget.
  pose proof (remove_server_none ip0 port0 db Hget) as Hnoop.
  unfold get_server, add_server in *. rewrite Hget. simpl.
  unfold remove_server in *. rewrite filter_app, Hnoop. simpl.
  assert (Hk : is_key ip0 port0
                 (mkRow new_id ip0 port0 None None None None None None web
                    src tr im (Some now) None 0 ct) = true)
    by (apply is_key_spec; reflexivity).
  rewrite Hk. simpl. apply app_nil_r.
Qed.

Lemma add_then_remove_witness :
  get_server Examples.ip3 7777 Examples.db0 = None
  /\ remove_server Examples.ip3 7777
       (fst (add_server 4 200 201 Examples.ip3 7777 (lit "manual") false false
               None Examples.db0)) = Examples.db0.
Proof.
  split; [reflexivity|].
  apply (add_then_remove 4 200 201 Examples.ip3 7777 (lit "manual") false false
           None Examples.db0).
  reflexivity.
Defined.

(** X6. [set_favorite] changes nothing but the source of the row: with
    [true] the source becomes 'favorite'; with [false] a 'favorite'
    becomes 'manual' (whatever it was before it became a favorite) and
    any other source stays. *)
Theorem set_favorite_spec :
  forall ip0 port0 is_favorite db r,
    get_server ip0 port0 db = Some r ->
    get_server ip0 port0 (set_favorite ip0 port0 is_favorite db)
    = Some (mkRow (id r) (ip r) (port r) (name r) (info r) (news r)
              (players r) (max_players r) (icon r) (website r)
              (if is_favorite then lit "favorite"
               else if str_eqb (source r) (lit "favorite") then lit "manual"
                    else source r)
              (trusted r) (important r) (last_seen r) (last_queried r)
              (query_failures r) (added_date r)).
Proof. intros. now apply set_favorite_get. Qed.

Lemma set_favorite_spec_witness :
  get_server Examples.ip1 7777 Examples.db0 = Some Examples.fav_row
  /\ option_map source
       (get_server Examples.ip1 7777
          (set_favorite Examples.ip1 7777 false Examples.db0))
     = Some (lit "manual").
Proof.
  split; [reflexivity|].
  rewrite (set_favorite_spec Examples.ip1 7777 false Examples.db0
             Examples.fav_row); reflexivity.
Defined.

(** X7. Marking a row as favorite and taking the mark back does not
    give the old source back in general: the row ends as 'manual'
    whatever its source was. *)
Theorem favorite_round_trip_is_manual :
  forall ip0 port0 db r,
    get_server ip0 port0 db = Some r ->
    option_map source
      (get_server ip0 port0
         (set_favorite ip0 port0 false (set_favorite ip0 port0 true db)))
    = Some (lit "manual").
Proof.
  intros ip0 port0 db r Hget.
  pose proof (set_favorite_get ip0 port0 true db r Hget) as H1.
  rewrite (set_favorite_get ip0 port0 false _ _ H1). reflexivity.
Qed.

Lemma favorite_round_trip_is_manual_witness :
  get_server Examples.ip2 7777 Examples.db0 = Some Examples.dyn_row
  /\ source Examples.dyn_row = lit "dynamic"
  /\ option_map source
       (get_server Examples.ip2 7777
          (set_favorite Examples.ip2 7777 false
             (set_favorite Examples.ip2 7777 true Examples.db0)))
     = Some (lit "manual").
Proof.
  split; [reflexivity|]. split; [reflexivity|].
  apply (favorite_round_trip_is_manual Examples.ip2 7777 Examples.db0
           Examples.dyn_row).
  reflexivity.
Defined.

(** X8. A key that was marked as favorite is never deleted by the
    cleanup that follows, whatever the threshold and the failures. *)
Theorem favorite_survives_cleanup :
  forall max_failures ip0 port0 db,
    ~ In (ip0, port0)
        (snd (cleanup_failed_servers max_failures
                (set_favorite ip0 port0 true db)))
    /\ forall r, get_server ip0 port0 db = Some r ->
         exists r',
           get_server ip0 port0
             (fst (cleanup_failed_servers max_failures
                     (set_favorite ip0 port0 true db))) = Some r'
           /\ source r' = lit "favorite".
Proof.
  intros max_failures ip0 port0 db.
  assert (Hfav : forall r', In r' (set_favorite ip0 port0 true db) ->
                            key r' = (ip0, port0) ->
                            is_failed max_failures r' = false).
  { intros r' Hin Hk. unfold set_favorite in Hin.
    apply in_update_where in Hin. destruct Hin as [r0 [Hr0 ->]].
    destruct (is_key ip0 port0 r0) eqn:Hk0; [reflexivity|].
    apply is_key_spec in Hk. congruence. }
  split.
  - simpl. intros Hin. apply in_map_iff in Hin.
    destruct Hin as [r' [Hk Hr']]. apply filter_In in Hr'.
    destruct Hr' as [Hin Hf]. rewrite (Hfav r' Hin Hk) in Hf. discriminate.
  - intros r Hget. pose proof (set_favorite_get ip0 port0 true db r Hget) as H1.
    eexists. split.
    + simpl. unfold get_server in *. rewrite find_filter; [exact H1|].
      intros x Hx Hk. apply is_key_spec in Hk. rewrite (Hfav x Hx Hk).
      reflexivity.
    + reflexivity.
Qed.

(** X9. A second cleanup with the same threshold deletes nothing. *)
Theorem cleanup_twice :
  forall max_failures db,
    cleanup_failed_servers max_failures
      (fst (cleanup_failed_servers max_failures db))
    = (fst (cleanup_failed_servers max_failures db), []).
Proof.
  intros max_failures db. unfold cleanup_failed_servers. simpl. f_equal.
  - induction db as [|a db IH]; simpl; [reflexivity|].
    destruct (is_failed max_failures a) eqn:Ha; simpl; [exact IH|].
    rewrite Ha. simpl. f_equal. exact IH.
  - induction db as [|a db IH]; simpl; [reflexivity|].
    destruct (is_failed max_failures a) eqn:Ha; simpl; [exact IH|].
    rewrite Ha. exact IH.
Qed.

(** X10. After a successful update a cleanup with a positive threshold
    does not delete the key: its failures are back at 0. *)
Theorem update_survives_cleanup :
  forall now max_failures ip0 port0 server_info db,
    0 < max_failures ->
    ~ In (ip0, port0)
        (snd (cleanup_failed_servers max_failures
                (update_server_info now ip0 port0 server_info db))).
Proof.
  intros now max_failures ip0 port0 server_info db Hpos. simpl.
  intros Hin. apply in_map_iff in Hin. destruct Hin as [r' [Hk Hr']].
  apply filter_In in Hr'. destruct Hr' as [Hin Hf].
  unfold update_server_info in Hin. apply in_update_where in Hin.
  destruct Hin as [r0 [Hr0 ->]].
  destruct (is_key ip0 port0 r0) eqn:Hk0.
  - unfold is_failed in Hf. simpl in Hf. apply andb_true_iff in Hf.
    destruct Hf as [_ Hf]. apply Z.leb_le in Hf. lia.
  - apply is_key_spec in Hk. congruence.
Qed.

Lemma update_survives_cleanup_witness :
  0 < 5
  /\ ~ In (Examples.ip2, 7777)
         (snd (cleanup_failed_servers 5
                 (update_server_info 300 Examples.ip2 7777 Examples.snapshot
                    Examples.db0))).
Proof.
  assert (H : 0 < 5) by reflexivity.
  split; [exact H|].
  exact (update_survives_cleanup 300 5 Examples.ip2 7777 Examples.snapshot
           Examples.db0 H).
Defined.

(** ** The order of the listings *)

Section ListingOrder.

Lemma listing_before_total a b :
  listing_before a b = false -> listing_before b a = true.
Proof.
  unfold listing_before, Sql.desc_ge.
  destruct (important a), (important b), (trusted a), (trusted b),
    (players a), (players b); simpl; intros H; try congruence;
    rewrite ?Z.leb_le, ?Z.leb_gt in *; lia.
Qed.

Lemma listing_before_trans a b c :
  listing_before a b = true -> listing_before b c = true ->
  listing_before a c = true.
Proof.
  unfold listing_before, Sql.desc_ge.
  destruct (important a), (important b), (important c),
    (trusted a), (trusted b), (trusted c),
    (players a), (players b), (players c); simpl; intros H1 H2;
    try congruence; rewrite ?Z.leb_le in *; lia.
Qed.

Lemma insert_sorted {A} (before : A -> A -> bool) x l :
  (forall a b, before a b = false -> before b a = true) ->
  (forall a b c, before a b = true -> before b c = true -> before a c = true) ->
  StronglySorted (fun a b => before a b = true) l ->
  StronglySorted (fun a b => before a b = true) (Sql.insert before x l).
Proof.
  intros Htot Htrans Hs. induction Hs as [|y l Hs IH Hy]; simpl.
  - constructor; constructor.
  - destruct (before x y) eqn:Hxy.
    + constructor; [now constructor|].
      constructor; [exact Hxy|].
      rewrite Forall_forall in *. intros z Hz. eapply Htrans; eauto.
    + constructor; [exact IH|].
      rewrite Forall_forall in *. intros z Hz.
      apply (Permutation_in _ (insert_perm before x l)) in Hz.
      destruct Hz as [<- | Hz]; [now apply Htot | now apply Hy].
Qed.

Lemma order_by_sorted {A} (before : A -> A -> bool) l :
  (forall a b, before a b = false -> before b a = true) ->
  (forall a b c, before a b = true -> before b c = true -> before a c = true) ->
  StronglySorted (fun a b => before a b = true) (Sql.order_by before l).
Proof.
  intros Htot Htrans. induction l as [|x l IH]; simpl.
  - constructor.
  - now apply insert_sorted.
Qed.

Lemma sorted_pair {A} (R : A -> A -> Prop) l1 a l2 b l3 :
  StronglySorted R (l1 ++ a :: l2 ++ b :: l3) -> R a b.
Proof.
  induction l1 as [|x l1 IH]; simpl; intros Hs.
  - inversion Hs as [|? ? _ Hall]; subst.
    rewrite Forall_forall in Hall. apply Hall. apply in_elt.
  - inversion Hs; subst. now apply IH.
Qed.

Lemma filter_all {A} (f : A -> bool) l :
  (forall x, In x l -> f x = true) -> filter f l = l.
Proof.
  induction l as [|a l IH]; simpl; intros H; [reflexivity|].
  rewrite (H a (or_introl eq_refl)). f_equal. apply IH. intros x Hx.
  apply H. now right.
Qed.

End ListingOrder.

(** X11. [get_all_servers] returns the rows of the table, those of the
    given source when a non-empty source is given (an empty one counts
    as none), each as often as the table holds it: the result is a
    rearrangement of the selected rows. It is ordered as the listing
    says: of two rows of the result the earlier one ranks before the
    later one, and so an important row never comes after one that is
    not. *)
Theorem get_all_servers_listing :
  forall source_filter db,
    let out := get_all_servers source_filter db in
    (forall r, In r out <->
               In r db /\ match source_filter with
                          | Some (c :: f) => source r = c :: f
                          | _ => True
                          end)
    /\ StronglySorted (fun a b => listing_before a b = true) out
    /\ (forall l1 a l2 b l3,
           out = l1 ++ a :: l2 ++ b :: l3 ->
           important b = true -> important a = true)
    /\ Permutation out
         match source_filter with
         | Some (c :: f) => filter (fun r => str_eqb (source r) (c :: f)) db
         | _ => db
         end.
Proof.
  intros source_filter db out.
  assert (Hsorted : StronglySorted (fun a b => listing_before a b = true) out).
  { subst out. unfold get_all_servers.
    destruct source_filter as [[|c f]|];
      (apply order_by_sorted;
       [exact listing_before_total | exact listing_before_trans]). }
  split; [|split; [exact Hsorted|split]];
    [| |subst out; unfold get_all_servers;
        destruct source_filter as [[|c f]|]; apply order_by_perm].
  - intros r. subst out. unfold get_all_servers.
    destruct source_filter as [[|c f]|].
    + split; [intros H; split; [|exact I] | intros [H _]].
      * exact (Permutation_in _ (order_by_perm _ _) H).
      * exact (Permutation_in _ (Permutation_sym (order_by_perm _ _)) H).
    + rewrite <- str_eqb_eq,
        <- (filter_In (fun r => str_eqb (source r) (c :: f))).
      split; intros H.
      * exact (Permutation_in _ (order_by_perm _ _) H).
      * exact (Permutation_in _ (Permutation_sym (order_by_perm _ _)) H).
    + split; [intros H; split; [|exact I] | intros [H _]].
      * exact (Permutation_in _ (order_by_perm _ _) H).
      * exact (Permutation_in _ (Permutation_sym (order_by_perm _ _)) H).
  - intros l1 a l2 b l3 Hout Hb. rewrite Hout in Hsorted.
    apply sorted_pair in Hsorted. unfold listing_before in Hsorted.
    rewrite Hb in Hsorted. destruct (important a); [reflexivity|].
    simpl in Hsorted. discriminate.
Qed.

Lemma get_all_servers_listing_example :
  get_all_servers None Examples.db0
  = [Examples.man_row; Examples.fav_row; Examples.dyn_row]
  /\ get_all_servers (Some (lit "dynamic")) Examples.db0 = [Examples.dyn_row]
  /\ get_all_servers (Some []) Examples.db0 = get_all_servers None Examples.db0.
Proof. repeat split. Qed.

(** X12. The search for the empty string finds every row: it is the
    full listing. *)
Theorem search_servers_empty_query :
  forall db, search_servers [] db = Ok (get_all_servers None db).
Proof.
  intros db. unfold search_servers, get_all_servers. cbv zeta.
  rewrite (search_pattern_encode [] [] eq_refl). cbn [bind].
  rewrite (select_where_ok _ (fun _ => true)).
  - cbn [bind]. do 2 f_equal. apply filter_all. reflexivity.
  - intros r.
    assert (Hlen : Z.of_nat (length (@nil byte)) + 2 <= Sql.LIKE_PATTERN_LENGTH)
      by (vm_compute; discriminate).
    rewrite (search_matches_spec [] [] r (Forall_nil _) (fun H => H)
               eq_refl Hlen).
    f_equal. unfold Substring.contains_nocase.
    destruct (Sql.c_text (ip r));
      cbn [Substring.contains_by Substring.starts_with]; apply orb_true_r.
Qed.

(** X13. Under the key constraint of the table, the lookup by the key of
    a stored row finds that very row. *)
Theorem lookup_finds_stored_row :
  forall db r,
    unique_keys db -> In r db -> get_server (ip r) (port r) db = Some r.
Proof. intros db r. apply get_server_of_row. Qed.

(** X14. Every operation of the store keeps the key constraint: no
    sequence of them leaves two rows with the same (ip, port). *)
Theorem store_keeps_unique_keys :
  forall new_id now ct ip0 port0 src tr im web server_info fav n db,
    unique_keys db ->
    unique_keys (fst (add_server new_id now ct ip0 port0 src tr im web db))
    /\ unique_keys (update_server_info now ip0 port0 server_info db)
    /\ unique_keys (mark_query_failure now ip0 port0 db)
    /\ unique_keys (set_favorite ip0 port0 fav db)
    /\ unique_keys (remove_server ip0 port0 db)
    /\ unique_keys (fst (cleanup_failed_servers n db)).
Proof. intros. now apply unique_keys_preserved. Qed.

Lemma favorite_survives_cleanup_witness :
  get_server Examples.ip2 7777 Examples.db0 = Some Examples.dyn_row
  /\ exists r',
      get_server Examples.ip2 7777
        (fst (cleanup_failed_servers 5
                (set_favorite Examples.ip2 7777 true Examples.db0))) = Some r'
      /\ source r' = lit "favorite".
Proof.
  split; [reflexivity|].
  exact (proj2 (favorite_survives_cleanup 5 Examples.ip2 7777 Examples.db0)
           Examples.dyn_row eq_refl).
Defined.

Lemma lookup_finds_stored_row_witness :
  unique_keys Examples.db0
  /\ In Examples.dyn_row Examples.db0
  /\ get_server (ip Examples.dyn_row) (port Examples.dyn_row) Examples.db0
     = Some Examples.dyn_row.
Proof.
  assert (Hu : unique_keys Examples.db0).
  { unfold unique_keys. vm_compute.
    repeat (constructor;
            [simpl; intros H; repeat (destruct H as [H|H]; [discriminate H|]);
             exact H|]).
    constructor. }
  assert (Hin : In Examples.dyn_row Examples.db0) by (right; left; reflexivity).
  split; [exact Hu|]. split; [exact Hin|].
  exact (lookup_finds_stored_row Examples.db0 Examples.dyn_row Hu Hin).
Defined.

Lemma store_keeps_unique_keys_witness :
  unique_keys Examples.db0
  /\ unique_keys (fst (add_server 4 200 201 Examples.ip3 7777 (lit "manual")
                         false false None Examples.db0))
  /\ unique_keys (update_server_info 200 Examples.ip3 7777 Examples.snapshot
                    Examples.db0)
  /\ unique_keys (mark_query_failure 200 Examples.ip3 7777 Examples.db0)
  /\ unique_keys (set_favorite Examples.ip3 7777 true Examples.db0)
  /\ unique_keys (remove_server Examples.ip3 7777 Examples.db0)
  /\ unique_keys (fst (cleanup_failed_servers 5 Examples.db0)).
Proof.
  assert (Hu : unique_keys Examples.db0).
  { unfold unique_keys. vm_compute.
    repeat (constructor;
            [simpl; intros H; repeat (destruct H as [H|H]; [discriminate H|]);
             exact H|]).
    constructor. }
  split; [exact Hu|].
  exact (store_keeps_unique_keys 4 200 201 Examples.ip3 7777 (lit "manual")
           false false None Examples.snapshot true 5 Examples.db0 Hu).
Defined.

(** X15. A 'dynamic' row whose failures are not negative and that is
    marked as failed [n] times in a row is deleted by the cleanup with
    threshold [n]: its key is among those the cleanup returns. *)
Theorem dynamic_row_evicted_after_failures :
  forall (times : list timestamp) ip0 port0 db r,
    get_server ip0 port0 db = Some r ->
    source r = lit "dynamic" ->
    0 <= query_failures r ->
    In (ip0, port0)
       (snd (cleanup_failed_servers (Z.of_nat (length times))
               (fold_left (fun d t => mark_query_failure t ip0 port0 d)
                  times db))).
Proof. intros. now apply (failures_then_cleanup times ip0 port0 db r). Qed.

Lemma dynamic_row_evicted_after_failures_witness :
  get_server Examples.ip2 7777 Examples.db0 = Some Examples.dyn_row
  /\ source Examples.dyn_row = lit "dynamic"
  /\ 0 <= query_failures Examples.dyn_row
  /\ In (Examples.ip2, 7777)
        (snd (cleanup_failed_servers (Z.of_nat (length [301; 302; 303]))
                (fold_left
                   (fun d t => mark_query_failure t Examples.ip2 7777 d)
                   [301; 302; 303] Examples.db0))).
Proof.
  assert (H : 0 <= query_failures Examples.dyn_row)
    by (vm_compute; intros E; discriminate E).
  split; [reflexivity|]. split; [reflexivity|]. split; [exact H|].
  exact (dynamic_row_evicted_after_failures [301; 302; 303] Examples.ip2 7777
           Examples.db0 Examples.dyn_row eq_refl eq_refl H).
Defined.

(* ===================================================================== *)
(** * Further properties of the validation service *)
(* ===================================================================== *)

(** X16. When the query succeeds, [validate_and_add_server] returns true
    and raises the validated event; the key is then stored with the
    snapshot's fields, no failures, the given trusted and important
    flags, and as 'dynamic' unless it was a favorite, which it stays;
    every other key reads as before. *)
Theorem validate_success_store :
  forall query_function new_id now1 now2 ct ip0 port0 tr im web timeout db si,
    query_function ip0 port0 timeout = Ok si ->
    let out :=
      DynamicServerLoader.validate_and_add_server query_function new_id
        now1 now2 ct ip0 port0 tr im web timeout db in
    snd out = true
    /\ snd (fst out) = [DynamicServerLoader.on_server_validated ip0 port0 si]
    /\ (exists r',
           get_server ip0 port0 (fst (fst out)) = Some r'
           /\ query_failures r' = 0
           /\ name r' = ServerInfo.name si /\ info r' = ServerInfo.info si
           /\ news r' = ServerInfo.news si
           /\ players r' = ServerInfo.players si
           /\ max_players r' = ServerInfo.max_players si
           /\ icon r' = ServerInfo.icon si
           /\ trusted r' = tr /\ important r' = im
           /\ last_seen r' = Some now1 /\ last_queried r' = Some now2
           /\ source r' = match get_server ip0 port0 db with
                          | Some r =>
                            if str_eqb (source r) (lit "favorite")
                            then lit "favorite" else lit "dynamic"
                          | None => lit "dynamic"
                          end)
    /\ (forall ip1 port1,
           (ip1, port1) <> (ip0, port0) ->
           get_server ip1 port1 (fst (fst out)) = get_server ip1 port1 db).
Proof.
  intros query_function new_id now1 now2 ct ip0 port0 tr im web timeout db si Hq.
  unfold DynamicServerLoader.validate_and_add_server. rewrite Hq.
  pose proof (add_server_get new_id now1 ct ip0 port0 (lit "dynamic") tr im web db)
    as Hadd.
  pose proof (add_server_other_rows new_id now1 ct ip0 port0 (lit "dynamic")
                tr im web db) as Hother.
  destruct (add_server new_id now1 ct ip0 port0 (lit "dynamic") tr im web db)
    as [db1 server_id].
  cbn [fst snd] in *. split; [reflexivity|]. split; [reflexivity|]. split.
  - unfold get_server, update_server_info in *.
    rewrite find_update_where by reflexivity. rewrite Hadd. cbn [option_map].
    eexists. split; [reflexivity|].
    destruct (find (is_key ip0 port0) db) as [r|]; cbn;
      repeat match goal with |- _ /\ _ => split; [reflexivity|] end;
      [|reflexivity].
    unfold merge_source.
    change (str_eqb (lit "dynamic") (lit "favorite")) with false. cbv iota.
    reflexivity.
  - intros ip1 port1 Hne. unfold get_server, update_server_info in *.
    rewrite find_update_where_other by (reflexivity || assumption).
    now apply Hother.
Qed.

Lemma validate_success_store_witness :
  Examples.only_ip1 Examples.ip1 7777 3 = Ok Examples.snapshot
  /\ let out :=
       DynamicServerLoader.validate_and_add_server Examples.only_ip1 4
         300 301 300 Examples.ip1 7777 false false None 3 Examples.db0 in
     snd out = true
     /\ option_map source (get_server Examples.ip1 7777 (fst (fst out)))
        = Some (lit "favorite")
     /\ option_map query_failures (get_server Examples.ip1 7777 (fst (fst out)))
        = Some 0.
Proof.
  split; [reflexivity|].
  destruct (validate_success_store Examples.only_ip1 4 300 301 300
              Examples.ip1 7777 false false None 3 Examples.db0
              Examples.snapshot eq_refl)
    as (Hret & _ & (r' & Hget & Hq & _) & _).
  cbv zeta. split; [exact Hret|]. split; reflexivity.
Defined.

Section RevalidateFacts.
Variable query_function : str -> Z -> Z -> result ServerInfo.t.
Variable clock : nat -> timestamp.
Variable timeout : Z.

(** What one visit of the loop does to the row it visits. *)
#[warnings="-notation-for-abbreviation"]
Local Notation visit now r :=
  (match query_function (ip r) (port r) timeout with
   | Ok si =>
     mkRow (id r) (ip r) (port r)
           (ServerInfo.name si) (ServerInfo.info si) (ServerInfo.news si)
           (ServerInfo.players si) (ServerInfo.max_players si)
           (ServerInfo.icon si) (website r) (source r) (trusted r)
           (important r) (last_seen r) (Some now) 0 (added_date r)
   | Raise _ =>
     mkRow (id r) (ip r) (port r) (name r) (info r) (news r) (players r)
           (max_players r) (icon r) (website r) (source r) (trusted r)
           (important r) (last_seen r) (Some now) (query_failures r + 1)
           (added_date r)
   end) (only parsing).

#[warnings="-notation-for-abbreviation"]
Local Notation succeeds :=
  (fun r : Row => is_ok (query_function (ip r) (port r) timeout)) (only parsing).

Lemma revalidate_loop_keys servers : forall k db s f,
  map key (fst (DynamicServerLoader.revalidate_loop query_function clock
                  timeout k servers db s f)) = map key db.
Proof.
  induction servers as [|x servers IH]; intros k db s f; simpl; [reflexivity|].
  destruct (query_function (ip x) (port x) timeout); rewrite IH;
    apply map_key_update_where; reflexivity.
Qed.

Lemma revalidate_loop_counts servers : forall k db s f,
  snd (DynamicServerLoader.revalidate_loop query_function clock timeout
         k servers db s f)
  = (s + Z.of_nat (length (filter succeeds servers)),
     f + Z.of_nat (length (filter (fun r => negb (succeeds r)) servers))).
Proof.
  induction servers as [|x servers IH]; intros k db s f.
  - simpl. f_equal; lia.
  - cbn [DynamicServerLoader.revalidate_loop filter].
    destruct (query_function (ip x) (port x) timeout); rewrite IH;
      cbn [is_ok negb length]; f_equal; lia.
Qed.

(** The table the loop leaves does not depend on the counters. *)
Lemma revalidate_loop_table servers : forall k db s1 f1 s2 f2,
  fst (DynamicServerLoader.revalidate_loop query_function clock timeout
         k servers db s1 f1)
  = fst (DynamicServerLoader.revalidate_loop query_function clock timeout
           k servers db s2 f2).
Proof.
  induction servers as [|y servers IH]; intros k db s1 f1 s2 f2; simpl;
    [reflexivity|].
  destruct (query_function (ip y) (port y) timeout); apply IH.
Qed.

(** The loop and the lookups: a key the loop does not visit reads as
    before, a key it visits (once) reads as the visited row. *)
Lemma revalidate_loop_get servers : forall k db s f ip0 port0,
  NoDup (map key servers) ->
  let db' := fst (DynamicServerLoader.revalidate_loop query_function clock
                    timeout k servers db s f) in
  (~ In (ip0, port0) (map key servers) ->
   get_server ip0 port0 db' = get_server ip0 port0 db)
  /\ (In (ip0, port0) (map key servers) ->
      exists j, get_server ip0 port0 db'
                = option_map (fun r => visit (clock j) r) (get_server ip0 port0 db)).
Proof.
  induction servers as [|x servers IH]; intros k db s f ip0 port0 Hnd db'.
  - simpl in *. split; [reflexivity | contradiction].
  - inversion Hnd as [|? ? Hx Hnd']; subst.
    subst db'. cbn [DynamicServerLoader.revalidate_loop map In].
    set (db1 := match query_function (ip x) (port x) timeout with
                | Ok si => update_server_info (clock k) (ip x) (port x) si db
                | Raise _ => mark_query_failure (clock k) (ip x) (port x) db
                end).
    assert (Hstep :
              fst (match query_function (ip x) (port x) timeout with
                   | Ok server_info =>
                     DynamicServerLoader.revalidate_loop query_function clock
                       timeout (S k) servers
                       (update_server_info (clock k) (ip x) (port x)
                          server_info db) (s + 1) f
                   | Raise _ =>
                     DynamicServerLoader.revalidate_loop query_function clock
                       timeout (S k) servers
                       (mark_query_failure (clock k) (ip x) (port x) db)
                       s (f + 1)
                   end)
              = fst (DynamicServerLoader.revalidate_loop query_function clock
                       timeout (S k) servers db1 s f)).
    { subst db1. destruct (query_function (ip x) (port x) timeout);
        apply revalidate_loop_table. }
    rewrite Hstep.
    destruct (IH (S k) db1 s f ip0 port0 Hnd') as [IHout IHin].
    assert (Hsame : key x = (ip0, port0) ->
                    get_server ip0 port0 db1
                    = option_map (fun r => visit (clock k) r) (get_server ip0 port0 db)).
    { intros Hk. unfold key in Hk. inversion Hk; subst.
      unfold get_server, db1, update_server_info, mark_query_failure.
      destruct (query_function (ip x) (port x) timeout) as [si|e] eqn:Hq;
        rewrite find_update_where by reflexivity;
        destruct (find (is_key (ip x) (port x)) db) as [r|] eqn:Hf;
        try reflexivity; cbn [option_map]; f_equal;
        apply find_some in Hf; destruct Hf as [_ Hk'];
        apply is_key_spec in Hk'; unfold key in Hk'; inversion Hk' as [[Hi Hp]];
        rewrite Hi, Hp, Hq; reflexivity. }
    assert (Hdiff : key x <> (ip0, port0) ->
                    get_server ip0 port0 db1 = get_server ip0 port0 db).
    { intros Hk. unfold get_server, db1, update_server_info, mark_query_failure.
      destruct (query_function (ip x) (port x) timeout);
        apply find_update_where_other; try reflexivity;
        unfold key in Hk; congruence. }
    split.
    + intros Hnot. rewrite IHout by tauto. apply Hdiff. tauto.
    + intros [Hk | Hin].
      * exists k. rewrite IHout by (rewrite <- Hk; exact Hx). now apply Hsame.
      * destruct (IHin Hin) as [j Hj]. exists j. rewrite Hj.
        rewrite Hdiff; [reflexivity|]. intros Hk. apply Hx. rewrite Hk. exact Hin.
Qed.

Lemma filter_length_perm {A} (f : A -> bool) l l' :
  Permutation l l' -> length (filter f l) = length (filter f l').
Proof.
  induction 1; simpl; try congruence.
  - destruct (f x); simpl; congruence.
  - destruct (f x), (f y); reflexivity.
Qed.

Lemma filter_length_split {A} (f : A -> bool) l :
  (length (filter f l) + length (filter (fun x => negb (f x)) l))%nat = length l.
Proof.
  induction l as [|a l IH]; simpl; [reflexivity|].
  destruct (f a); simpl; lia.
Qed.

(** X17. [revalidate_all_servers] adds no row and deletes none; the
    first count it returns is the number of rows whose query succeeded,
    and the two counts add up to the number of rows. *)
Theorem revalidate_all_counts :
  forall db,
    let out :=
      DynamicServerLoader.revalidate_all_servers query_function clock timeout db in
    map key (fst out) = map key db
    /\ fst (snd out)
       = Z.of_nat (length (filter
                             (fun r => is_ok (query_function (ip r) (port r)
                                                timeout)) db))
    /\ fst (snd out) + snd (snd out) = Z.of_nat (length db).
Proof.
  intros db out. subst out. unfold DynamicServerLoader.revalidate_all_servers.
  rewrite revalidate_loop_keys, revalidate_loop_counts. cbn [fst snd].
  set (servers := get_all_servers None db).
  assert (Hperm : Permutation servers db) by apply order_by_perm.
  split; [reflexivity|]. split.
  - rewrite (filter_length_perm _ _ _ Hperm). lia.
  - pose proof (filter_length_split succeeds servers) as Hsplit.
    rewrite (Permutation_length Hperm) in Hsplit. cbv beta in Hsplit. lia.
Qed.

(** X18. Under the key constraint, [revalidate_all_servers] visits every
    stored row once: afterwards the row holds the snapshot and no
    failures when its query succeeded, and one failure more when it
    failed, with last_queried refreshed; everything else of the row is
    as before. *)
Theorem revalidate_all_rows :
  forall db r,
    unique_keys db -> In r db ->
    exists j,
      get_server (ip r) (port r)
        (fst (DynamicServerLoader.revalidate_all_servers query_function clock
                timeout db))
      = Some
          match query_function (ip r) (port r) timeout with
          | Ok si =>
            mkRow (id r) (ip r) (port r)
                  (ServerInfo.name si) (ServerInfo.info si) (ServerInfo.news si)
                  (ServerInfo.players si) (ServerInfo.max_players si)
                  (ServerInfo.icon si) (website r) (source r) (trusted r)
                  (important r) (last_seen r) (Some (clock j)) 0 (added_date r)
          | Raise _ =>
            mkRow (id r) (ip r) (port r) (name r) (info r) (news r) (players r)
                  (max_players r) (icon r) (website r) (source r) (trusted r)
                  (important r) (last_seen r) (Some (clock j))
                  (query_failures r + 1) (added_date r)
          end.
Proof.
  intros db r Hu Hin. unfold DynamicServerLoader.revalidate_all_servers.
  set (servers := get_all_servers None db).
  assert (Hperm : Permutation servers db) by apply order_by_perm.
  assert (Hnd : NoDup (map key servers)).
  { apply (Permutation_NoDup (l := map key db)); [|exact Hu].
    apply Permutation_map, Permutation_sym, Hperm. }
  assert (Hk : In (ip r, port r) (map key servers)).
  { apply in_map_iff. exists r. split; [reflexivity|].
    exact (Permutation_in _ (Permutation_sym Hperm) Hin). }
  destruct (revalidate_loop_get servers 0 db 0 0 (ip r) (port r) Hnd)
    as [_ Hvisit].
  destruct (Hvisit Hk) as [j Hj]. exists j. rewrite Hj.
  rewrite (get_server_of_row db r Hu Hin). reflexivity.
Qed.

End RevalidateFacts.

Lemma revalidate_all_example :
  snd (DynamicServerLoader.revalidate_all_servers Examples.only_ip1
         Examples.clock 3 Examples.db0) = (1, 2)
  /\ map query_failures
       (fst (DynamicServerLoader.revalidate_all_servers Examples.only_ip1
               Examples.clock 3 Examples.db0)) = [0; 6; 10].
Proof. split; reflexivity. Qed.

Lemma revalidate_all_rows_witness :
  unique_keys Examples.db0
  /\ In Examples.dyn_row Examples.db0
  /\ exists j,
      option_map query_failures
        (get_server (ip Examples.dyn_row) (port Examples.dyn_row)
           (fst (DynamicServerLoader.revalidate_all_servers Examples.only_ip1
                   Examples.clock 3 Examples.db0)))
      = Some 6
      /\ option_map last_queried
           (get_server (ip Examples.dyn_row) (port Examples.dyn_row)
              (fst (DynamicServerLoader.revalidate_all_servers
                      Examples.only_ip1 Examples.clock 3 Examples.db0)))
         = Some (Some (Examples.clock j)).
Proof.
  assert (Hu : unique_keys Examples.db0).
  { unfold unique_keys. vm_compute.
    repeat (constructor;
            [simpl; intros H; repeat (destruct H as [H|H]; [discriminate H|]);
             exact H|]).
    constructor. }
  assert (Hin : In Examples.dyn_row Examples.db0) by (right; left; reflexivity).
  split; [exact Hu|]. split; [exact Hin|].
  destruct (revalidate_all_rows Examples.only_ip1 Examples.clock 3
              Examples.db0 Examples.dyn_row Hu Hin) as [j Hj].
  exists j. rewrite Hj. split; reflexivity.
Defined.

(* ===================================================================== *)
(** * Properties of the manager *)
(* ===================================================================== *)

(** X19. [add_manual_server] returns false exactly when it was asked to
    validate and the query failed, and then the table is left as it was
    (a stored row gets no failure mark); when it returns true the key is
    stored with trusted and important cleared and last_seen refreshed,
    as 'manual' unless it was a favorite, which it stays, and when the
    server was queried the row holds the snapshot with no failures. *)
Theorem add_manual_server_outcome :
  forall create_connection wrap_socket new_id now1 now2 ct ip0 port0 web
         validate timeout db,
    let out :=
      DSSBManager.add_manual_server create_connection wrap_socket new_id
        now1 now2 ct ip0 port0 web validate timeout db in
    let queried :=
      DSSBManager.query_dss create_connection wrap_socket ip0 port0 timeout in
    (snd out = false <-> validate = true /\ is_ok queried = false)
    /\ (snd out = false -> fst out = (db, []))
    /\ (snd out = true ->
        exists r',
          get_server ip0 port0 (fst (fst out)) = Some r'
          /\ trusted r' = false /\ important r' = false
          /\ last_seen r' = Some now1
          /\ source r' = match get_server ip0 port0 db with
                         | Some r =>
                           if str_eqb (source r) (lit "favorite")
                           then lit "favorite" else lit "manual"
                         | None => lit "manual"
                         end
          /\ (validate = true ->
              exists si, queried = Ok si
                         /\ query_failures r' = 0
                         /\ last_queried r' = Some now2
                         /\ name r' = ServerInfo.name si
                         /\ info r' = ServerInfo.info si
                         /\ news r' = ServerInfo.news si
                         /\ players r' = ServerInfo.players si
                         /\ max_players r' = ServerInfo.max_players si
                         /\ icon r' = ServerInfo.icon si)).
Proof.
  intros create_connection wrap_socket new_id now1 now2 ct ip0 port0 web
         validate timeout db out queried.
  subst out queried. unfold DSSBManager.add_manual_server.
  pose proof (add_server_get new_id now1 ct ip0 port0 (lit "manual")
                false false web db) as Hadd.
  assert (Hsrc : forall r, merge_source (lit "manual") (source r)
                           = if str_eqb (source r) (lit "favorite")
                             then lit "favorite" else lit "manual").
  { intros r. unfold merge_source.
    change (str_eqb (lit "manual") (lit "favorite")) with false. reflexivity. }
  destruct validate.
  - destruct (DSSBManager.query_dss create_connection wrap_socket ip0 port0
                timeout) as [si|e]; cbn [fst snd is_ok].
    + split; [split; [discriminate | intros [_ H]; discriminate H]|].
      split; [discriminate|]. intros _.
      unfold get_server, update_server_info in *.
      rewrite find_update_where by reflexivity. rewrite Hadd.
      cbn [option_map]. eexists. split; [reflexivity|].
      destruct (find (is_key ip0 port0) db) as [r|]; cbn;
        repeat match goal with
               | |- _ /\ _ => split; [first [reflexivity | apply Hsrc]|]
               end;
        intros _; exists si; repeat split.
    + split; [split; [auto | reflexivity]|].
      split; [reflexivity | discriminate].
  - cbn [fst snd].
    split; [split; [discriminate | intros [H _]; discriminate H]|].
    split; [discriminate|]. intros _. rewrite Hadd. eexists.
    split; [reflexivity|].
    destruct (get_server ip0 port0 db) as [r|]; cbn;
      repeat match goal with
             | |- _ /\ _ => split; [first [reflexivity | apply Hsrc]|]
             end;
      discriminate.
Qed.

Lemma add_manual_server_outcome_witness :
  let out :=
    DSSBManager.add_manual_server Examples.connect_refused
      (fun _ => Examples.tls_closed) 4 300 301 300
      Examples.ip2 7777 None true 5 Examples.db0 in
  snd out = false /\ fst out = (Examples.db0, []).
Proof.
  cbv zeta. split; [reflexivity|].
  apply (add_manual_server_outcome Examples.connect_refused
           (fun _ => Examples.tls_closed) 4 300 301 300
           Examples.ip2 7777 None true 5 Examples.db0).
  reflexivity.
Defined.

Lemma add_manual_server_example :
  let out :=
    DSSBManager.add_manual_server Examples.connect_peer
      (fun _ => Examples.tls_closed) 4 300 301 300
      Examples.ip2 7777 None true 5 Examples.db0 in
  snd out = true
  /\ option_map source (get_server Examples.ip2 7777 (fst (fst out)))
     = Some (lit "manual")
  /\ option_map name (get_server Examples.ip2 7777 (fst (fst out)))
     = Some (Some (lit "Test"))
  /\ option_map query_failures (get_server Examples.ip2 7777 (fst (fst out)))
     = Some 0.
Proof. vm_compute. repeat split. Qed.

(** X20. [query_server] adds no row and deletes none; it returns nothing
    exactly when the query failed; with no row for the key the table is
    left as it was, and with a row the row's failures go to 0 on
    success and up by 1 on failure. *)
Theorem query_server_spec :
  forall create_connection wrap_socket now ip0 port0 timeout db,
    let out := DSSBManager.query_server create_connection wrap_socket now
                 ip0 port0 timeout db in
    let queried :=
      DSSBManager.query_dss create_connection wrap_socket ip0 port0 timeout in
    map key (fst (fst out)) = map key db
    /\ snd out = match queried with Ok info0 => Some info0 | Raise _ => None end
    /\ match get_server ip0 port0 db with
       | None => fst (fst out) = db
       | Some r =>
         exists r',
           get_server ip0 port0 (fst (fst out)) = Some r'
           /\ last_queried r' = Some now
           /\ query_failures r'
              = if is_ok queried then 0 else query_failures r + 1
       end.
Proof.
  intros create_connection wrap_socket now ip0 port0 timeout db out queried.
  subst out queried. unfold DSSBManager.query_server.
  destruct (DSSBManager.query_dss create_connection wrap_socket ip0 port0
              timeout)
    as [si|e]; destruct (get_server ip0 port0 db) as [r|] eqn:Hget;
    cbn [fst snd is_ok]; (split; [|split; [reflexivity|]]);
    try reflexivity;
    try (apply map_key_update_where; reflexivity);
    unfold get_server, update_server_info, mark_query_failure in *;
    rewrite find_update_where by reflexivity; rewrite Hget;
    eexists; (split; [reflexivity|]); split; reflexivity.
Qed.

(** X21. [toggle_favorite] on a key with no row returns false and leaves
    the table as it was; on a stored key it returns whether the row is a
    favorite afterwards: a favorite becomes 'manual', every other row
    becomes a favorite, and nothing else of the row changes. *)
Theorem toggle_favorite_spec :
  forall ip0 port0 db,
    let out := DSSBManager.toggle_favorite ip0 port0 db in
    match get_server ip0 port0 db with
    | None => out = (db, [], false)
    | Some r =>
      get_server ip0 port0 (fst (fst out))
      = Some (mkRow (id r) (ip r) (port r) (name r) (info r) (news r)
                (players r) (max_players r) (icon r) (website r)
                (if str_eqb (source r) (lit "favorite")
                 then lit "manual" else lit "favorite")
                (trusted r) (important r) (last_seen r) (last_queried r)
                (query_failures r) (added_date r))
      /\ snd out = negb (str_eqb (source r) (lit "favorite"))
      /\ map key (fst (fst out)) = map key db
    end.
Proof.
  intros ip0 port0 db out. subst out. unfold DSSBManager.toggle_favorite.
  destruct (get_server ip0 port0 db) as [r|] eqn:Hget; [|reflexivity].
  cbn [fst snd]. split; [|split; [reflexivity|]].
  - rewrite (set_favorite_get ip0 port0 _ db r Hget).
    destruct (str_eqb (source r) (lit "favorite")); reflexivity.
  - unfold set_favorite. destruct (negb _);
      apply map_key_update_where; reflexivity.
Qed.

(** X22. Toggling the favorite mark twice gives the row back only when
    it was 'manual' or a favorite: a row of any other source ends as
    'manual'. *)
Theorem toggle_favorite_twice :
  forall ip0 port0 db r,
    get_server ip0 port0 db = Some r ->
    let db2 :=
      fst (fst (DSSBManager.toggle_favorite ip0 port0
                  (fst (fst (DSSBManager.toggle_favorite ip0 port0 db))))) in
    get_server ip0 port0 db2
    = Some (mkRow (id r) (ip r) (port r) (name r) (info r) (news r)
              (players r) (max_players r) (icon r) (website r)
              (if str_eqb (source r) (lit "favorite")
               then lit "favorite" else lit "manual")
              (trusted r) (important r) (last_seen r) (last_queried r)
              (query_failures r) (added_date r)).
Proof.
  intros ip0 port0 db r Hget db2. subst db2.
  unfold DSSBManager.toggle_favorite at 2. rewrite Hget. cbn [fst].
  pose proof (set_favorite_get ip0 port0
                (negb (str_eqb (source r) (lit "favorite"))) db r Hget) as H1.
  unfold DSSBManager.toggle_favorite. rewrite H1. cbn [fst source].
  rewrite (set_favorite_get ip0 port0 _ _ _ H1).
  destruct (str_eqb (source r) (lit "favorite")); reflexivity.
Qed.

Lemma toggle_favorite_twice_witness :
  get_server Examples.ip2 7777 Examples.db0 = Some Examples.dyn_row
  /\ option_map source
       (get_server Examples.ip2 7777
          (fst (fst (DSSBManager.toggle_favorite Examples.ip2 7777
                       (fst (fst (DSSBManager.toggle_favorite Examples.ip2 7777
                                    Examples.db0)))))))
     = Some (lit "manual").
Proof.
  split; [reflexivity|].
  rewrite (toggle_favorite_twice Examples.ip2 7777 Examples.db0
             Examples.dyn_row eq_refl).
  reflexivity.
Defined.

(* ===================================================================== *)
(** * Further properties of the protocol client *)
(* ===================================================================== *)

Section DecoderFacts.

Lemma utf8_decode_ignore_decoded s : utf8_decode ignore s = Ok (decoded s).
Proof.
  unfold decoded. destruct (utf8_roundtrip s) as (t & enc & Hd & _).
  rewrite Hd. reflexivity.
Qed.

(** Decoding with errors ignored goes through the input from left to
    right and either drops a run of bytes or turns the encoding of a
    code point into that code point. *)
Lemma utf8_decode_ignore_ind (P : bytes -> str -> Prop) :
  P [] [] ->
  (forall bs s t, P s t -> P (bs ++ s) t) ->
  (forall c bs s t, utf8_encode_char c = Ok bs -> P s t -> P (bs ++ s) (c :: t)) ->
  forall s, P s (decoded s).
Proof.
  intros Hnil Hdrop Hchar.
  assert (Haux : forall n s, (length s <= n)%nat ->
                             exists t, utf8_decode ignore s = Ok t /\ P s t).
  { induction n as [|n IH]; intros s Hlen.
    - destruct s; [|simpl in Hlen; lia]. exists []. split; [reflexivity|exact Hnil].
    - assert (Hskip : forall (bs s' : bytes) (x : result str),
                 s = bs ++ s' -> bs <> [] ->
                 x = utf8_decode ignore s' ->
                 exists t, x = Ok t /\ P s t).
      { intros bs s' x -> Hne ->.
        assert (Hs' : (length s' <= n)%nat).
        { rewrite length_app in Hlen. destruct bs; [congruence|simpl in Hlen; lia]. }
        destruct (IH s' Hs') as (t & Hd & Hp).
        exists t. split; [exact Hd|]. now apply Hdrop. }
      assert (Hemit : forall (bs s' : bytes) (c : codepoint),
                 s = bs ++ s' -> bs <> [] ->
                 utf8_encode_char c = Ok bs ->
                 exists t, cons_ok c (utf8_decode ignore s') = Ok t /\ P s t).
      { intros bs s' c -> Hne Hc.
        assert (Hs' : (length s' <= n)%nat).
        { rewrite length_app in Hlen. destruct bs; [congruence|simpl in Hlen; lia]. }
        destruct (IH s' Hs') as (t & Hd & Hp).
        exists (c :: t). rewrite Hd. split; [reflexivity|]. now apply Hchar. }
      assert (Htrunc : exists t, @Ok str [] = Ok t /\ P s t).
      { exists []. split; [reflexivity|].
        rewrite <- (app_nil_r s). now apply Hdrop. }
      destruct s as [|b1 s1].
      { exists []. split; [reflexivity|exact Hnil]. }
      cbn [utf8_decode].
      pose proof (byte.unsigned_range b1) as R1.
      pose proof (byte.of_Z_unsigned b1) as E1.
      set (c1 := byte.unsigned b1) in *.
      destruct (Z.ltb_spec c1 128).
      { apply (Hemit [b1] s1 c1); [reflexivity | discriminate |].
        rewrite encode_char_1, E1 by lia. reflexivity. }
      destruct (Z.ltb_spec c1 194).
      { apply (Hskip [b1] s1); [reflexivity | discriminate | reflexivity]. }
      destruct (Z.ltb_spec c1 224).
      { destruct s1 as [|b2 s2]; [exact Htrunc|].
        pose proof (byte.of_Z_unsigned b2) as E2.
        set (c2 := byte.unsigned b2) in *.
        destruct (is_continuation c2) eqn:K2; cbn [negb].
        - apply is_continuation_spec in K2.
          apply (Hemit [b1; b2] s2); [reflexivity | discriminate |].
          rewrite encode_char_2, E1, E2 by lia. reflexivity.
        - apply (Hskip [b1] (b2 :: s2)); [reflexivity | discriminate | reflexivity]. }
      destruct (Z.ltb_spec c1 240).
      { destruct s1 as [|b2 s2]; [exact Htrunc|].
        pose proof (byte.of_Z_unsigned b2) as E2.
        set (c2 := byte.unsigned b2) in *.
        destruct (is_continuation c2) eqn:K2; cbn [negb orb];
          [|apply (Hskip [b1] (b2 :: s2));
            [reflexivity | discriminate | reflexivity]].
        apply is_continuation_spec in K2.
        destruct (if c2 <? 160 then c1 =? 224 else c1 =? 237) eqn:G2;
          [apply (Hskip [b1] (b2 :: s2));
           [reflexivity | discriminate | reflexivity]|].
        destruct s2 as [|b3 s3]; [exact Htrunc|].
        pose proof (byte.of_Z_unsigned b3) as E3.
        set (c3 := byte.unsigned b3) in *.
        destruct (is_continuation c3) eqn:K3; cbn [negb];
          [|apply (Hskip [b1; b2] (b3 :: s3));
            [reflexivity | discriminate | reflexivity]].
        apply is_continuation_spec in K3.
        apply (Hemit [b1; b2; b3] s3); [reflexivity | discriminate |].
        rewrite encode_char_3, E1, E2, E3; try lia; try reflexivity.
        - intros ->. destruct (Z.ltb_spec c2 160); [discriminate | lia].
        - intros ->. destruct (Z.ltb_spec c2 160); [lia | discriminate]. }
      destruct (Z.ltb_spec c1 245).
      { destruct s1 as [|b2 s2]; [exact Htrunc|].
        pose proof (byte.of_Z_unsigned b2) as E2.
        set (c2 := byte.unsigned b2) in *.
        destruct (is_continuation c2) eqn:K2; cbn [negb orb];
          [|apply (Hskip [b1] (b2 :: s2));
            [reflexivity | discriminate | reflexivity]].
        apply is_continuation_spec in K2.
        destruct (if c2 <? 144 then c1 =? 240 else c1 =? 244) eqn:G2;
          [apply (Hskip [b1] (b2 :: s2));
           [reflexivity | discriminate | reflexivity]|].
        destruct s2 as [|b3 s3]; [exact Htrunc|].
        pose proof (byte.of_Z_unsigned b3) as E3.
        set (c3 := byte.unsigned b3) in *.
        destruct (is_continuation c3) eqn:K3; cbn [negb];
          [|apply (Hskip [b1; b2] (b3 :: s3));
            [reflexivity | discriminate | reflexivity]].
        apply is_continuation_spec in K3.
        destruct s3 as [|b4 s4]; [exact Htrunc|].
        pose proof (byte.of_Z_unsigned b4) as E4.
        set (c4 := byte.unsigned b4) in *.
        destruct (is_continuation c4) eqn:K4; cbn [negb];
          [|apply (Hskip [b1; b2; b3] (b4 :: s4));
            [reflexivity | discriminate | reflexivity]].
        apply is_continuation_spec in K4.
        apply (Hemit [b1; b2; b3; b4] s4); [reflexivity | discriminate |].
        rewrite encode_char_4, E1, E2, E3, E4; try lia; try reflexivity.
        - intros ->. destruct (Z.ltb_spec c2 144); [discriminate | lia].
        - intros ->. destruct (Z.ltb_spec c2 144); [lia | discriminate]. }
      apply (Hskip [b1] s1); [reflexivity | discriminate | reflexivity]. }
  intros s. destruct (Haux (length s) s (Nat.le_refl _)) as (t & Hd & Hp).
  unfold decoded. rewrite Hd. exact Hp.
Qed.

Lemma encode_char_scalar c bs :
  utf8_encode_char c = Ok bs -> scalar_value c.
Proof.
  unfold utf8_encode_char, scalar_value.
  destruct (Z.ltb_spec c 0); [discriminate|].
  destruct (Z.ltb_spec c 0x80); [intros _; lia|].
  destruct (Z.ltb_spec c 0x800); [intros _; lia|].
  destruct (Z.ltb_spec c 0x10000).
  - destruct (Z.leb_spec 0xD800 c); destruct (Z.ltb_spec c 0xE000);
      cbn [andb]; try discriminate; intros _; lia.
  - destruct (Z.ltb_spec c 0x110000); [intros _; lia | discriminate].
Qed.

Lemma encode_char_zero bs :
  utf8_encode_char 0 = Ok bs -> bs = [Byte.x00].
Proof. vm_compute. intros H. inversion H. reflexivity. Qed.

End DecoderFacts.

(** X23. Text decoded with errors ignored holds only Unicode scalar
    values, and it holds the character NUL only if the bytes held the
    byte 00. *)
Theorem decoded_text_clean :
  forall s,
    Forall scalar_value (decoded s)
    /\ (~ In Byte.x00 s -> ~ In 0 (decoded s)).
Proof.
  intros s. split.
  - apply (utf8_decode_ignore_ind (fun _ t => Forall scalar_value t)).
    + constructor.
    + auto.
    + intros c bs s' t Hc Ht. constructor; [|exact Ht].
      exact (encode_char_scalar c bs Hc).
  - apply (utf8_decode_ignore_ind
             (fun s t => ~ In Byte.x00 s -> ~ In 0 t)).
    + auto.
    + intros bs s' t IH Hno. apply IH. intros Hin. apply Hno.
      apply in_or_app. now right.
    + intros c bs s' t Hc IH Hno [Hz | Hin].
      * subst c. apply encode_char_zero in Hc. subst bs.
        apply Hno. now left.
      * revert Hin. apply IH. intros Hin. apply Hno.
        apply in_or_app. now right.
Qed.

Lemma decoded_text_clean_witness :
  ~ In Byte.x00 (Frames.ascii_bytes "Test")
  /\ ~ In 0 (decoded (Frames.ascii_bytes "Test")).
Proof.
  assert (H : ~ In Byte.x00 (Frames.ascii_bytes "Test")).
  { vm_compute. intros H.
    repeat (destruct H as [H|H]; [discriminate H|]). exact H. }
  split; [exact H|].
  exact (proj2 (decoded_text_clean (Frames.ascii_bytes "Test")) H).
Defined.

Section ListServerFacts.

Lemma byte_zero_iff (b : byte) : byte.unsigned b = 0 <-> b = Byte.x00.
Proof.
  split; [|intros ->; reflexivity].
  intros H. apply byte.unsigned_inj. rewrite H. reflexivity.
Qed.

Lemma find_zero_app (s rest : bytes) pos :
  ~ In Byte.x00 s ->
  find_zero (s ++ Byte.x00 :: rest) pos = Some (pos + length s)%nat.
Proof.
  revert pos. induction s as [|b s IH]; intros pos Hno; simpl.
  - f_equal. lia.
  - destruct (Z.eqb_spec (byte.unsigned b) 0) as [Hz|Hz].
    + exfalso. apply Hno. left. apply byte_zero_iff in Hz. now subst b.
    + rewrite IH by (intros Hin; apply Hno; now right). f_equal. lia.
Qed.

Lemma find_zero_inv (l : bytes) pos e :
  find_zero l pos = Some e ->
  exists s rest, l = s ++ Byte.x00 :: rest /\ ~ In Byte.x00 s
                 /\ e = (pos + length s)%nat.
Proof.
  revert pos. induction l as [|b l IH]; intros pos H; simpl in H; [discriminate|].
  destruct (Z.eqb_spec (byte.unsigned b) 0) as [Hz|Hz].
  - inversion H; subst. apply byte_zero_iff in Hz. subst b.
    exists [], l. simpl. repeat split; [tauto | lia].
  - destruct (IH _ H) as (s & rest & -> & Hno & ->).
    exists (b :: s), rest. simpl. repeat split; [|lia].
    intros [Hb | Hin]; [|tauto]. apply Hz. subst b. reflexivity.
Qed.

Lemma skipn_app_length {A} (pre l : list A) : skipn (length pre) (pre ++ l) = l.
Proof. rewrite skipn_app, skipn_all, Nat.sub_diag. reflexivity. Qed.

Lemma skipn_skipn_add {A} (n m : nat) (l : list A) :
  skipn (n + m) l = skipn m (skipn n l).
Proof.
  revert l. induction n as [|n IH]; intros l; simpl; [reflexivity|].
  destruct l; [now rewrite skipn_nil | apply IH].
Qed.

(** [read_cstring] at an offset, in terms of what is left of the buffer
    from there. *)
Lemma read_cstring_at (buf s rest : bytes) off :
  skipn off buf = s ++ Byte.x00 :: rest ->
  ~ In Byte.x00 s ->
  read_cstring buf off = Ok (decoded s, S (off + length s))
  /\ skipn (S (off + length s)) buf = rest.
Proof.
  intros Hbuf Hno. unfold read_cstring, index_zero, slice.
  rewrite Hbuf, find_zero_app by exact Hno. cbn [bind].
  replace (off + length s - off)%nat with (length s) by lia.
  rewrite firstn_app, firstn_all, Nat.sub_diag. cbn [firstn].
  rewrite app_nil_r, utf8_decode_ignore_decoded. cbn [bind].
  split; [reflexivity|].
  replace (S (off + length s)) with (off + length (s ++ [Byte.x00]))%nat
    by (rewrite length_app; simpl; lia).
  rewrite skipn_skipn_add, Hbuf.
  change (s ++ Byte.x00 :: rest) with (s ++ [Byte.x00] ++ rest).
  rewrite app_assoc. apply skipn_app_length.
Qed.

Lemma read_cstring_inv (buf : bytes) off t off' :
  read_cstring buf off = Ok (t, off') ->
  exists s rest,
    skipn off buf = s ++ Byte.x00 :: rest /\ ~ In Byte.x00 s
    /\ t = decoded s /\ off' = S (off + length s)
    /\ skipn off' buf = rest.
Proof.
  unfold read_cstring, index_zero. intros H.
  destruct (find_zero (skipn off buf) off) as [e|] eqn:Hf; [|discriminate].
  destruct (find_zero_inv _ _ _ Hf) as (s & rest & Hbuf & Hno & ->).
  destruct (read_cstring_at buf s rest off Hbuf Hno) as [Hread Hskip].
  unfold read_cstring, index_zero in Hread. rewrite Hf in Hread.
  rewrite Hread in H. exists s, rest. inversion H. auto.
Qed.

Lemma unpack_from_I_skipn (buf vb rest : bytes) off :
  skipn off buf = vb ++ rest -> length vb = 4%nat ->
  unpack_from_I buf off = Ok (le_combine vb).
Proof.
  intros Hbuf Hvb. unfold unpack_from_I.
  assert (Hlen : (off + 4 <= length buf)%nat).
  { pose proof (f_equal (@length byte) Hbuf) as HL.
    rewrite length_skipn, length_app, Hvb in HL. lia. }
  apply Nat.leb_le in Hlen. rewrite Hlen, Hbuf, <- Hvb.
  rewrite firstn_app, firstn_all, Nat.sub_diag. cbn [firstn].
  rewrite app_nil_r. reflexivity.
Qed.

Lemma unpack_from_I_inv (buf : bytes) off n :
  unpack_from_I buf off = Ok n ->
  exists vb rest, skipn off buf = vb ++ rest /\ length vb = 4%nat
                  /\ n = le_combine vb /\ skipn (off + 4) buf = rest.
Proof.
  unfold unpack_from_I. destruct (Nat.leb_spec (off + 4) (length buf)) as [Hl|Hl];
    [|discriminate].
  intros H. inversion H; subst.
  exists (firstn 4 (skipn off buf)), (skipn 4 (skipn off buf)).
  rewrite firstn_skipn. repeat split.
  - rewrite length_firstn, length_skipn. lia.
  - apply skipn_skipn_add.
Qed.

Lemma unpack_from_HH_skipn (buf h1 h2 rest : bytes) off :
  skipn off buf = h1 ++ h2 ++ rest -> length h1 = 2%nat -> length h2 = 2%nat ->
  unpack_from_HH buf off = Ok (le_combine h1, le_combine h2).
Proof.
  intros Hbuf H1 H2. unfold unpack_from_HH.
  assert (Hlen : (off + 4 <= length buf)%nat).
  { pose proof (f_equal (@length byte) Hbuf) as HL.
    rewrite length_skipn, !length_app, H1, H2 in HL. lia. }
  apply Nat.leb_le in Hlen. rewrite Hlen.
  assert (F1 : firstn 2 (skipn off buf) = h1).
  { rewrite Hbuf, <- H1, firstn_app, firstn_all, Nat.sub_diag. cbn [firstn].
    apply app_nil_r. }
  assert (F2 : firstn 2 (skipn (off + 2) buf) = h2).
  { rewrite skipn_skipn_add, Hbuf, <- H1, skipn_app_length.
    rewrite H1, <- H2, firstn_app, firstn_all, Nat.sub_diag. cbn [firstn].
    apply app_nil_r. }
  rewrite F1, F2. reflexivity.
Qed.

Lemma unpack_from_HH_inv (buf : bytes) off p m :
  unpack_from_HH buf off = Ok (p, m) ->
  exists h1 h2 rest,
    skipn off buf = h1 ++ h2 ++ rest /\ length h1 = 2%nat /\ length h2 = 2%nat
    /\ p = le_combine h1 /\ m = le_combine h2.
Proof.
  unfold unpack_from_HH.
  destruct (Nat.leb_spec (off + 4) (length buf)) as [Hl|Hl]; [|discriminate].
  intros H. inversion H; subst.
  exists (firstn 2 (skipn off buf)), (firstn 2 (skipn (off + 2) buf)),
    (skipn 2 (skipn (off + 2) buf)).
  rewrite firstn_skipn. rewrite (skipn_skipn_add off 2), firstn_skipn.
  repeat split; rewrite length_firstn, ?length_skipn; lia.
Qed.

Lemma le_combine_le_split_2 v :
  0 <= v < 2 ^ 16 -> le_combine (le_split 2 v) = v.
Proof. intros H. rewrite le_combine_split. apply Z.mod_small. exact H. Qed.

End ListServerFacts.

(** X24. [parse_list_server] reads a listing response of the layout of
    the protocol: whatever the first five bytes (length and message
    type) are and whatever follows max_players, it returns the three
    texts, decoded, the icon byte for byte and the two counts. The
    texts hold no byte 00, the icon is shorter than 4 GiB and the counts
    are 16-bit values. *)
Theorem parse_list_server_layout :
  forall (hdr nm inf nw ic tail : bytes) (p m : Z),
    length hdr = 5%nat ->
    ~ In Byte.x00 nm -> ~ In Byte.x00 inf -> ~ In Byte.x00 nw ->
    Z.of_nat (length ic) < 2 ^ 32 ->
    0 <= p < 2 ^ 16 -> 0 <= m < 2 ^ 16 ->
    parse_list_server
      (hdr ++ nm ++ [Byte.x00] ++ inf ++ [Byte.x00] ++ nw ++ [Byte.x00]
           ++ le_split 4 (Z.of_nat (length ic)) ++ ic
           ++ le_split 2 p ++ le_split 2 m ++ tail)
    = Ok (ServerInfo.mk (Some (decoded nm)) (Some (decoded inf))
            (Some (decoded nw)) (Some p) (Some m) (Some ic)).
Proof.
  intros hdr nm inf nw ic tail p m Hhdr Hnm Hinf Hnw Hic Hp Hm.
  unfold parse_list_server, slice_from.
  rewrite <- Hhdr, skipn_app_length.
  set (buf := nm ++ [Byte.x00] ++ inf ++ [Byte.x00] ++ nw ++ [Byte.x00]
              ++ le_split 4 (Z.of_nat (length ic)) ++ ic
              ++ le_split 2 p ++ le_split 2 m ++ tail).
  destruct (read_cstring_at buf nm _ 0 eq_refl Hnm) as [R1 S1].
  rewrite R1. cbn [bind].
  destruct (read_cstring_at buf inf _ _ S1 Hinf) as [R2 S2].
  rewrite R2. cbn [bind].
  destruct (read_cstring_at buf nw _ _ S2 Hnw) as [R3 S3].
  rewrite R3. cbn [bind].
  set (off := S (S (S (0 + length nm) + length inf) + length nw)) in *.
  rewrite (unpack_from_I_skipn buf _ _ off S3 (length_le_split 4 _)).
  cbn [bind]. rewrite le_combine_le_split_4 by lia. rewrite Nat2Z.id.
  assert (S4 : skipn (off + 4) buf
               = ic ++ le_split 2 p ++ le_split 2 m ++ tail).
  { rewrite skipn_skipn_add, S3.
    rewrite <- (length_le_split 4 (Z.of_nat (length ic))) at 1.
    apply skipn_app_length. }
  assert (S5 : skipn (off + 4 + length ic) buf
               = le_split 2 p ++ le_split 2 m ++ tail).
  { rewrite skipn_skipn_add, S4. apply skipn_app_length. }
  rewrite (unpack_from_HH_skipn buf _ _ _ _ S5 (length_le_split 2 _)
             (length_le_split 2 _)).
  cbn [bind]. rewrite !le_combine_le_split_2 by assumption.
  unfold slice. rewrite S4.
  replace (off + 4 + length ic - (off + 4))%nat with (length ic) by lia.
  rewrite firstn_app, firstn_all, Nat.sub_diag. cbn [firstn].
  rewrite app_nil_r. reflexivity.
Qed.

Lemma parse_list_server_layout_witness :
  length (le_split 4 25 ++ [Byte.x07]) = 5%nat
  /\ ~ In Byte.x00 (Frames.ascii_bytes "Test")
  /\ ~ In Byte.x00 (Frames.ascii_bytes "Hi")
  /\ ~ In Byte.x00 []
  /\ Z.of_nat (length Examples.png) < 2 ^ 32
  /\ 0 <= 5 < 2 ^ 16 /\ 0 <= 20 < 2 ^ 16
  /\ parse_list_server (Examples.response Byte.x07)
     = Ok (ServerInfo.mk (Some (decoded (Frames.ascii_bytes "Test")))
             (Some (decoded (Frames.ascii_bytes "Hi"))) (Some (decoded []))
             (Some 5) (Some 20) (Some Examples.png)).
Proof.
  assert (H1 : ~ In Byte.x00 (Frames.ascii_bytes "Test")).
  { vm_compute. intros H. repeat (destruct H as [H|H]; [discriminate H|]).
    exact H. }
  assert (H2 : ~ In Byte.x00 (Frames.ascii_bytes "Hi")).
  { vm_compute. intros H. repeat (destruct H as [H|H]; [discriminate H|]).
    exact H. }
  assert (H3 : ~ In Byte.x00 []) by (intros H; exact H).
  assert (H4 : Z.of_nat (length Examples.png) < 2 ^ 32) by reflexivity.
  assert (H5 : 0 <= 5 < 2 ^ 16) by (split; [discriminate | reflexivity]).
  assert (H6 : 0 <= 20 < 2 ^ 16) by (split; [discriminate | reflexivity]).
  repeat (split; [assumption || reflexivity|]).
  exact (parse_list_server_layout (le_split 4 25 ++ [Byte.x07])
           (Frames.ascii_bytes "Test") (Frames.ascii_bytes "Hi") []
           Examples.png [] 5 20 eq_refl H1 H2 H3 H4 H5 H6).
Defined.

(** X25. [parse_list_server] returns only for packets of that layout:
    when it returns, the packet is five bytes, three texts with no byte
    00 each closed by a byte 00, the icon length, an icon of exactly
    that length, and the two counts, and the result holds these fields.
    So a response that is cut short, within a text, the icon or the
    counts, is never answered with a result. *)
Theorem parse_list_server_inversion :
  forall pkt si,
    parse_list_server pkt = Ok si ->
    exists hdr nm inf nw ic tail p m,
      pkt = hdr ++ nm ++ [Byte.x00] ++ inf ++ [Byte.x00] ++ nw ++ [Byte.x00]
                ++ le_split 4 (Z.of_nat (length ic)) ++ ic
                ++ le_split 2 p ++ le_split 2 m ++ tail
      /\ length hdr = 5%nat
      /\ ~ In Byte.x00 nm /\ ~ In Byte.x00 inf /\ ~ In Byte.x00 nw
      /\ Z.of_nat (length ic) < 2 ^ 32
      /\ 0 <= p < 2 ^ 16 /\ 0 <= m < 2 ^ 16
      /\ si = ServerInfo.mk (Some (decoded nm)) (Some (decoded inf))
                (Some (decoded nw)) (Some p) (Some m) (Some ic).
Proof.
  intros pkt si H. unfold parse_list_server, slice_from in H.
  set (buf := skipn 5 pkt) in *.
  destruct (read_cstring buf 0) as [[t1 off1]|] eqn:R1; [|discriminate].
  cbn [bind] in H.
  destruct (read_cstring buf off1) as [[t2 off2]|] eqn:R2; [|discriminate].
  cbn [bind] in H.
  destruct (read_cstring buf off2) as [[t3 off3]|] eqn:R3; [|discriminate].
  cbn [bind] in H.
  destruct (unpack_from_I buf off3) as [n|] eqn:U1; [|discriminate].
  cbn [bind] in H.
  destruct (unpack_from_HH buf (off3 + 4 + Z.to_nat n)) as [[p m]|] eqn:U2;
    [|discriminate].
  cbn [bind] in H.
  destruct (read_cstring_inv _ _ _ _ R1) as (nm & rest1 & B1 & Hnm & -> & -> & S1).
  destruct (read_cstring_inv _ _ _ _ R2) as (inf & rest2 & B2 & Hinf & -> & -> & S2).
  destruct (read_cstring_inv _ _ _ _ R3) as (nw & rest3 & B3 & Hnw & -> & -> & S3).
  destruct (unpack_from_I_inv _ _ _ U1) as (vb & rest4 & B4 & Hvb & -> & S4).
  destruct (unpack_from_HH_inv _ _ _ _ U2) as (h1 & h2 & tail & B5 & Hh1 & Hh2 & -> & ->).
  rewrite S1 in B2. rewrite S2 in B3. rewrite S3 in B4.
  set (off := S (S (S (0 + length nm) + length inf) + length nw)) in *.
  rewrite skipn_skipn_add, S4 in B5.
  pose proof (le_combine_bound_4 vb Hvb) as Bn.
  set (n := le_combine vb) in *.
  assert (Hic : length (firstn (Z.to_nat n) rest4) = Z.to_nat n).
  { pose proof (f_equal (@length byte) B5) as HL.
    rewrite length_skipn, !length_app, Hh1, Hh2 in HL.
    rewrite length_firstn. lia. }
  assert (Hlen : (5 < length pkt)%nat).
  { pose proof (f_equal (@length byte) B1) as HL.
    subst buf. rewrite skipn_O, length_skipn, length_app in HL.
    simpl in HL. lia. }
  exists (firstn 5 pkt), nm, inf, nw, (firstn (Z.to_nat n) rest4), tail,
    (le_combine h1), (le_combine h2).
  split; [|split; [rewrite length_firstn; lia|]].
  - rewrite <- (firstn_skipn 5 pkt) at 1. f_equal. fold buf.
    rewrite skipn_O in B1. rewrite B1. f_equal. cbn [app]. f_equal.
    rewrite B2. f_equal. f_equal. rewrite B3. f_equal. f_equal.
    rewrite B4. rewrite Hic, Z2Nat.id by lia. subst n.
    rewrite le_split_le_combine_4 by exact Hvb. f_equal.
    rewrite <- (firstn_skipn (Z.to_nat (le_combine vb)) rest4) at 1.
    f_equal.
    assert (E1 : le_split 2 (le_combine h1) = h1)
      by (rewrite <- Hh1; apply split_le_combine).
    assert (E2 : le_split 2 (le_combine h2) = h2)
      by (rewrite <- Hh2; apply split_le_combine).
    rewrite E1, E2. exact B5.
  - repeat (split; [assumption|]).
    split; [rewrite Hic, Z2Nat.id by lia; lia|].
    pose proof (le_combine_bound h1) as P1. rewrite Hh1 in P1.
    pose proof (le_combine_bound h2) as P2. rewrite Hh2 in P2.
    split; [exact P1|]. split; [exact P2|].
    assert (Hslice : slice buf (off + 4) (off + 4 + Z.to_nat n)
                     = firstn (Z.to_nat n) rest4).
    { unfold slice.
      replace (off + 4 + Z.to_nat n - (off + 4))%nat with (Z.to_nat n) by lia.
      rewrite S4. reflexivity. }
    rewrite Hslice in H. injection H as <-. reflexivity.
Qed.

Lemma parse_list_server_inversion_witness :
  parse_list_server (Examples.response Byte.x02)
  = Ok (ServerInfo.mk (Some (lit "Test")) (Some (lit "Hi")) (Some [])
          (Some 5) (Some 20) (Some Examples.png))
  /\ exists hdr nm inf nw ic tail p m,
      Examples.response Byte.x02
      = hdr ++ nm ++ [Byte.x00] ++ inf ++ [Byte.x00] ++ nw ++ [Byte.x00]
            ++ le_split 4 (Z.of_nat (length ic)) ++ ic
            ++ le_split 2 p ++ le_split 2 m ++ tail
      /\ length hdr = 5%nat
      /\ ~ In Byte.x00 nm /\ ~ In Byte.x00 inf /\ ~ In Byte.x00 nw
      /\ Z.of_nat (length ic) < 2 ^ 32
      /\ 0 <= p < 2 ^ 16 /\ 0 <= m < 2 ^ 16
      /\ ServerInfo.mk (Some (lit "Test")) (Some (lit "Hi")) (Some [])
           (Some 5) (Some 20) (Some Examples.png)
         = ServerInfo.mk (Some (decoded nm)) (Some (decoded inf))
             (Some (decoded nw)) (Some p) (Some m) (Some ic).
Proof.
  assert (H : parse_list_server (Examples.response Byte.x02)
              = Ok (ServerInfo.mk (Some (lit "Test")) (Some (lit "Hi"))
                      (Some []) (Some 5) (Some 20) (Some Examples.png)))
    by (vm_compute; reflexivity).
  split; [exact H|].
  exact (parse_list_server_inversion _ _ H).
Defined.

(** X26. [parse_whats_up] by the shape of the packet: with no fifth byte
    it raises IndexError; with a fifth byte that is not WHATS_UP it
    raises ValueError; with no sixth byte IndexError again; with fewer
    than ten bytes the error of [struct]; and from ten bytes on it
    returns the flags byte, the little-endian version and the decoded
    rest, whatever the bytes are. *)
Theorem parse_whats_up_cases :
  forall pkt,
    parse_whats_up pkt
    = match nth_error pkt 4 with
      | None => Raise IndexError
      | Some b0 =>
        if negb (byte.unsigned b0 =? NET_SVM_WHATS_UP)
        then Raise (ValueError "Expected WHATS_UP"%string)
        else
          match nth_error pkt 5 with
          | None => Raise IndexError
          | Some fl =>
            if (length pkt <? 10)%nat then Raise struct_error
            else Ok (byte.unsigned fl, le_combine (firstn 4 (skipn 6 pkt)),
                     decoded (skipn 10 pkt))
          end
      end.
Proof.
  intros pkt. unfold parse_whats_up, slice_from, index, unpack_from_I.
  destruct pkt as [|a0 [|a1 [|a2 [|a3 [|a4 [|a5 [|a6 [|a7 [|a8 [|a9 tl]]]]]]]]]];
    try reflexivity;
    cbn [skipn nth_error bind];
    destruct (byte.unsigned a4 =? NET_SVM_WHATS_UP); try reflexivity.
  cbn [negb length Nat.add Nat.leb Nat.ltb firstn].
  rewrite utf8_decode_ignore_decoded. reflexivity.
Qed.

Lemma parse_whats_up_cases_example :
  parse_whats_up [Byte.x04; Byte.x00; Byte.x00; Byte.x00] = Raise IndexError
  /\ parse_whats_up [Byte.x05; Byte.x00; Byte.x00; Byte.x00; Byte.x01]
     = Raise IndexError
  /\ parse_whats_up [Byte.x07; Byte.x00; Byte.x00; Byte.x00; Byte.x01;
                     Byte.x00; Byte.x03]
     = Raise struct_error.
Proof. repeat split. Qed.

Section ExchangeFacts.

Lemma recv_exact_short n (inc out : bytes) (t : bool) :
  0 < n -> Z.of_nat (length inc) < n ->
  recv_exact n (mk_socket inc out t)
  = (mk_socket [] out t, Raise (ConnectionError "Connection closed"%string)).
Proof.
  intros Hpos Hlt. unfold recv_exact. cbn [incoming sent tls].
  destruct (Z.leb_spec n 0); [lia|].
  destruct (Z.leb_spec n (Z.of_nat (length inc))); [lia|]. reflexivity.
Qed.

Lemma recv_packet_cut (payload out : bytes) (t : bool) (k : nat) :
  4 + Z.of_nat (length payload) < 2 ^ 32 ->
  (k < length (Frames.frame payload))%nat ->
  recv_packet (mk_socket (firstn k (Frames.frame payload)) out t)
  = (mk_socket [] out t, Raise (ConnectionError "Connection closed"%string)).
Proof.
  intros Hlen Hk. unfold recv_packet, Frames.frame in *.
  set (n := 4 + Z.of_nat (length payload)) in *.
  rewrite length_app, length_le_split in Hk.
  destruct (Nat.lt_ge_cases k 4) as [Hk4|Hk4].
  - rewrite recv_exact_short; [reflexivity | lia |].
    rewrite length_firstn, length_app, length_le_split. lia.
  - rewrite firstn_app, length_le_split.
    rewrite firstn_all2 by (rewrite length_le_split; lia).
    change 4 with (Z.of_nat (length (le_split 4 n))) at 1.
    rewrite recv_exact_app.
    change (le_split 4 n) with ([] ++ le_split 4 n) at 1.
    rewrite <- (app_nil_r ([] ++ le_split 4 n)), <- app_assoc.
    change 0%nat with (length (@nil byte)).
    rewrite unpack_from_I_at by apply length_le_split.
    rewrite le_combine_le_split_4 by (subst n; lia).
    rewrite recv_exact_short; [reflexivity | subst n; lia |].
    rewrite length_firstn. subst n. lia.
Qed.

End ExchangeFacts.

(** X27. A whole exchange: for a WHATS_UP greeting and a listing response
    of the layout of the protocol, [query_dss] returns the response's
    fields, has sent exactly the listing request, and has read both
    frames and nothing behind them. With bit 0 of the flags clear the
    exchange runs on the connection as it is. With the bit set the
    client starts the TLS handshake behind the greeting: when the
    handshake succeeds and the response is what the upgraded connection
    delivers, the exchange goes on as before on the socket the
    handshake gave, and when it fails the query ends with its error,
    with nothing sent. *)
Theorem query_dss_exchange :
  forall (wrap_socket : io unit) (flags ty : byte)
         (vb s nm inf nw ic rest out : bytes) (p m : Z) (t : bool),
    length vb = 4%nat ->
    Z.of_nat (length s) + 20 < 2 ^ 32 ->
    ~ In Byte.x00 nm -> ~ In Byte.x00 inf -> ~ In Byte.x00 nw ->
    Z.of_nat (length nm + length inf + length nw + length ic) + 20 < 2 ^ 32 ->
    0 <= p < 2 ^ 16 -> 0 <= m < 2 ^ 16 ->
    exists nv,
      utf8_encode (decoded s) = Ok nv
      /\ (Z.land (byte.unsigned flags) NET_SI_USE_SSL = 0 ->
          query_dss wrap_socket
            (mk_socket (Frames.greeting Byte.x01 flags vb s
                        ++ Frames.list_server ty nm inf nw ic p m ++ rest)
                       out t)
          = (mk_socket rest (out ++ Frames.listing_request vb nv) t,
             Ok (ServerInfo.mk (Some (decoded nm)) (Some (decoded inf))
                   (Some (decoded nw)) (Some p) (Some m) (Some ic))))
      /\ (Z.land (byte.unsigned flags) NET_SI_USE_SSL <> 0 ->
          forall (raw out1 : bytes) (t1 : bool),
            wrap_socket (mk_socket raw out t)
            = (mk_socket (Frames.list_server ty nm inf nw ic p m ++ rest)
                         out1 t1, Ok tt) ->
            query_dss wrap_socket
              (mk_socket (Frames.greeting Byte.x01 flags vb s ++ raw) out t)
            = (mk_socket rest (out1 ++ Frames.listing_request vb nv) t1,
               Ok (ServerInfo.mk (Some (decoded nm)) (Some (decoded inf))
                     (Some (decoded nw)) (Some p) (Some m) (Some ic))))
      /\ (Z.land (byte.unsigned flags) NET_SI_USE_SSL <> 0 ->
          forall (raw : bytes) (sock1 : socket) (e : exn),
            wrap_socket (mk_socket raw out t) = (sock1, Raise e) ->
            query_dss wrap_socket
              (mk_socket (Frames.greeting Byte.x01 flags vb s ++ raw) out t)
            = (sock1, Raise e)).
Proof.
  intros wrap_socket flags ty vb s nm inf nw ic rest out p m t
         Hvb Hs Hnm Hinf Hnw Hsize Hp Hm.
  destruct (utf8_roundtrip s) as (netver & nv & Hdec & Henc & Hle & _).
  assert (Hnv : netver = decoded s).
  { rewrite utf8_decode_ignore_decoded in Hdec. congruence. }
  subst netver. exists nv. split; [exact Henc|].
  assert (Hnvlen : Z.of_nat (length nv) + 20 < 2 ^ 32) by lia.
  unfold Frames.list_server.
  set (payload := [ty] ++ nm ++ [Byte.x00] ++ inf ++ [Byte.x00] ++ nw
                  ++ [Byte.x00] ++ le_split 4 (Z.of_nat (length ic)) ++ ic
                  ++ le_split 2 p ++ le_split 2 m).
  assert (Hpl : 4 + Z.of_nat (length payload) < 2 ^ 32).
  { subst payload. rewrite !length_app, !length_le_split. simpl length. lia. }
  assert (Hparse : parse_list_server (Frames.frame payload)
                   = Ok (ServerInfo.mk (Some (decoded nm)) (Some (decoded inf))
                           (Some (decoded nw)) (Some p) (Some m) (Some ic))).
  { unfold Frames.frame. subst payload.
    rewrite (app_assoc (le_split 4 _) [ty]).
    rewrite <- (app_nil_r (le_split 2 m)).
    rewrite <- !app_assoc.
    rewrite (app_assoc (le_split 4 _) [ty]).
    apply parse_list_server_layout; try assumption; try lia.
    rewrite length_app, length_le_split. reflexivity. }
  split; [|split].
  - intros Hclear.
    rewrite (query_dss_greeting wrap_socket flags vb s _ out t (decoded s) nv
               Hvb Hs Hdec Henc Hnvlen).
    rewrite Hclear. cbn [Z.eqb negb sendall fst incoming sent tls].
    rewrite recv_packet_frame by exact Hpl. rewrite Hparse. reflexivity.
  - intros Hset raw out1 t1 Hwrap. apply Z.eqb_neq in Hset.
    rewrite (query_dss_greeting wrap_socket flags vb s raw out t (decoded s) nv
               Hvb Hs Hdec Henc Hnvlen).
    rewrite Hset. cbn [negb]. rewrite Hwrap.
    cbn [sendall fst incoming sent tls].
    rewrite recv_packet_frame by exact Hpl. rewrite Hparse. reflexivity.
  - intros Hset raw sock1 e Hwrap. apply Z.eqb_neq in Hset.
    rewrite (query_dss_greeting wrap_socket flags vb s raw out t (decoded s) nv
               Hvb Hs Hdec Henc Hnvlen).
    rewrite Hset. cbn [negb]. rewrite Hwrap. reflexivity.
Qed.

Lemma query_dss_exchange_example :
  query_dss Examples.tls_accepted
    (mk_socket (Frames.greeting Byte.x01 Byte.x01 (le_split 4 3)
                  (Frames.ascii_bytes "1.0")
                ++ Examples.response Byte.x02 ++ [Byte.xaa]) [] false)
  = (mk_socket [Byte.xaa]
       (Frames.listing_request (le_split 4 3) (Frames.ascii_bytes "1.0")) true,
     Ok (ServerInfo.mk (Some (lit "Test")) (Some (lit "Hi")) (Some [])
           (Some 5) (Some 20) (Some Examples.png)))
  /\ query_dss Examples.tls_closed
       (mk_socket (Frames.greeting Byte.x01 Byte.x01 (le_split 4 3)
                     (Frames.ascii_bytes "1.0")
                   ++ Examples.response Byte.x02 ++ [Byte.xaa]) [] false)
     = (mk_socket [] [] false,
        Raise (SSLError "TLS/SSL connection has been closed (EOF)"%string)).
Proof. split; vm_compute; reflexivity. Qed.

(** X28. When the peer closes the connection before a frame is complete,
    [query_dss] raises ConnectionError ("Connection closed"): before
    the greeting is complete nothing has been sent. When the greeting
    was read and the response is cut short, the listing request has
    been sent: on the connection as it is with bit 0 of the flags
    clear, and with the bit set on the upgraded connection, provided
    the TLS handshake succeeded and the cut response is what the
    upgraded connection delivers. With the bit set and a handshake that
    fails, the query ends with the error of the handshake instead, and
    nothing has been sent. *)
Theorem query_dss_peer_closes_early :
  forall (wrap_socket : io unit) (payload out : bytes) (t : bool) (k : nat),
    4 + Z.of_nat (length payload) < 2 ^ 32 ->
    (k < length (Frames.frame payload))%nat ->
    query_dss wrap_socket
      (mk_socket (firstn k (Frames.frame payload)) out t)
    = (mk_socket [] out t, Raise (ConnectionError "Connection closed"%string))
    /\ forall (flags : byte) (vb s : bytes),
        length vb = 4%nat ->
        Z.of_nat (length s) + 20 < 2 ^ 32 ->
        exists nv,
          utf8_encode (decoded s) = Ok nv
          /\ (Z.land (byte.unsigned flags) NET_SI_USE_SSL = 0 ->
              query_dss wrap_socket
                (mk_socket (Frames.greeting Byte.x01 flags vb s
                            ++ firstn k (Frames.frame payload)) out t)
              = (mk_socket [] (out ++ Frames.listing_request vb nv) t,
                 Raise (ConnectionError "Connection closed"%string)))
          /\ (Z.land (byte.unsigned flags) NET_SI_USE_SSL <> 0 ->
              forall (raw out1 : bytes) (t1 : bool),
                wrap_socket (mk_socket raw out t)
                = (mk_socket (firstn k (Frames.frame payload)) out1 t1,
                   Ok tt) ->
                query_dss wrap_socket
                  (mk_socket (Frames.greeting Byte.x01 flags vb s ++ raw)
                             out t)
                = (mk_socket [] (out1 ++ Frames.listing_request vb nv) t1,
                   Raise (ConnectionError "Connection closed"%string)))
          /\ (Z.land (byte.unsigned flags) NET_SI_USE_SSL <> 0 ->
              forall (raw : bytes) (sock1 : socket) (e : exn),
                wrap_socket (mk_socket raw out t) = (sock1, Raise e) ->
                query_dss wrap_socket
                  (mk_socket (Frames.greeting Byte.x01 flags vb s ++ raw)
                             out t)
                = (sock1, Raise e)).
Proof.
  intros wrap_socket payload out t k Hlen Hk. split.
  - unfold query_dss. rewrite recv_packet_cut by assumption. reflexivity.
  - intros flags vb s Hvb Hs.
    destruct (utf8_roundtrip s) as (netver & nv & Hdec & Henc & Hle & _).
    assert (Hnv : netver = decoded s).
    { rewrite utf8_decode_ignore_decoded in Hdec. congruence. }
    subst netver. exists nv. split; [exact Henc|].
    assert (Hnvlen : Z.of_nat (length nv) + 20 < 2 ^ 32) by lia.
    split; [|split].
    + intros Hclear.
      rewrite (query_dss_greeting wrap_socket flags vb s _ out t (decoded s)
                 nv Hvb Hs Hdec Henc Hnvlen).
      rewrite Hclear. cbn [Z.eqb negb sendall fst incoming sent tls].
      rewrite recv_packet_cut by assumption. reflexivity.
    + intros Hset raw out1 t1 Hwrap. apply Z.eqb_neq in Hset.
      rewrite (query_dss_greeting wrap_socket flags vb s raw out t (decoded s)
                 nv Hvb Hs Hdec Henc Hnvlen).
      rewrite Hset. cbn [negb]. rewrite Hwrap.
      cbn [sendall fst incoming sent tls].
      rewrite recv_packet_cut by assumption. reflexivity.
    + intros Hset raw sock1 e Hwrap. apply Z.eqb_neq in Hset.
      rewrite (query_dss_greeting wrap_socket flags vb s raw out t (decoded s)
                 nv Hvb Hs Hdec Henc Hnvlen).
      rewrite Hset. cbn [negb]. rewrite Hwrap. reflexivity.
Qed.

Lemma query_dss_peer_closes_early_witness :
  4 + Z.of_nat (length (Frames.ascii_bytes "abc")) < 2 ^ 32
  /\ (5 < length (Frames.frame (Frames.ascii_bytes "abc")))%nat
  /\ query_dss Examples.tls_closed
       (mk_socket (firstn 5 (Frames.frame (Frames.ascii_bytes "abc")))
                  [] false)
     = (mk_socket [] [] false,
        Raise (ConnectionError "Connection closed"%string)).
Proof.
  assert (H1 : 4 + Z.of_nat (length (Frames.ascii_bytes "abc")) < 2 ^ 32)
    by reflexivity.
  assert (H2 : (5 < length (Frames.frame (Frames.ascii_bytes "abc")))%nat)
    by (vm_compute; repeat constructor).
  split; [exact H1|]. split; [exact H2|].
  exact (proj1 (query_dss_peer_closes_early Examples.tls_closed
                  (Frames.ascii_bytes "abc") [] false 5 H1 H2)).
Defined.

(** The second half of X28 on an example: a peer that asks for TLS and
    closes the connection behind its greeting. *)
Lemma query_dss_peer_closes_early_example :
  query_dss Examples.tls_closed
    (mk_socket (Frames.greeting Byte.x01 Byte.x01 (le_split 4 3)
                  (Frames.ascii_bytes "1.0")
                ++ firstn 5 (Frames.frame (Frames.ascii_bytes "abc")))
               [] false)
  = (mk_socket [] [] false,
     Raise (SSLError "TLS/SSL connection has been closed (EOF)"%string))
  /\ query_dss Examples.tls_closed
       (mk_socket (Frames.greeting Byte.x01 Byte.x00 (le_split 4 3)
                     (Frames.ascii_bytes "1.0")
                   ++ firstn 5 (Frames.frame (Frames.ascii_bytes "abc")))
                  [] false)
     = (mk_socket []
          (Frames.listing_request (le_split 4 3) (Frames.ascii_bytes "1.0"))
          false,
        Raise (ConnectionError "Connection closed"%string)).
Proof. split; vm_compute; reflexivity. Qed.

(** X29. A frame whose declared length is 4 or less (0 too) is read as a
    bare header: [query_dss] takes the four bytes, sends nothing and
    raises IndexError. *)
Theorem query_dss_undersized_frame :
  forall (wrap_socket : io unit) (hdr rest out : bytes) (t : bool),
    length hdr = 4%nat ->
    le_combine hdr <= 4 ->
    query_dss wrap_socket (mk_socket (hdr ++ rest) out t)
    = (mk_socket rest out t, Raise IndexError).
Proof.
  intros wrap_socket hdr rest out t Hhdr Hsize. unfold query_dss, recv_packet.
  replace 4 with (Z.of_nat (length hdr)) at 1 by (rewrite Hhdr; reflexivity).
  rewrite recv_exact_app.
  change hdr with ([] ++ hdr) at 1.
  rewrite <- (app_nil_r ([] ++ hdr)), <- app_assoc.
  change 0%nat with (length (@nil byte)).
  rewrite unpack_from_I_at by exact Hhdr.
  unfold recv_exact at 1.
  destruct (Z.leb_spec (le_combine hdr - 4) 0); [|lia].
  rewrite app_nil_r.
  destruct hdr as [|a0 [|a1 [|a2 [|a3 [|a4 hdr]]]]]; try discriminate Hhdr.
  reflexivity.
Qed.

Lemma query_dss_undersized_frame_witness :
  length (le_split 4 0) = 4%nat
  /\ le_combine (le_split 4 0) <= 4
  /\ query_dss Examples.tls_closed
       (mk_socket (le_split 4 0 ++ Examples.greeting_3) [] false)
     = (mk_socket Examples.greeting_3 [] false, Raise IndexError).
Proof.
  assert (H : le_combine (le_split 4 0) <= 4)
    by (vm_compute; intros E; discriminate E).
  split; [reflexivity|]. split; [exact H|].
  exact (query_dss_undersized_frame Examples.tls_closed (le_split 4 0)
           Examples.greeting_3 [] false eq_refl H).
Defined.

Section IconFacts.

Lemma startswith_spec (prefix data : bytes) :
  startswith data prefix = true <-> exists rest, data = prefix ++ rest.
Proof.
  revert data. induction prefix as [|p prefix IH]; intros data.
  - split; [intros _; exists data; reflexivity | intros _; destruct data; reflexivity].
  - destruct data as [|d data]; cbn [startswith].
    + split; [discriminate | intros [rest H]; discriminate H].
    + rewrite andb_true_iff, Z.eqb_eq, IH. split.
      * intros [Hd [rest ->]]. apply byte.unsigned_inj in Hd. subst d.
        exists rest. reflexivity.
      * intros [rest H]. inversion H; subst. split; [reflexivity|].
        exists rest. reflexivity.
Qed.

End IconFacts.

(** X30. [detect_icon_ext] answers "png" exactly for the data that start
    with the bytes 89 50 4E 47, "jpg" exactly for the data that start
    with FF D8, and "bin" for all other data, the empty one included. *)
Theorem detect_icon_ext_spec :
  forall data,
    (detect_icon_ext data = lit "png" <->
     exists rest, data = [Byte.x89; Byte.x50; Byte.x4e; Byte.x47] ++ rest)
    /\ (detect_icon_ext data = lit "jpg" <->
        exists rest, data = [Byte.xff; Byte.xd8] ++ rest)
    /\ (detect_icon_ext data = lit "bin" <->
        ~ (exists rest, data = [Byte.x89; Byte.x50; Byte.x4e; Byte.x47] ++ rest)
        /\ ~ (exists rest, data = [Byte.xff; Byte.xd8] ++ rest)).
Proof.
  intros data. unfold detect_icon_ext.
  rewrite <- !startswith_spec.
  assert (Hexcl : startswith data [Byte.x89; Byte.x50; Byte.x4e; Byte.x47] = true ->
                  startswith data [Byte.xff; Byte.xd8] = true -> False).
  { destruct data as [|d data]; [discriminate|]. cbn [startswith].
    rewrite !andb_true_iff, !Z.eqb_eq. intros [H1 _] [H2 _].
    rewrite H1 in H2. vm_compute in H2. discriminate H2. }
  destruct (startswith data [Byte.x89; Byte.x50; Byte.x4e; Byte.x47]) eqn:Hpng;
    destruct (startswith data [Byte.xff; Byte.xd8]) eqn:Hjpg;
    try (exfalso; now apply Hexcl);
    (split; [|split]); split; try reflexivity; try discriminate;
    try (vm_compute; intros H; discriminate H);
    try (intros [H1 H2]; congruence); try (intros _; split; discriminate).
Qed.

Lemma query_dss_exchange_witness :
  length (le_split 4 3) = 4%nat
  /\ Z.of_nat (length (Frames.ascii_bytes "1.0")) + 20 < 2 ^ 32
  /\ ~ In Byte.x00 (Frames.ascii_bytes "Test")
  /\ ~ In Byte.x00 (Frames.ascii_bytes "Hi")
  /\ ~ In Byte.x00 []
  /\ Z.of_nat (length (Frames.ascii_bytes "Test")
               + length (Frames.ascii_bytes "Hi") + length (@nil byte)
               + length Examples.png) + 20 < 2 ^ 32
  /\ 0 <= 5 < 2 ^ 16 /\ 0 <= 20 < 2 ^ 16
  /\ exists nv,
      utf8_encode (decoded (Frames.ascii_bytes "1.0")) = Ok nv
      /\ (Z.land (byte.unsigned Byte.x01) NET_SI_USE_SSL = 0 ->
          query_dss Examples.tls_accepted
            (mk_socket (Frames.greeting Byte.x01 Byte.x01 (le_split 4 3)
                          (Frames.ascii_bytes "1.0")
                        ++ Frames.list_server Byte.x02
                             (Frames.ascii_bytes "Test")
                             (Frames.ascii_bytes "Hi") [] Examples.png 5 20
                        ++ [Byte.xaa]) [] false)
          = (mk_socket [Byte.xaa]
               ([] ++ Frames.listing_request (le_split 4 3) nv) false,
             Ok (ServerInfo.mk (Some (decoded (Frames.ascii_bytes "Test")))
                   (Some (decoded (Frames.ascii_bytes "Hi")))
                   (Some (decoded [])) (Some 5) (Some 20)
                   (Some Examples.png))))
      /\ (Z.land (byte.unsigned Byte.x01) NET_SI_USE_SSL <> 0 ->
          forall (raw out1 : bytes) (t1 : bool),
            Examples.tls_accepted (mk_socket raw [] false)
            = (mk_socket (Frames.list_server Byte.x02
                            (Frames.ascii_bytes "Test")
                            (Frames.ascii_bytes "Hi") [] Examples.png 5 20
                          ++ [Byte.xaa]) out1 t1, Ok tt) ->
            query_dss Examples.tls_accepted
              (mk_socket (Frames.greeting Byte.x01 Byte.x01 (le_split 4 3)
                            (Frames.ascii_bytes "1.0") ++ raw) [] false)
            = (mk_socket [Byte.xaa]
                 (out1 ++ Frames.listing_request (le_split 4 3) nv) t1,
               Ok (ServerInfo.mk (Some (decoded (Frames.ascii_bytes "Test")))
                     (Some (decoded (Frames.ascii_bytes "Hi")))
                     (Some (decoded [])) (Some 5) (Some 20)
                     (Some Examples.png))))
      /\ (Z.land (byte.unsigned Byte.x01) NET_SI_USE_SSL <> 0 ->
          forall (raw : bytes) (sock1 : socket) (e : exn),
            Examples.tls_accepted (mk_socket raw [] false) = (sock1, Raise e) ->
            query_dss Examples.tls_accepted
              (mk_socket (Frames.greeting Byte.x01 Byte.x01 (le_split 4 3)
                            (Frames.ascii_bytes "1.0") ++ raw) [] false)
            = (sock1, Raise e)).
Proof.
  assert (H1 : ~ In Byte.x00 (Frames.ascii_bytes "Test")).
  { vm_compute. intros H. repeat (destruct H as [H|H]; [discriminate H|]).
    exact H. }
  assert (H2 : ~ In Byte.x00 (Frames.ascii_bytes "Hi")).
  { vm_compute. intros H. repeat (destruct H as [H|H]; [discriminate H|]).
    exact H. }
  assert (H3 : ~ In Byte.x00 []) by (intros H; exact H).
  assert (H0 : Z.of_nat (length (Frames.ascii_bytes "1.0")) + 20 < 2 ^ 32)
    by reflexivity.
  assert (H4 : Z.of_nat (length (Frames.ascii_bytes "Test")
                         + length (Frames.ascii_bytes "Hi")
                         + length (@nil byte) + length Examples.png) + 20
               < 2 ^ 32) by reflexivity.
  assert (H5 : 0 <= 5 < 2 ^ 16) by (split; [discriminate | reflexivity]).
  assert (H6 : 0 <= 20 < 2 ^ 16) by (split; [discriminate | reflexivity]).
  repeat (split; [assumption || reflexivity|]).
  exact (query_dss_exchange Examples.tls_accepted Byte.x01 Byte.x02
           (le_split 4 3)
           (Frames.ascii_bytes "1.0") (Frames.ascii_bytes "Test")
           (Frames.ascii_bytes "Hi") [] Examples.png [Byte.xaa] [] 5 20 false
           eq_refl H0 H1 H2 H3 H4 H5 H6).
Defined.

Lemma get_all_servers_listing_witness :
  get_all_servers None Examples.db0
  = [] ++ Examples.man_row :: [Examples.fav_row] ++ Examples.dyn_row :: []
  /\ (important Examples.dyn_row = true -> important Examples.man_row = true).
Proof.
  assert (H : get_all_servers None Examples.db0
              = [] ++ Examples.man_row :: [Examples.fav_row]
                   ++ Examples.dyn_row :: []) by reflexivity.
  split; [exact H|].
  exact (proj1 (proj2 (proj2 (get_all_servers_listing None Examples.db0)))
           [] Examples.man_row [Examples.fav_row] Examples.dyn_row [] H).
Defined.
